(** * qiskit-practice: parameter validation and noise application

    A shallow embedding of

    - [src/utils/validation.py]  ([validate_inputs], [InputValidator]),
    - [src/noise_models/amplitude_damping.py]  ([AmplitudeDampingNoise.apply]),
    - [main.py]  ([print_message], [get_input], [get_numeric_input],
      [switch_to_plot], [validate_and_prompt]),

    followed by the properties of the specification that concern them.

    Conventions.  Python [float] is IEEE binary64 and is modelled by Rocq's
    primitive [float]; Python [int] is [Z]; [str] is [string], read as ASCII
    ([lower] and [strip] act on the ASCII letters and white space only).
    A raised exception is the [Raise] outcome.  The parameter dictionary
    [args] of [main.py] is a [gmap string value]; it is mutated in place by
    the source and threaded through the calls here.  The console is the
    pair of what is still to be typed and what has been shown so far. *)

From Stdlib Require Import ZArith String Ascii List Bool Floats Lia.
From Stdlib Require Decimal DecimalString DecimalPos DecimalZ.
From stdpp Require Import gmap strings list fin_maps.

Set Warnings "-inexact-float,-register-all".

(** ** Python scaffolding shared by the three modules *)

Module Py.

(** The exceptions the modelled code can raise. *)
Inductive exn : Type :=
| ValueError (msg : string)
| KeyError (key : string)
| TypeError
| EOFError.

(** Outcome of a call: a returned value or a raised exception. *)
Inductive result (A : Type) : Type :=
| Ok (a : A)
| Raise (e : exn).
Arguments Ok {A} a.
Arguments Raise {A} e.

Definition bind {A B} (r : result A) (k : A -> result B) : result B :=
  match r with
  | Ok a => k a
  | Raise e => Raise e
  end.

(** [str.lower()] on ASCII. *)
Definition lower_ascii (c : ascii) : ascii :=
  let n := nat_of_ascii c in
  if (65 <=? n)%nat && (n <=? 90)%nat then ascii_of_nat (n + 32) else c.

Fixpoint lower (s : string) : string :=
  match s with
  | EmptyString => EmptyString
  | String c s' => String (lower_ascii c) (lower s')
  end.

(** ASCII white space as [str.isspace] sees it: TAB, LF, VT, FF, CR,
    FS, GS, RS, US and the space. *)
Definition is_space (c : ascii) : bool :=
  let n := nat_of_ascii c in
  ((9 <=? n)%nat && (n <=? 13)%nat) || ((28 <=? n)%nat && (n <=? 32)%nat).

Fixpoint lstrip (s : string) : string :=
  match s with
  | EmptyString => EmptyString
  | String c s' => if is_space c then lstrip s' else s
  end.

(** [rstrip]: a character stays when it is not blank or when something
    that stays follows it. *)
Fixpoint rstrip (s : string) : string :=
  match s with
  | EmptyString => EmptyString
  | String c s' =>
      match rstrip s' with
      | EmptyString => if is_space c then EmptyString else String c EmptyString
      | t => String c t
      end
  end.

Definition strip (s : string) : string := rstrip (lstrip s).

(** [x in l] for a string [x] and a list of strings [l]. *)
Definition str_in (x : string) (l : list string) : bool :=
  existsb (String.eqb x) l.

(** [a or b] on strings: the first operand unless it is empty. *)
Definition str_or (a b : string) : string :=
  match a with
  | EmptyString => b
  | _ => a
  end.

(** [repr] of a list of plain strings, as an f-string interpolates it
    (strings without quotes or escapes). *)
Definition repr_str (s : string) : string := "'" +:+ s +:+ "'".

Fixpoint repr_items (l : list string) : string :=
  match l with
  | [] => ""
  | [x] => repr_str x
  | x :: l' => repr_str x +:+ ", " +:+ repr_items l'
  end.

Definition repr_list (l : list string) : string := "[" +:+ repr_items l +:+ "]".

(** White space as C's [isspace] sees it, which is what [int] skips
    around an ASCII numeral: TAB, LF, VT, FF, CR and the space.  FS, GS, RS
    and US, which [str.strip] drops, are not among them. *)
Definition is_c_space (c : ascii) : bool :=
  let n := nat_of_ascii c in
  ((9 <=? n)%nat && (n <=? 13)%nat) || (n =? 32)%nat.

Fixpoint c_lstrip (s : string) : string :=
  match s with
  | EmptyString => EmptyString
  | String c s' => if is_c_space c then c_lstrip s' else s
  end.

Fixpoint c_rstrip (s : string) : string :=
  match s with
  | EmptyString => EmptyString
  | String c s' =>
      match c_rstrip s' with
      | EmptyString => if is_c_space c then EmptyString else String c EmptyString
      | t => String c t
      end
  end.

Definition c_strip (s : string) : string := c_rstrip (c_lstrip s).

(** [sys.get_int_max_str_digits()] as the interpreter starts with it: the
    longest decimal numeral [int] reads and [str] writes. *)
Definition int_max_str_digits : nat := 4300.

(** [str(k)] for a count [k]. *)
Definition str_of_nat (k : nat) : string :=
  DecimalString.NilZero.string_of_uint (Nat.to_uint k).

Definition digit_of (c : ascii) : option Z :=
  let n := nat_of_ascii c in
  if (48 <=? n)%nat && (n <=? 57)%nat then Some (Z.of_nat n - 48)%Z else None.

(** The number of digits in the run of digits and underscores a literal
    starts with, as [int] counts them before it converts (CPython 3.11);
    [None] when an underscore of the run does not stand between two
    digits. *)
Fixpoint digit_run (s : string) (count : nat) (after_digit : bool) : option nat :=
  match s with
  | EmptyString => if after_digit || (count =? 0)%nat then Some count else None
  | String c s' =>
      if Ascii.eqb c "_"%char then
        if after_digit then digit_run s' count false else None
      else
        match digit_of c with
        | Some _ => digit_run s' (S count) true
        | None => if after_digit || (count =? 0)%nat then Some count else None
        end
  end.

Fixpoint parse_digits (s : string) (acc : Z) (after_digit : bool) : option Z :=
  match s with
  | EmptyString => if after_digit then Some acc else None
  | String c s' =>
      if Ascii.eqb c "_"%char then
        if after_digit then parse_digits s' acc false else None
      else
        match digit_of c with
        | Some d => parse_digits s' (10 * acc + d)%Z true
        | None => None
        end
  end.

(** The builtin [int(s)] on a string, base 10: surrounding white space is
    dropped, one sign is allowed, and the digits may be grouped by single
    underscores.  A literal that starts with more than
    [int_max_str_digits] digits is refused for its length, whatever
    follows them. *)
Definition py_int (s : string) : result Z :=
  let t := c_strip s in
  let '(negative, body) :=
    match t with
    | String "-"%char r => (true, r)
    | String "+"%char r => (false, r)
    | _ => (false, t)
    end in
  let invalid :=
    ValueError ("invalid literal for int() with base 10: " +:+ repr_str s) in
  match digit_run body 0 false with
  | None => Raise invalid
  | Some count =>
      if (int_max_str_digits <? count)%nat then
        Raise (ValueError
          ("Exceeds the limit (4300 digits) for integer string conversion: value has "
           +:+ str_of_nat count
           +:+ " digits; use sys.set_int_max_str_digits() to increase the limit"))
      else
        match parse_digits body 0 false with
        | Some n => Ok (if negative then (- n)%Z else n)
        | None => Raise invalid
        end
  end.

End Py.

Import Py.

Declare Scope py_scope.
Delimit Scope py_scope with py.
Notation "x <- c ;; k" := (Py.bind c (fun x => k))
  (at level 100, c at next level, right associativity) : py_scope.
Notation "c ;; k" := (Py.bind c (fun _ => k))
  (at level 100, right associativity) : py_scope.

(** ** [src/utils/validation.py] *)

Module Validation.

Local Open Scope float_scope.
Local Open Scope py_scope.

(** [if c: raise e]. *)
Definition raise_when (c : bool) (e : exn) : result unit :=
  if c then Raise e else Ok tt.

(** [o is not None]. *)
Definition is_set {A} (o : option A) : bool :=
  match o with Some _ => true | None => false end.

(** Python's [a > b] on floats. *)
Definition gtb (a b : float) : bool := b <? a.

(** [0 <= x <= 1]. *)
Definition in_unit (x : float) : bool := (0 <=? x) && (x <=? 1).

(** [abs(z_prob + i_prob - 1)]. *)
Definition deviation (z i : float) : float := abs (z + i - 1).

(** [2 * np.pi]. *)
Definition two_pi : float := 2 * 3.141592653589793.

Definition msg_qubits : string := "Number of qubits must be at least 1.".
Definition msg_state (state_type : string) (valid_states : list string) : string :=
  "Invalid state type: " +:+ state_type +:+ ". Choose from " +:+ repr_list valid_states.
Definition msg_noise (noise_type : string) (valid_noises : list string) : string :=
  "Invalid noise type: " +:+ noise_type +:+ ". Choose from " +:+ repr_list valid_noises.
Definition msg_sim_mode (sim_mode : string) : string :=
  "Invalid simulation mode: " +:+ sim_mode +:+ ". Choose from ['qasm', 'density']".
Definition msg_angle : string :=
  "Angle for CLUSTER state must be between 0 and 2π radians.".
Definition msg_error_rate : string := "Error rate must be between 0 and 1.".
Definition msg_zi_both : string :=
  "Both z_prob and i_prob must be provided for PHASE_FLIP noise.".
Definition msg_zi_simplex : string :=
  "Z and I probabilities for PHASE_FLIP must sum to 1 and be between 0 and 1.".
Definition msg_t_both : string :=
  "Both t1 and t2 must be provided for THERMAL_RELAXATION noise.".
Definition msg_t_order : string :=
  "T1 and T2 must be positive, with T2 <= T1 for realistic relaxation.".

Section ValidateInputs.

(** The keys of the registries [STATE_CLASSES] and [NOISE_CLASSES], which
    [validation.py] imports from modules that are not among the sources. *)
Variable STATE_CLASSES : list string.
Variable NOISE_CLASSES : list string.

(** The [PHASE_FLIP] block, lines 53-63. *)
Definition check_phase_flip (noise_type : string) (z_prob i_prob : option float)
  : result unit :=
  if String.eqb noise_type "PHASE_FLIP" && (is_set z_prob || is_set i_prob) then
    match z_prob, i_prob with
    | Some z, Some i =>
        raise_when
          (negb (in_unit z && in_unit i && (deviation z i <? 1e-10)))
          (ValueError msg_zi_simplex)
    | _, _ => Raise (ValueError msg_zi_both)
    end
  else Ok tt.

(** The [THERMAL_RELAXATION] block, lines 65-73. *)
Definition check_thermal (noise_type : string) (t1 t2 : option float)
  : result unit :=
  if String.eqb noise_type "THERMAL_RELAXATION" && (is_set t1 || is_set t2) then
    match t1, t2 with
    | Some a, Some b =>
        raise_when ((a <=? 0) || (b <=? 0) || gtb b a) (ValueError msg_t_order)
    | _, _ => Raise (ValueError msg_t_both)
    end
  else Ok tt.

(** [validate_inputs] returns [None] or raises [ValueError]; it reads its
    arguments and nothing else. *)
Definition validate_inputs
    (num_qubits : Z) (state_type noise_type sim_mode : string)
    (angle error_rate z_prob i_prob t1 t2 : option float) : result unit :=
  raise_when (num_qubits <? 1)%Z (ValueError msg_qubits) ;;
  let valid_states := STATE_CLASSES in
  raise_when (negb (str_in state_type valid_states))
             (ValueError (msg_state state_type valid_states)) ;;
  let valid_noises := NOISE_CLASSES in
  raise_when (negb (str_in noise_type valid_noises))
             (ValueError (msg_noise noise_type valid_noises)) ;;
  raise_when (negb (str_in sim_mode ["qasm"; "density"]))
             (ValueError (msg_sim_mode sim_mode)) ;;
  match angle with
  | Some a =>
      if String.eqb state_type "CLUSTER"
      then raise_when (negb ((0 <=? a) && (a <=? two_pi))) (ValueError msg_angle)
      else Ok tt
  | None => Ok tt
  end ;;
  match error_rate with
  | Some r => raise_when (negb (in_unit r)) (ValueError msg_error_rate)
  | None => Ok tt
  end ;;
  check_phase_flip noise_type z_prob i_prob ;;
  check_thermal noise_type t1 t2.

End ValidateInputs.

(** *** [InputValidator] *)

Definition validate_choice
    (user_input : string) (valid_options : option (list string))
    (case_sensitive : bool) : bool :=
  match valid_options with
  | None | Some [] => true                      (* [if not valid_options] *)
  | Some opts =>
      if negb case_sensitive
      then str_in (lower user_input) (map lower opts)
      else str_in user_input opts
  end.

(** [expected_type] is the callable handed in ([int] or [float]); only a
    [ValueError] of the conversion is caught. *)
Definition validate_numeric {A : Type}
    (user_input : string) (expected_type : string -> result A)
  : result (option A) :=
  match expected_type user_input with
  | Ok v => Ok (Some v)
  | Raise (ValueError _) => Ok None
  | Raise e => Raise e
  end.

Definition validate_yes_no (user_input : string) : bool :=
  str_in (lower user_input) ["y"; "yes"; "t"; "true"].

End Validation.

(** ** [src/noise_models/amplitude_damping.py] *)

Module AmplitudeDamping.

Local Open Scope py_scope.

(** A value of an [extra_info] dictionary. *)
Inductive info : Type :=
| InfoStr (s : string)
| InfoFloat (f : float).

(** The instance: [self.error_rate]. *)
Record AmplitudeDampingNoise : Type := { error_rate : float }.

Section Apply.

(** qiskit's error channels and the constructor [amplitude_damping_error],
    which may itself refuse its argument. *)
Variable QuantumError : Type.
Variable amplitude_damping_error : float -> result QuantumError.

(** [BaseNoise.log_noise_application(noise_type, gates, extra_info)], the
    inherited method of [base_noise.py], which is not among the sources:
    an effect on the log. *)
Variable Log : Type.
Variable log_noise_application :
  string -> list string -> gmap string info -> Log -> Log.

(** qiskit's [NoiseModel], seen through the one method used here: the
    attachments made by [add_all_qubit_quantum_error], in call order. *)
Definition NoiseModel : Type := list (QuantumError * list string).

Definition add_all_qubit_quantum_error
    (noise_model : NoiseModel) (noise : QuantumError) (gates : list string)
  : NoiseModel :=
  noise_model ++ [(noise, gates)].

(** The gate names line 13 keeps. *)
Definition single_qubit_gates : list string := ["id"; "u1"; "u2"; "u3"].

(** [apply] returns [None]; its effects are on [noise_model] and on the
    log, both returned here. *)
Definition apply
    (self : AmplitudeDampingNoise) (noise_model : NoiseModel)
    (gate_list : list string) (qubits_for_error : option Z)
    (log : Log) : result (NoiseModel * Log) :=
  let valid_gates := List.filter (fun g => str_in g single_qubit_gates) gate_list in
  match valid_gates with
  | [] =>
      Ok (noise_model,
          log_noise_application "AMPLITUDE_DAMPING" gate_list
            {[ "warning" := InfoStr "No valid 1-qubit gates found, skipping" ]} log)
  | _ :: _ =>
      noise <- amplitude_damping_error (error_rate self) ;;
      let noise_model := add_all_qubit_quantum_error noise_model noise valid_gates in
      Ok (noise_model,
          log_noise_application "AMPLITUDE_DAMPING" valid_gates
            {[ "error_rate" := InfoFloat (error_rate self) ]} log)
  end.

End Apply.

End AmplitudeDamping.

(** ** [main.py] *)

Module Main.

Local Open Scope py_scope.

(** The Python values a parameter dictionary holds. *)
Inductive value : Type :=
| VNone
| VBool (b : bool)
| VInt (z : Z)
| VFloat (f : float)
| VStr (s : string)
| VList (l : list value)
| VDict (d : gmap string value).

(** [v == s] for a string literal [s]. *)
Definition value_eq_str (v : value) (s : string) : bool :=
  match v with
  | VStr t => String.eqb t s
  | _ => false
  end.

(** [v in l] for a list [l] of strings. *)
Definition value_in (v : value) (l : list string) : bool :=
  match v with
  | VStr t => str_in t l
  | _ => false
  end.

(** [v > 1]: numbers compare, anything else is a [TypeError]. *)
Definition gt_one (v : value) : result bool :=
  match v with
  | VInt z => Ok (1 <? z)%Z
  | VBool b => Ok (1 <? Z.b2z b)%Z
  | VFloat f => Ok (1 <? f)%float
  | _ => Raise TypeError
  end.

(** Truth value of [v] in a condition. *)
Definition truthy (v : value) : bool :=
  match v with
  | VNone => false
  | VBool b => b
  | VInt z => negb (z =? 0)%Z
  | VFloat f => negb (f =? 0)%float
  | VStr s => negb (String.eqb s "")
  | VList l => match l with [] => false | _ :: _ => true end
  | VDict d => match map_to_list d with [] => false | _ :: _ => true end
  end.

(** [args[key]]. *)
Definition getitem (args : gmap string value) (key : string) : result value :=
  match args !! key with
  | Some v => Ok v
  | None => Raise (KeyError key)
  end.

(** *** The console *)

(** What [console.input] meets: a typed line, or Ctrl+C. *)
Inductive event : Type :=
| Line (s : string)
| Interrupt.

(** What the program shows: [print_message(key, **kwargs)] or the prompt
    of a [console.input], each with the keyword arguments its template is
    formatted with.  The texts themselves are in the [MESSAGES] table,
    which is not among the sources. *)
Inductive output : Type :=
| Printed (key : string) (kwargs : gmap string value)
| Prompted (key : string) (format_kwargs : gmap string value).

Record console : Type := Console {
  stdin : list event;
  screen : list output
}.

(** A computation that talks to the console and may raise. *)
Definition io (A : Type) : Type := console -> result (A * console).

Definition ret {A} (a : A) : io A := fun c => Ok (a, c).

Definition io_bind {A B} (m : io A) (k : A -> io B) : io B :=
  fun c =>
    match m c with
    | Ok (a, c') => k a c'
    | Raise e => Raise e
    end.

(** A computation that only reads its arguments. *)
Definition lift {A} (r : result A) : io A :=
  fun c =>
    match r with
    | Ok a => Ok (a, c)
    | Raise e => Raise e
    end.

Declare Scope io_scope.
Delimit Scope io_scope with io.
Notation "x <~ c ;; k" := (io_bind c (fun x => k))
  (at level 100, c at next level, right associativity) : io_scope.
Notation "c ;;; k" := (io_bind c (fun _ => k))
  (at level 100, right associativity) : io_scope.
Local Open Scope io_scope.

(** What a run returns, the console left aside. *)
Definition returned {A} (r : result (A * console)) : result A :=
  match r with
  | Ok (a, _) => Ok a
  | Raise e => Raise e
  end.

(** The value a returned dictionary holds under [key]. *)
Definition returned_item (key : string) (r : result (gmap string value * console))
  : result (option value) :=
  match r with
  | Ok (d, _) => Ok (d !! key)
  | Raise e => Raise e
  end.

Definition print_message (key : string) (kwargs : gmap string value) : io unit :=
  fun c => Ok (tt, Console (stdin c) (screen c ++ [Printed key kwargs])).

Definition strs (l : list string) : value := VList (map VStr l).

(** [format_kwargs] of [get_input], lines 100-107. *)
Definition format_kwargs
    (default : string) (valid_options valid_options_display : option (list string))
    (kwargs : gmap string value) : gmap string value :=
  let base : gmap string value := {[ "default" := VStr default ]} in
  let base :=
    match valid_options with
    | Some opts =>
        <[ "valid_options" :=
             strs (match valid_options_display with Some d => d | None => opts end) ]> base
    | None => base
    end in
  kwargs ∪ base.

(** [not valid_options]: [None] and the empty list are falsy. *)
Definition no_options (valid_options : option (list string)) : bool :=
  match valid_options with
  | None | Some [] => true
  | Some (_ :: _) => false
  end.

Definition options_value (valid_options : option (list string)) : value :=
  match valid_options with
  | Some opts => strs opts
  | None => VNone
  end.

(** What a typed line is read as, lines 108-111:
    [console.input(...).strip().lower() or default.lower()]. *)
Definition answer (default line : string) : string :=
  str_or (lower (strip line)) (lower default).

(** [get_input]: the [while True] loop runs once per typed line; a line
    that is not among the options is reported and the prompt repeats;
    Ctrl+C yields the default; at the end of the input [console.input]
    raises [EOFError], which [get_input] does not catch. *)
Fixpoint get_input_loop
    (prompt_key default : string)
    (valid_options valid_options_display : option (list string))
    (kwargs : gmap string value)
    (typed : list event) (shown : list output) : result (string * console) :=
  let shown :=
    shown ++ [Prompted prompt_key
                (format_kwargs default valid_options valid_options_display kwargs)] in
  match typed with
  | [] => Raise EOFError
  | Interrupt :: typed' =>
      Ok (lower default, Console typed' (shown ++ [Printed "operation_cancelled" ∅]))
  | Line l :: typed' =>
      let user_input := answer default l in
      if no_options valid_options
         || str_in user_input
              (map lower (match valid_options with Some o => o | None => [] end))
      then Ok (user_input, Console typed' shown)
      else
        get_input_loop prompt_key default valid_options valid_options_display kwargs
          typed'
          (shown ++ [Printed "invalid_input"
                       (<[ "input" := VStr user_input ]>
                          {[ "options" := options_value valid_options ]})])
  end.

Definition get_input
    (prompt_key default : string)
    (valid_options valid_options_display : option (list string))
    (kwargs : gmap string value) : io string :=
  fun c =>
    get_input_loop prompt_key default valid_options valid_options_display kwargs
      (stdin c) (screen c).

(** A numeric type as [get_numeric_input] uses it: its [__name__] and its
    conversion of a string. *)
Record numeric_type : Type := {
  type_name : string;
  convert : string -> result value
}.

Definition int_type : numeric_type :=
  {| type_name := "int"; convert := fun s => (n <- py_int s ;; Ok (VInt n))%py |}.

Section Resolver.

(** [SINGLE_QUBIT_NOISE_TYPES] of [src/config/constants.py], which is not
    among the sources. *)
Variable SINGLE_QUBIT_NOISE_TYPES : list string.

(** [collect_parameters(interactive=True)], lines 554-579: it starts from
    [apply_defaults({})], asks for everything again and runs the resolver
    anew.  It is the enclosing routine of [validate_and_prompt] and is
    entered from it only to restart; what it returns is a function of the
    console alone. *)
Variable collect_parameters : io (gmap string value).

(** [get_numeric_input], lines 122-144: both branches of the [try] leave
    the loop.  On a [ValueError] the whole collection restarts and its
    dictionary is what is returned. *)
Definition get_numeric_input
    (prompt_key default : string) (expected_type : numeric_type) : io value :=
  value <~ get_input prompt_key default None None ∅ ;;
  match convert expected_type value with
  | Ok n => ret n
  | Raise (ValueError _) =>
      print_message "invalid_input"
        (<[ "input" := VStr value ]> {[ "options" := strs [type_name expected_type] ]}) ;;;
      d <~ collect_parameters ;;
      ret (VDict d)
  | Raise e => lift (Raise e)
  end.

Definition switch_to_plot (args : gmap string value) : io (gmap string value) :=
  let args := <[ "visualization_type" := VStr "plot" ]> args in
  sim_mode <~ lift (getitem args "sim_mode") ;;
  if value_eq_str sim_mode "qasm" then
    n <~ get_numeric_input "min_occurrences_prompt" "0" int_type ;;
    ret (<[ "min_occurrences" := n ]> args)
  else
    real_imag <~ get_input "real_imag_prompt" "a" (Some ["r"; "i"; "a"]) None ∅ ;;
    let args := <[ "show_real" := VBool (String.eqb real_imag "r") ]> args in
    let args := <[ "show_imag" := VBool (String.eqb real_imag "i") ]> args in
    ret args.

(** How a block of [validate_and_prompt] ends: control falls through to
    the next statement, or the function returns. *)
Inductive flow : Type :=
| Continue (args : gmap string value)
| Return (args : gmap string value).

Definition and_then (m : io flow) (k : gmap string value -> io flow) : io flow :=
  f <~ m ;;
  match f with
  | Continue args => k args
  | Return args => ret (Return args)
  end.

(** [args["noise_type"] in SINGLE_QUBIT_NOISE_TYPES and args["num_qubits"] > 1] *)
Definition single_qubit_conflict (args : gmap string value) : result bool :=
  (noise_type <- getitem args "noise_type" ;;
   if value_in noise_type SINGLE_QUBIT_NOISE_TYPES
   then (num_qubits <- getitem args "num_qubits" ;; gt_one num_qubits)
   else Ok false)%py.

(** The options of the three noise prompts and of the four checks. *)
Definition noise_switch_options : list string :=
  ["d"; "p"; "t"; "depolarizing"; "phase_flip"; "thermal_relaxation"].
Definition single_qubit_noise_options : list string := ["p"; "switch"; "c"].
Definition hypergraph_single_qubit_options : list string := ["p"; "switch"; "v"].
Definition density_noise_options : list string := ["p"; "switch"; "c"].
Definition hypergraph_density_no_noise_options : list string := ["p"; "e"; "v"].

(** The family a token of the noise prompt stands for. *)
Definition canonical_noise (new_noise : string) : string :=
  if str_in new_noise ["d"; "depolarizing"] then "DEPOLARIZING"
  else if str_in new_noise ["p"; "phase_flip"] then "PHASE_FLIP"
  else "THERMAL_RELAXATION".

(** The [choice == "switch"] branch, written out three times in the source
    (lines 425-447, 464-486, 504-526). *)
Definition switch_noise (args : gmap string value) : io (gmap string value) :=
  print_message "suggested_multi_qubit_noise_types" ∅ ;;;
  new_noise <~ get_input "noise_type_prompt" "depolarizing"
                 (Some noise_switch_options) None ∅ ;;
  let args := <[ "noise_type" := VStr (canonical_noise new_noise) ]> args in
  print_message "switched_noise_type"
    {[ "noise_type" := VStr (canonical_noise new_noise) ]} ;;;
  ret args.

(** The [choice == "c"] branch (lines 448-450, 530-532). *)
Definition cancel : io flow :=
  print_message "config_cancelled" ∅ ;;;
  fresh <~ collect_parameters ;;
  ret (Return fresh).

(** Check 1, lines 416-450: what each answer to the prompt does. *)
Definition resolve_single_qubit_noise
    (args : gmap string value) (choice : string) : io flow :=
  if String.eqb choice "switch" then
    args <~ switch_noise args ;; ret (Continue args)
  else if String.eqb choice "c" then cancel
  else ret (Continue args).

Definition check_single_qubit_noise (args : gmap string value) : io flow :=
  conflict <~ lift (single_qubit_conflict args) ;;
  if conflict then
    noise_type <~ lift (getitem args "noise_type") ;;
    num_qubits <~ lift (getitem args "num_qubits") ;;
    print_message "single_qubit_noise_warning"
      (<[ "noise_type" := noise_type ]> {[ "num_qubits" := num_qubits ]}) ;;;
    choice <~ get_input "single_qubit_noise_prompt" "p"
                (Some single_qubit_noise_options) None ∅ ;;
    resolve_single_qubit_noise args choice
  else ret (Continue args).

(** [visualization_type == "hypergraph"] and, nested in it, the condition
    of check 1 again. *)
Definition hypergraph_single_qubit_conflict (args : gmap string value) : result bool :=
  (visualization_type <- getitem args "visualization_type" ;;
   if value_eq_str visualization_type "hypergraph"
   then single_qubit_conflict args
   else Ok false)%py.

(** Check 2, lines 452-489. *)
Definition resolve_hypergraph_single_qubit
    (args : gmap string value) (choice : string) : io flow :=
  if String.eqb choice "switch" then
    args <~ switch_noise args ;; ret (Continue args)
  else if String.eqb choice "v" then
    print_message "switched_to_plot" ∅ ;;;
    args <~ switch_to_plot args ;; ret (Continue args)
  else ret (Continue args).

Definition check_hypergraph_single_qubit (args : gmap string value) : io flow :=
  conflict <~ lift (hypergraph_single_qubit_conflict args) ;;
  if conflict then
    noise_type <~ lift (getitem args "noise_type") ;;
    num_qubits <~ lift (getitem args "num_qubits") ;;
    print_message "hypergraph_single_qubit_warning"
      (<[ "noise_type" := noise_type ]> {[ "num_qubits" := num_qubits ]}) ;;;
    choice <~ get_input "hypergraph_single_qubit_prompt" "p"
                (Some hypergraph_single_qubit_options) None ∅ ;;
    resolve_hypergraph_single_qubit args choice
  else ret (Continue args).

(** Lines 491-493: the plot settings are asked for whenever the
    visualization is [plot]. *)
Definition set_plot_settings (args : gmap string value) : io flow :=
  visualization_type <~ lift (getitem args "visualization_type") ;;
  if value_eq_str visualization_type "plot" then
    args <~ switch_to_plot args ;; ret (Continue args)
  else ret (Continue args).

(** [sim_mode == "density" and noise_type in SINGLE_QUBIT_NOISE_TYPES and
    noise_enabled] *)
Definition density_noise_conflict (args : gmap string value) : result bool :=
  (sim_mode <- getitem args "sim_mode" ;;
   if value_eq_str sim_mode "density" then
     noise_type <- getitem args "noise_type" ;;
     if value_in noise_type SINGLE_QUBIT_NOISE_TYPES then
       noise_enabled <- getitem args "noise_enabled" ;;
       Ok (truthy noise_enabled)
     else Ok false
   else Ok false)%py.

(** Check 3, lines 495-532. *)
Definition resolve_density_noise
    (args : gmap string value) (choice : string) : io flow :=
  if String.eqb choice "switch" then
    args <~ switch_noise args ;; ret (Continue args)
  else if String.eqb choice "p" then
    let args := <[ "noise_enabled" := VBool false ]> args in
    print_message "noise_disabled" ∅ ;;;
    ret (Continue args)
  else if String.eqb choice "c" then cancel
  else ret (Continue args).

Definition check_density_noise (args : gmap string value) : io flow :=
  conflict <~ lift (density_noise_conflict args) ;;
  if conflict then
    noise_type <~ lift (getitem args "noise_type") ;;
    print_message "density_noise_warning" {[ "noise_type" := noise_type ]} ;;;
    choice <~ get_input "density_noise_prompt" "p"
                (Some density_noise_options) None ∅ ;;
    resolve_density_noise args choice
  else ret (Continue args).

(** [visualization_type == "hypergraph" and sim_mode == "density" and not
    noise_enabled] *)
Definition hypergraph_density_conflict (args : gmap string value) : result bool :=
  (visualization_type <- getitem args "visualization_type" ;;
   if value_eq_str visualization_type "hypergraph" then
     sim_mode <- getitem args "sim_mode" ;;
     if value_eq_str sim_mode "density" then
       noise_enabled <- getitem args "noise_enabled" ;;
       Ok (negb (truthy noise_enabled))
     else Ok false
   else Ok false)%py.

(** Check 4, lines 534-549. *)
Definition resolve_hypergraph_density
    (args : gmap string value) (choice : string) : io flow :=
  if String.eqb choice "e" then
    let args := <[ "noise_enabled" := VBool true ]> args in
    print_message "noise_enabled" ∅ ;;;
    ret (Continue args)
  else if String.eqb choice "v" then
    print_message "switched_to_plot_density" ∅ ;;;
    args <~ switch_to_plot args ;; ret (Continue args)
  else ret (Continue args).

Definition check_hypergraph_density (args : gmap string value) : io flow :=
  conflict <~ lift (hypergraph_density_conflict args) ;;
  if conflict then
    state_type <~ lift (getitem args "state_type") ;;
    print_message "hypergraph_density_no_noise_warning"
      {[ "state_type" := state_type ]} ;;;
    choice <~ get_input "hypergraph_density_no_noise_prompt" "p"
                (Some hypergraph_density_no_noise_options) None ∅ ;;
    resolve_hypergraph_density args choice
  else ret (Continue args).

(** The blocks that run before check 3. *)
Definition before_density_check (args : gmap string value) : io flow :=
  and_then (and_then (check_single_qubit_noise args)
                     check_hypergraph_single_qubit)
           set_plot_settings.

(** [validate_and_prompt], lines 406-551: the five blocks in order; a
    [return] inside a block ends the function. *)
Definition validate_and_prompt (args : gmap string value) : io (gmap string value) :=
  f <~ and_then (and_then (before_density_check args)
                          check_density_noise)
                check_hypergraph_density ;;
  match f with
  | Continue args => ret args
  | Return args => ret args
  end.

End Resolver.

End Main.

(** ** More of [main.py]: the yes/no prompt and the visualization settings *)

Module Collect.

Import Main.
Local Open Scope io_scope.

(** The builtin [str(n)] on an [int]: its decimal numeral, with a minus
    sign in front of a negative one; a numeral of more than
    [int_max_str_digits] digits is refused. *)
Definition str_of_int (n : Z) : result string :=
  let numeral :=
    match Z.to_int n with
    | Decimal.Pos d | Decimal.Neg d => d
    end in
  if (int_max_str_digits <? Decimal.nb_digits numeral)%nat then
    Raise (ValueError
      "Exceeds the limit (4300 digits) for integer string conversion; use sys.set_int_max_str_digits() to increase the limit")
  else Ok (DecimalString.NilZero.string_of_int (Z.to_int n)).

(** The test [get_input] makes on a typed line, line 112: no options were
    given, or what the line is read as is one of them in lower case. *)
Definition accepted (valid_options : option (list string)) (default line : string) : bool :=
  no_options valid_options
  || str_in (answer default line)
       (map lower (match valid_options with Some o => o | None => [] end)).

(** A string without white space. *)
Fixpoint no_space (s : string) : bool :=
  match s with
  | EmptyString => true
  | String c s' => negb (is_space c) && no_space s'
  end.

(** Two dictionaries that agree on every key outside [keys]. *)
Definition same_outside (keys : list string) (a b : gmap string value) : Prop :=
  forall k, ~ In k keys -> b !! k = a !! k.

(** The entries [validate_and_prompt] and [switch_to_plot] write to. *)
Definition resolver_keys : list string :=
  ["noise_type"; "noise_enabled"; "visualization_type";
   "min_occurrences"; "show_real"; "show_imag"].

(** [prompt_yes_no], lines 147-158. *)
Definition prompt_yes_no (key default : string) : io bool :=
  choice <~ get_input key default (Some ["y"; "n"]) None ∅ ;;
  ret (String.eqb choice "y").

(** The visualization a letter of the prompt stands for, lines 346-350. *)
Definition visualization_of (viz_choice : string) : string :=
  if str_in viz_choice ["p"; "plot"] then "plot"
  else if str_in viz_choice ["h"; "hypergraph"] then "hypergraph"
  else "none".

(** [s.strip() or None]. *)
Definition path_or_none (s : string) : value :=
  match strip s with
  | EmptyString => VNone
  | String c t => VStr (String c t)
  end.

Section Settings.

Variable collect_parameters : io (gmap string value).

(** [collect_visualization_settings], lines 330-356.  The two tests on
    [args["visualization_type"]] read the entry the function has just
    written. *)
Definition collect_visualization_settings (args : gmap string value)
  : io (gmap string value) :=
  viz_choice <~ get_input "viz_type_prompt" "n" (Some ["p"; "h"; "n"]) None ∅ ;;
  let visualization_type := visualization_of viz_choice in
  let args := <[ "visualization_type" := VStr visualization_type ]> args in
  if negb (String.eqb visualization_type "none") then
    save_plot <~ get_input "save_plot_prompt" "" None None ∅ ;;
    let args := <[ "save_plot" := path_or_none save_plot ]> args in
    if String.eqb visualization_type "plot" then
      sim_mode <~ lift (getitem args "sim_mode") ;;
      if value_eq_str sim_mode "qasm" then
        n <~ get_numeric_input collect_parameters "min_occurrences_prompt" "0" int_type ;;
        ret (<[ "min_occurrences" := n ]> args)
      else ret args
    else ret args
  else ret args.

End Settings.

End Collect.

(** ** The specification's side *)

Module Spec.

Local Open Scope float_scope.

(** Modelled from the spec: the keys of [STATE_CLASSES] and of
    [NOISE_CLASSES] (their modules are not among the sources), as far as
    sections 3 and 4.3 name the families. *)
Definition state_classes : list string := ["GHZ"; "W"; "CLUSTER"].
Definition noise_classes : list string :=
  ["DEPOLARIZING"; "PHASE_FLIP"; "THERMAL_RELAXATION"; "AMPLITUDE_DAMPING"].

(** Modelled from the spec: [SINGLE_QUBIT_NOISE_TYPES] of
    [src/config/constants.py] (not among the sources); the scenarios of
    section 8 use AMPLITUDE_DAMPING and PHASE_FLIP as single-qubit
    families. *)
Definition single_qubit_noise_types : list string :=
  ["AMPLITUDE_DAMPING"; "PHASE_FLIP"].

(** Modelled from the spec: the log that [log_noise_application] writes to
    ([base_noise.py] is not among the sources).  By section 4.3 a call
    emits one structured record (family, targeted gates, parameters used);
    the record is the triple of the call's arguments and the log the list
    of records emitted so far. *)
Record log_record : Type := LogRecord {
  log_noise_type : string;
  log_gates : list string;
  log_extra_info : gmap string AmplitudeDamping.info
}.

Definition emit_record
    (noise_type : string) (gates : list string)
    (extra_info : gmap string AmplitudeDamping.info)
    (log : list log_record) : list log_record :=
  log ++ [LogRecord noise_type gates extra_info].

(** A stand-in for [collect_parameters] in closed examples: the restarted
    collection hands back an empty dictionary and leaves the console as it
    finds it. *)
Definition restarted : Main.io (gmap string Main.value) := Main.ret ∅.

(** A parameter dictionary with the keys of the literal at lines 770-788
    of [main.py]. *)
Definition params (num_qubits : Z) (state_type noise_type : string)
    (noise_enabled : bool) (sim_mode visualization_type : string)
  : gmap string Main.value :=
  list_to_map
    [ ("num_qubits", Main.VInt num_qubits);
      ("state_type", Main.VStr state_type);
      ("noise_type", Main.VStr noise_type);
      ("noise_enabled", Main.VBool noise_enabled);
      ("shots", Main.VInt 1024);
      ("sim_mode", Main.VStr sim_mode);
      ("visualization_type", Main.VStr visualization_type);
      ("save_plot", Main.VNone);
      ("min_occurrences", Main.VInt 0);
      ("show_real", Main.VBool false);
      ("show_imag", Main.VBool false);
      ("error_rate", Main.VNone);
      ("z_prob", Main.VNone);
      ("i_prob", Main.VNone);
      ("t1", Main.VNone);
      ("t2", Main.VNone);
      ("custom_params", Main.VNone) ].

(** "lies outside [0,1]": below 0, above 1, or not a number. *)
Definition outside_unit (x : float) : bool := (x <? 0) || (1 <? x) || is_nan x.

(** "the sum deviates from 1 by 1e-10 or more". *)
Definition off_simplex (z i : float) : bool :=
  (1e-10 <=? Validation.deviation z i) || is_nan (Validation.deviation z i).

(** "both strictly positive, and t2 <= t1". *)
Definition relaxation_ordered (t1 t2 : float) : bool :=
  (0 <? t1) && (0 <? t2) && (t2 <=? t1).

(** "each in [0,1], and their sum equals 1 within 1e-10". *)
Definition on_simplex (z i : float) : bool :=
  Validation.in_unit z && Validation.in_unit i && (Validation.deviation z i <? 1e-10).

(** "if present, both are present, and ..." *)
Definition pair_invariant (x y : option float) (ok : float -> float -> bool) : bool :=
  match x, y with
  | None, None => true
  | Some a, Some b => ok a b
  | _, _ => false
  end.

(** The invariants of section 3 on the optional numeric fields. *)
Definition invariants_hold (error_rate z_prob i_prob t1 t2 : option float) : bool :=
  match error_rate with Some r => Validation.in_unit r | None => true end
  && pair_invariant z_prob i_prob on_simplex
  && pair_invariant t1 t2 relaxation_ordered.

(** "[error_rate], if present, lies in [0,1]". *)
Definition error_rate_ok (error_rate : option float) : bool :=
  match error_rate with Some r => Validation.in_unit r | None => true end.

(** The invariants of section 3 as far as they concern the active noise
    family: the one on the error rate always, the one on z_prob/i_prob
    under PHASE_FLIP, the one on t1/t2 under THERMAL_RELAXATION. *)
Definition active_invariants_hold (noise_type : string)
    (error_rate z_prob i_prob t1 t2 : option float) : bool :=
  error_rate_ok error_rate
  && (negb (String.eqb noise_type "PHASE_FLIP")
      || pair_invariant z_prob i_prob on_simplex)
  && (negb (String.eqb noise_type "THERMAL_RELAXATION")
      || pair_invariant t1 t2 relaxation_ordered).

(** "partially specified": one of the two is present and the other is
    not. *)
Definition partial_pair (x y : option float) : bool :=
  xorb (Validation.is_set x) (Validation.is_set y).

(** Absent, or a number (not a NaN). *)
Definition is_number (x : option float) : bool :=
  match x with Some a => negb (is_nan a) | None => true end.

(** The field constraints of sections 3 and 4.1: at least one qubit, known
    families, one of the two simulation modes, and a CLUSTER angle within
    [0, 2 pi]. *)
Definition well_formed (state_classes noise_classes : list string)
    (num_qubits : Z) (state_type noise_type sim_mode : string)
    (angle : option float) : bool :=
  (1 <=? num_qubits)%Z
  && str_in state_type state_classes
  && str_in noise_type noise_classes
  && str_in sim_mode ["qasm"; "density"]
  && match angle with
     | Some a =>
         if String.eqb state_type "CLUSTER"
         then (0 <=? a) && (a <=? Validation.two_pi) else true
     | None => true
     end.

(** The rules a [ValueError] of the validator can name. *)
Definition rule_messages (state_classes noise_classes : list string)
    (state_type noise_type sim_mode : string) : list string :=
  [ Validation.msg_qubits;
    Validation.msg_state state_type state_classes;
    Validation.msg_noise noise_type noise_classes;
    Validation.msg_sim_mode sim_mode;
    Validation.msg_angle;
    Validation.msg_error_rate;
    Validation.msg_zi_both;
    Validation.msg_zi_simplex;
    Validation.msg_t_both;
    Validation.msg_t_order ].

(** A conversion that, like [int] and [float] on a string, fails with
    [ValueError] only. *)
Definition numeric_conversion {A : Type} (conv : string -> result A) : Prop :=
  forall s, match conv s with
            | Ok _ => True
            | Raise (ValueError _) => True
            | Raise _ => False
            end.

End Spec.


(** * Properties *)

Module PyFacts.

Lemma str_in_In (x : string) (l : list string) : str_in x l = true <-> In x l.
Proof.
  unfold str_in. rewrite existsb_exists. split.
  - intros (y & Hy & Heq). apply String.eqb_eq in Heq. now subst.
  - intros Hx. exists x. split; [assumption | apply String.eqb_refl].
Qed.

End PyFacts.

(** ** Comparisons of binary64 numbers *)

Module FloatFacts.

Local Open Scope float_scope.

Lemma SFcompare_swap (x y : spec_float) :
  SFcompare y x = option_map CompOpp (SFcompare x y).
Proof.
  destruct x as [sx | sx | | sx mx ex], y as [sy | sy | | sy my ey]; simpl;
    try reflexivity;
    try (destruct sx; reflexivity);
    try (destruct sy; reflexivity);
    try (destruct sx, sy; reflexivity).
  destruct sx, sy; simpl; try reflexivity;
    rewrite (Z.compare_antisym ex ey);
    destruct (ex ?= ey)%Z; simpl; try reflexivity;
    rewrite (Pos.compare_cont_antisym mx my Eq); reflexivity.
Qed.

Lemma SFcompare_refl (x : spec_float) :
  x <> S754_nan -> SFcompare x x = Some Eq.
Proof.
  destruct x as [s | s | | s m e]; simpl; intros Hx; try congruence.
  - now destruct s.
  - rewrite Z.compare_refl.
    change (Pos.compare_cont Eq m m) with (Pos.compare m m).
    rewrite Pos.compare_refl. now destruct s.
Qed.

Lemma is_nan_false (x : float) : is_nan x = false -> Prim2SF x <> S754_nan.
Proof.
  unfold is_nan. rewrite FloatAxioms.eqb_spec. intros H Hx.
  rewrite Hx in H. discriminate H.
Qed.

Lemma is_nan_true (x : float) : is_nan x = true -> Prim2SF x = S754_nan.
Proof.
  unfold is_nan. rewrite FloatAxioms.eqb_spec. intros H.
  destruct (Prim2SF x) as [s | s | | s m e] eqn:Hx; try reflexivity;
    unfold SFeqb in H; rewrite SFcompare_refl in H by discriminate; discriminate H.
Qed.

Lemma SFcompare_some (x y : spec_float) :
  x <> S754_nan -> y <> S754_nan -> exists c, SFcompare x y = Some c.
Proof.
  destruct x, y; simpl; intros Hx Hy; try congruence; eauto.
Qed.

(** On numbers, [x <= y] is the negation of [y < x]. *)
Lemma leb_negb_ltb (x y : float) :
  is_nan x = false -> is_nan y = false -> (x <=? y) = negb (y <? x).
Proof.
  intros Hx%is_nan_false Hy%is_nan_false.
  rewrite leb_spec, ltb_spec. unfold SFleb, SFltb.
  rewrite (SFcompare_swap (Prim2SF x) (Prim2SF y)).
  destruct (SFcompare_some _ _ Hx Hy) as [c ->]. now destruct c.
Qed.

(** With a NaN on either side every comparison is false. *)
Lemma leb_nan_l (x y : float) : is_nan x = true -> (x <=? y) = false.
Proof.
  intros Hx%is_nan_true. rewrite leb_spec. unfold SFleb. now rewrite Hx.
Qed.

Lemma leb_nan_r (x y : float) : is_nan y = true -> (x <=? y) = false.
Proof.
  intros Hy%is_nan_true. rewrite leb_spec. unfold SFleb. rewrite Hy.
  now destruct (Prim2SF x).
Qed.

Lemma ltb_nan_l (x y : float) : is_nan x = true -> (x <? y) = false.
Proof.
  intros Hx%is_nan_true. rewrite ltb_spec. unfold SFltb. now rewrite Hx.
Qed.

Lemma ltb_nan_r (x y : float) : is_nan y = true -> (x <? y) = false.
Proof.
  intros Hy%is_nan_true. rewrite ltb_spec. unfold SFltb. rewrite Hy.
  now destruct (Prim2SF x).
Qed.

(** [y < x] excludes [x <= y], NaN or not. *)
Lemma ltb_leb_false (x y : float) : (y <? x) = true -> (x <=? y) = false.
Proof.
  intros H. destruct (is_nan x) eqn:Hx; [now apply leb_nan_l |].
  destruct (is_nan y) eqn:Hy; [now apply leb_nan_r |].
  rewrite leb_negb_ltb by assumption. now rewrite H.
Qed.

End FloatFacts.

(** ** [validate_inputs] *)

Module ValidationFacts.

Import Validation.
Local Open Scope float_scope.

(** The code's interval test against the specification's wording. *)
Lemma in_unit_outside (x : float) : in_unit x = negb (Spec.outside_unit x).
Proof.
  unfold in_unit, Spec.outside_unit.
  destruct (is_nan x) eqn:Hx.
  - rewrite (FloatFacts.leb_nan_r 0 x Hx). now rewrite orb_true_r.
  - rewrite (FloatFacts.leb_negb_ltb 0 x), (FloatFacts.leb_negb_ltb x 1)
      by (assumption || reflexivity).
    rewrite orb_false_r. now rewrite negb_orb.
Qed.

Lemma within_tolerance (z i : float) :
  (deviation z i <? 1e-10) = negb (Spec.off_simplex z i).
Proof.
  unfold Spec.off_simplex.
  destruct (is_nan (deviation z i)) eqn:Hd.
  - rewrite (FloatFacts.ltb_nan_l _ _ Hd). now rewrite orb_true_r.
  - rewrite (FloatFacts.leb_negb_ltb 1e-10 (deviation z i))
      by (assumption || reflexivity).
    rewrite orb_false_r. now rewrite negb_involutive.
Qed.

Lemma thermal_test (t1 t2 : float) :
  is_nan t1 = false -> is_nan t2 = false ->
  (t1 <=? 0) || (t2 <=? 0) || gtb t2 t1 = negb (Spec.relaxation_ordered t1 t2).
Proof.
  intros H1 H2. unfold gtb, Spec.relaxation_ordered.
  rewrite (FloatFacts.leb_negb_ltb t1 0), (FloatFacts.leb_negb_ltb t2 0),
    (FloatFacts.leb_negb_ltb t2 t1) by (assumption || reflexivity).
  destruct (0 <? t1), (0 <? t2), (t1 <? t2); reflexivity.
Qed.

(** Whatever the numbers, an ordered positive pair passes the test. *)
Lemma thermal_test_ordered (t1 t2 : float) :
  Spec.relaxation_ordered t1 t2 = true ->
  (t1 <=? 0) || (t2 <=? 0) || gtb t2 t1 = false.
Proof.
  unfold Spec.relaxation_ordered, gtb.
  intros [[H1 H2]%andb_prop H3]%andb_prop.
  rewrite (FloatFacts.ltb_leb_false _ _ H1), (FloatFacts.ltb_leb_false _ _ H2).
  simpl. destruct (t1 <? t2) eqn:H; [| reflexivity].
  apply FloatFacts.ltb_leb_false in H. congruence.
Qed.

(** [0 <= a <= 2 * pi] against "below 0, above 2 pi, or not a number". *)
Lemma angle_test (a : float) :
  (0 <=? a) && (a <=? two_pi) = negb ((a <? 0) || (two_pi <? a) || is_nan a).
Proof.
  destruct (is_nan a) eqn:Ha.
  - rewrite (FloatFacts.leb_nan_r 0 a Ha). now rewrite orb_true_r.
  - rewrite (FloatFacts.leb_negb_ltb 0 a), (FloatFacts.leb_negb_ltb a two_pi)
      by (assumption || reflexivity).
    rewrite orb_false_r. now rewrite negb_orb.
Qed.

(** The two blocks against the invariants of the pairs. *)
Lemma check_phase_flip_ok nt z i :
  check_phase_flip nt z i = Ok tt <->
  negb (String.eqb nt "PHASE_FLIP") || Spec.pair_invariant z i Spec.on_simplex = true.
Proof.
  unfold check_phase_flip, raise_when.
  destruct (String.eqb nt "PHASE_FLIP"); cbn [negb orb andb];
    [| split; reflexivity].
  destruct z as [a |], i as [b |]; cbn [is_set orb Spec.pair_invariant];
    try (split; [discriminate | discriminate]); [| split; reflexivity].
  change (in_unit a && in_unit b && (deviation a b <? 1e-10))
    with (Spec.on_simplex a b).
  destruct (Spec.on_simplex a b); cbn [negb]; split;
    (reflexivity || discriminate).
Qed.

Lemma check_thermal_ok nt t1 t2 :
  Spec.is_number t1 = true -> Spec.is_number t2 = true ->
  check_thermal nt t1 t2 = Ok tt <->
  negb (String.eqb nt "THERMAL_RELAXATION")
  || Spec.pair_invariant t1 t2 Spec.relaxation_ordered = true.
Proof.
  intros H1 H2. unfold check_thermal, raise_when.
  destruct (String.eqb nt "THERMAL_RELAXATION"); cbn [negb orb andb];
    [| split; reflexivity].
  destruct t1 as [a |], t2 as [b |]; cbn [is_set orb Spec.pair_invariant];
    try (split; [discriminate | discriminate]); [| split; reflexivity].
  cbn [Spec.is_number] in H1, H2.
  apply negb_true_iff in H1. apply negb_true_iff in H2.
  rewrite (thermal_test a b H1 H2).
  destruct (Spec.relaxation_ordered a b); cbn [negb]; split;
    (reflexivity || discriminate).
Qed.

Lemma str_in_out (x : string) (l : list string) : ~ In x l -> str_in x l = false.
Proof.
  intros H. destruct (str_in x l) eqn:E; [| reflexivity].
  apply PyFacts.str_in_In in E. contradiction.
Qed.

Section Tables.

Variable STATE_CLASSES : list string.
Variable NOISE_CLASSES : list string.

Local Abbreviation validate := (validate_inputs STATE_CLASSES NOISE_CLASSES).

(** The checks that do not look at the two pairs. *)
Local Abbreviation basic nq st nt sm angle er :=
  (validate nq st nt sm angle er None None None None).

(** [validate_inputs] is the basic checks followed by the two blocks. *)
Lemma validate_blocks nq st nt sm angle er z i t1 t2 :
  validate nq st nt sm angle er z i t1 t2 =
  Py.bind (basic nq st nt sm angle er)
    (fun _ => Py.bind (check_phase_flip nt z i) (fun _ => check_thermal nt t1 t2)).
Proof.
  unfold validate_inputs.
  replace (check_phase_flip nt None None) with (Ok tt)
    by (unfold check_phase_flip; simpl; now rewrite andb_false_r).
  replace (check_thermal nt None None) with (Ok tt)
    by (unfold check_thermal; simpl; now rewrite andb_false_r).
  repeat match goal with
         | |- context [Py.bind ?r _] =>
             lazymatch r with
             | check_phase_flip _ _ _ => fail
             | check_thermal _ _ _ => fail
             | Ok _ => fail
             | _ => destruct r as [[] | ?]; simpl; try reflexivity
             end
         end.
Qed.

Lemma basic_well_formed nq st nt sm angle er :
  basic nq st nt sm angle er = Ok tt <->
  Spec.well_formed STATE_CLASSES NOISE_CLASSES nq st nt sm angle = true
  /\ match er with Some r => in_unit r | None => true end = true.
Proof.
  unfold validate_inputs, Spec.well_formed, raise_when.
  replace (check_phase_flip nt None None) with (Ok tt)
    by (unfold check_phase_flip; simpl; now rewrite andb_false_r).
  replace (check_thermal nt None None) with (Ok tt)
    by (unfold check_thermal; simpl; now rewrite andb_false_r).
  replace (1 <=? nq)%Z with (negb (nq <? 1)%Z)
    by (destruct (Z.ltb_spec nq 1), (Z.leb_spec 1 nq); simpl; lia || reflexivity).
  destruct (nq <? 1)%Z; cbn [Py.bind negb andb];
    [split; [discriminate | intros [? _]; discriminate] |].
  destruct (str_in st STATE_CLASSES); cbn [Py.bind negb andb];
    [| split; [discriminate | intros [? _]; discriminate]].
  destruct (str_in nt NOISE_CLASSES); cbn [Py.bind negb andb];
    [| split; [discriminate | intros [? _]; discriminate]].
  destruct (str_in sm ["qasm"; "density"]); cbn [Py.bind negb andb];
    [| split; [discriminate | intros [? _]; discriminate]].
  destruct angle as [a |]; [destruct (String.eqb st "CLUSTER") |];
    try destruct ((0 <=? a) && (a <=? two_pi)); cbn [Py.bind negb andb];
    try (split; [discriminate | intros [? _]; discriminate]);
    destruct er as [r |]; try destruct (in_unit r); cbn [Py.bind negb andb];
    (split; [(discriminate || (intros _; split; reflexivity))
            | intros [? ?]; (discriminate || reflexivity)]).
Qed.

(** Outside their own noise family the pairs are not looked at. *)
Lemma phase_flip_gate nt z i :
  nt <> "PHASE_FLIP" -> check_phase_flip nt z i = Ok tt.
Proof.
  intros Hnt. unfold check_phase_flip.
  destruct (String.eqb_spec nt "PHASE_FLIP"); [contradiction | reflexivity].
Qed.

Lemma thermal_gate nt t1 t2 :
  nt <> "THERMAL_RELAXATION" -> check_thermal nt t1 t2 = Ok tt.
Proof.
  intros Hnt. unfold check_thermal.
  destruct (String.eqb_spec nt "THERMAL_RELAXATION"); [contradiction | reflexivity].
Qed.

Lemma phase_flip_ignored nq st nt sm angle er z i t1 t2 :
  nt <> "PHASE_FLIP" ->
  validate nq st nt sm angle er z i t1 t2 =
  validate nq st nt sm angle er None None t1 t2.
Proof.
  intros Hnt.
  pose proof (validate_blocks nq st nt sm angle er z i t1 t2) as E1.
  pose proof (validate_blocks nq st nt sm angle er None None t1 t2) as E2.
  rewrite (phase_flip_gate nt z i Hnt) in E1.
  rewrite (phase_flip_gate nt None None Hnt) in E2.
  congruence.
Qed.

Lemma thermal_ignored nq st nt sm angle er z i t1 t2 :
  nt <> "THERMAL_RELAXATION" ->
  validate nq st nt sm angle er z i t1 t2 =
  validate nq st nt sm angle er z i None None.
Proof.
  intros Hnt.
  pose proof (validate_blocks nq st nt sm angle er z i t1 t2) as E1.
  pose proof (validate_blocks nq st nt sm angle er z i None None) as E2.
  rewrite (thermal_gate nt t1 t2 Hnt) in E1.
  rewrite (thermal_gate nt None None Hnt) in E2.
  congruence.
Qed.

(** C1 (amended).  With noise family PHASE_FLIP and everything else in
    order, a configuration that sets both [z_prob] and [i_prob] is rejected
    with the simplex message exactly when one of them lies outside [0,1]
    (or is not a number) or the binary64 value of |z_prob + i_prob - 1| is
    1e-10 or more, and is accepted otherwise; a pair of which only one is
    set is rejected with the "both must be provided" message.  With any
    other noise family the pair is not examined at all. *)
Theorem phase_flip_pair_rule nq st sm angle er t1 t2 :
  validate nq st "PHASE_FLIP" sm angle er None None t1 t2 = Ok tt ->
  (forall z i,
      validate nq st "PHASE_FLIP" sm angle er (Some z) (Some i) t1 t2 =
      if Spec.outside_unit z || Spec.outside_unit i || Spec.off_simplex z i
      then Raise (ValueError msg_zi_simplex) else Ok tt)
  /\ (forall z, validate nq st "PHASE_FLIP" sm angle er (Some z) None t1 t2 =
                Raise (ValueError msg_zi_both))
  /\ (forall i, validate nq st "PHASE_FLIP" sm angle er None (Some i) t1 t2 =
                Raise (ValueError msg_zi_both))
  /\ (forall nt z i, nt <> "PHASE_FLIP" ->
        validate nq st nt sm angle er z i t1 t2 =
        validate nq st nt sm angle er None None t1 t2).
Proof.
  intros H. rewrite validate_blocks in H.
  destruct (basic nq st "PHASE_FLIP" sm angle er) as [[] |] eqn:Hb;
    [| discriminate H].
  assert (Ht : check_thermal "PHASE_FLIP" t1 t2 = Ok tt)
    by (apply thermal_gate; discriminate).
  repeat split.
  - intros z i. rewrite validate_blocks, Hb, Ht. cbn [Py.bind].
    unfold check_phase_flip, raise_when. cbn [String.eqb Ascii.eqb is_set orb andb Bool.eqb].
    rewrite !in_unit_outside, within_tolerance.
    destruct (Spec.outside_unit z), (Spec.outside_unit i), (Spec.off_simplex z i);
      reflexivity.
  - intros z. now rewrite validate_blocks, Hb.
  - intros i. now rewrite validate_blocks, Hb.
  - intros nt z i Hnt. now apply phase_flip_ignored.
Qed.

(** C4 (amended).  With noise family THERMAL_RELAXATION and everything else
    in order, a configuration that sets both [t1] and [t2], neither of them
    a NaN, is accepted exactly when both are strictly positive and
    [t2 <= t1], and is rejected with the ordering message otherwise; so
    (t1, t2) = (80e-6, 100e-6) is rejected and (100e-6, 80e-6) accepted.
    With any other noise family the pair is not examined. *)
Theorem thermal_pair_rule nq st sm angle er z i :
  validate nq st "THERMAL_RELAXATION" sm angle er z i None None = Ok tt ->
  (forall t1 t2, is_nan t1 = false -> is_nan t2 = false ->
      validate nq st "THERMAL_RELAXATION" sm angle er z i (Some t1) (Some t2) =
      if Spec.relaxation_ordered t1 t2
      then Ok tt else Raise (ValueError msg_t_order))
  /\ validate nq st "THERMAL_RELAXATION" sm angle er z i (Some 80e-6) (Some 100e-6) =
     Raise (ValueError msg_t_order)
  /\ validate nq st "THERMAL_RELAXATION" sm angle er z i (Some 100e-6) (Some 80e-6) =
     Ok tt
  /\ (forall nt t1 t2, nt <> "THERMAL_RELAXATION" ->
        validate nq st nt sm angle er z i t1 t2 =
        validate nq st nt sm angle er z i None None).
Proof.
  intros H. rewrite validate_blocks in H.
  destruct (basic nq st "THERMAL_RELAXATION" sm angle er) as [[] |] eqn:Hb;
    [| discriminate H].
  assert (Hp : check_phase_flip "THERMAL_RELAXATION" z i = Ok tt)
    by (apply phase_flip_gate; discriminate).
  assert (Hgen : forall t1 t2, is_nan t1 = false -> is_nan t2 = false ->
      validate nq st "THERMAL_RELAXATION" sm angle er z i (Some t1) (Some t2) =
      if Spec.relaxation_ordered t1 t2
      then Ok tt else Raise (ValueError msg_t_order)).
  { intros t1 t2 H1 H2. rewrite validate_blocks, Hb, Hp. cbn [Py.bind].
    unfold check_thermal, raise_when.
    cbn [String.eqb Ascii.eqb is_set orb andb Bool.eqb].
    rewrite (thermal_test t1 t2 H1 H2).
    now destruct (Spec.relaxation_ordered t1 t2). }
  repeat split.
  - exact Hgen.
  - exact (Hgen 80e-6 100e-6 eq_refl eq_refl).
  - exact (Hgen 100e-6 80e-6 eq_refl eq_refl).
  - intros nt t1 t2 Hnt. now apply thermal_ignored.
Qed.

(** C8 (amended).  [validate_inputs] is a function of its arguments alone:
    it returns [None] or raises, and touches nothing.  With relaxation
    times that are numbers, it accepts a candidate exactly when its fields
    are well formed and the invariants of section 3 that concern the
    active noise family hold: the one on the error rate, the one on
    z_prob/i_prob under PHASE_FLIP, the one on t1/t2 under
    THERMAL_RELAXATION.  Otherwise it raises a [ValueError] whose message
    is that of the first rule violated, in the order qubit count, state
    family, noise family, simulation mode, CLUSTER angle, error rate,
    partial pair, pair out of range.  So a candidate in which all the
    invariants hold is accepted, but the z/i invariant is not enforced
    outside PHASE_FLIP, nor the t1/t2 invariant outside
    THERMAL_RELAXATION. *)
Theorem validator_contract nq st nt sm angle er z i t1 t2 :
  (Spec.well_formed STATE_CLASSES NOISE_CLASSES nq st nt sm angle = true ->
   Spec.invariants_hold er z i t1 t2 = true ->
   validate nq st nt sm angle er z i t1 t2 = Ok tt)
  /\ (validate nq st nt sm angle er z i t1 t2 = Ok tt
      \/ exists msg,
           validate nq st nt sm angle er z i t1 t2 = Raise (ValueError msg)
           /\ In msg (Spec.rule_messages STATE_CLASSES NOISE_CLASSES st nt sm))
  /\ (Spec.well_formed STATE_CLASSES NOISE_CLASSES nq st nt sm angle = true ->
      forall r, er = Some r -> Spec.outside_unit r = true ->
      validate nq st nt sm angle er z i t1 t2 = Raise (ValueError msg_error_rate))
  /\ (nt <> "PHASE_FLIP" ->
      validate nq st nt sm angle er z i t1 t2 =
      validate nq st nt sm angle er None None t1 t2)
  /\ (nt <> "THERMAL_RELAXATION" ->
      validate nq st nt sm angle er z i t1 t2 =
      validate nq st nt sm angle er z i None None)
  /\ (Spec.is_number t1 = true -> Spec.is_number t2 = true ->
      (validate nq st nt sm angle er z i t1 t2 = Ok tt <->
       Spec.well_formed STATE_CLASSES NOISE_CLASSES nq st nt sm angle = true
       /\ Spec.active_invariants_hold nt er z i t1 t2 = true))
  /\ ((nq < 1)%Z ->
      validate nq st nt sm angle er z i t1 t2 = Raise (ValueError msg_qubits))
  /\ ((1 <= nq)%Z -> ~ In st STATE_CLASSES ->
      validate nq st nt sm angle er z i t1 t2 =
      Raise (ValueError (msg_state st STATE_CLASSES)))
  /\ ((1 <= nq)%Z -> In st STATE_CLASSES -> ~ In nt NOISE_CLASSES ->
      validate nq st nt sm angle er z i t1 t2 =
      Raise (ValueError (msg_noise nt NOISE_CLASSES)))
  /\ ((1 <= nq)%Z -> In st STATE_CLASSES -> In nt NOISE_CLASSES ->
      ~ In sm ["qasm"; "density"] ->
      validate nq st nt sm angle er z i t1 t2 =
      Raise (ValueError (msg_sim_mode sm)))
  /\ (Spec.well_formed STATE_CLASSES NOISE_CLASSES nq st nt sm None = true ->
      st = "CLUSTER" ->
      forall a, angle = Some a ->
      (a <? 0) || (two_pi <? a) || is_nan a = true ->
      validate nq st nt sm angle er z i t1 t2 = Raise (ValueError msg_angle))
  /\ (Spec.well_formed STATE_CLASSES NOISE_CLASSES nq st nt sm angle = true ->
      Spec.error_rate_ok er = true -> nt = "PHASE_FLIP" ->
      (Spec.partial_pair z i = true ->
       validate nq st nt sm angle er z i t1 t2 = Raise (ValueError msg_zi_both))
      /\ (forall a b, z = Some a -> i = Some b -> Spec.on_simplex a b = false ->
          validate nq st nt sm angle er z i t1 t2 =
          Raise (ValueError msg_zi_simplex)))
  /\ (Spec.well_formed STATE_CLASSES NOISE_CLASSES nq st nt sm angle = true ->
      Spec.error_rate_ok er = true -> nt = "THERMAL_RELAXATION" ->
      (Spec.partial_pair t1 t2 = true ->
       validate nq st nt sm angle er z i t1 t2 = Raise (ValueError msg_t_both))
      /\ (forall a b, t1 = Some a -> t2 = Some b ->
          is_nan a = false -> is_nan b = false ->
          Spec.relaxation_ordered a b = false ->
          validate nq st nt sm angle er z i t1 t2 =
          Raise (ValueError msg_t_order))).
Proof.
  assert (Hbasic : Spec.well_formed STATE_CLASSES NOISE_CLASSES nq st nt sm angle = true ->
                   Spec.error_rate_ok er = true ->
                   validate nq st nt sm angle er z i t1 t2 =
                   Py.bind (check_phase_flip nt z i) (fun _ => check_thermal nt t1 t2)).
  { intros Hwf Her. rewrite validate_blocks.
    now rewrite (proj2 (basic_well_formed nq st nt sm angle er) (conj Hwf Her)). }
  split; [| split; [| split; [| split; [| split]]]].
  - intros Hwf Hinv. unfold Spec.invariants_hold in Hinv.
    apply andb_prop in Hinv as [[Her Hzi]%andb_prop Ht].
    rewrite validate_blocks.
    rewrite (proj2 (basic_well_formed nq st nt sm angle er) (conj Hwf Her)).
    cbn [Py.bind].
    assert (Hp : check_phase_flip nt z i = Ok tt).
    { unfold check_phase_flip, raise_when.
      destruct z as [a |], i as [b |]; simpl in Hzi; try discriminate Hzi.
      - unfold Spec.on_simplex in Hzi. rewrite Hzi.
        now destruct (String.eqb nt "PHASE_FLIP").
      - simpl. now rewrite andb_false_r. }
    rewrite Hp. cbn [Py.bind].
    unfold check_thermal, raise_when.
    destruct t1 as [a |], t2 as [b |]; simpl in Ht; try discriminate Ht.
    + rewrite (thermal_test_ordered a b Ht).
      now destruct (String.eqb nt "THERMAL_RELAXATION").
    + simpl. now rewrite andb_false_r.
  - unfold validate_inputs, check_phase_flip, check_thermal, raise_when,
      Spec.rule_messages.
    repeat match goal with
           | |- context [if ?b then _ else _] =>
               destruct b; cbn [Py.bind negb]
           | |- context [match ?o with Some _ => _ | None => _ end] =>
               destruct o; cbn [Py.bind negb]
           end;
      first [ left; reflexivity
            | right; eexists; split; [reflexivity | simpl; tauto] ].
  - intros Hwf r -> Hr. rewrite validate_blocks.
    destruct (basic nq st nt sm angle (Some r)) as [[] | e] eqn:Hb.
    + apply basic_well_formed in Hb as [_ Hb].
      rewrite in_unit_outside, Hr in Hb. discriminate Hb.
    + cbn [Py.bind]. rewrite <- Hb. clear Hb.
      unfold Spec.well_formed in Hwf.
      apply andb_prop in Hwf as [[[[Hq Hs]%andb_prop Hn]%andb_prop Hm]%andb_prop Ha].
      unfold validate_inputs, raise_when.
      replace (nq <? 1)%Z with false by (symmetry; apply Z.ltb_ge; lia).
      rewrite Hs, Hn, Hm. cbn [Py.bind negb].
      assert (Hang : match angle with
                     | Some a =>
                         if String.eqb st "CLUSTER"
                         then (if negb ((0 <=? a) && (a <=? two_pi))
                               then Raise (ValueError msg_angle) else Ok tt)
                         else Ok tt
                     | None => Ok tt
                     end = Ok tt).
      { destruct angle as [a |]; [| reflexivity].
        destruct (String.eqb st "CLUSTER"); [| reflexivity]. now rewrite Ha. }
      rewrite Hang. cbn [Py.bind].
      rewrite in_unit_outside, Hr. reflexivity.
  - intros Hnt. now apply phase_flip_ignored.
  - intros Hnt. now apply thermal_ignored.
  - split; [| split; [| split; [| split; [| split; [| split; [| split]]]]]].
    + intros H1 H2. rewrite validate_blocks. split.
      * intros H.
        destruct (basic nq st nt sm angle er) as [[] |] eqn:Hb; [| discriminate H].
        apply basic_well_formed in Hb as [Hwf Her]. cbn [Py.bind] in H.
        destruct (check_phase_flip nt z i) as [[] |] eqn:Hp; [| discriminate H].
        cbn [Py.bind] in H.
        apply check_phase_flip_ok in Hp. apply (check_thermal_ok nt t1 t2 H1 H2) in H.
        split; [exact Hwf |]. unfold Spec.active_invariants_hold, Spec.error_rate_ok.
        now rewrite Her, Hp, H.
      * intros [Hwf Hinv]. unfold Spec.active_invariants_hold in Hinv.
        apply andb_prop in Hinv as [[Her Hp]%andb_prop Ht].
        rewrite (proj2 (basic_well_formed nq st nt sm angle er) (conj Hwf Her)).
        cbn [Py.bind].
        rewrite (proj2 (check_phase_flip_ok nt z i) Hp). cbn [Py.bind].
        now apply (check_thermal_ok nt t1 t2 H1 H2).
    + intros Hq. apply Z.ltb_lt in Hq.
      unfold validate_inputs, raise_when. now rewrite Hq.
    + intros Hq Hst. apply Z.ltb_ge in Hq.
      unfold validate_inputs, raise_when. now rewrite Hq, (str_in_out _ _ Hst).
    + intros Hq Hst Hnt. apply Z.ltb_ge in Hq. apply PyFacts.str_in_In in Hst.
      unfold validate_inputs, raise_when. now rewrite Hq, Hst, (str_in_out _ _ Hnt).
    + intros Hq Hst Hnt Hsm. apply Z.ltb_ge in Hq.
      apply PyFacts.str_in_In in Hst. apply PyFacts.str_in_In in Hnt.
      unfold validate_inputs, raise_when.
      now rewrite Hq, Hst, Hnt, (str_in_out _ _ Hsm).
    + intros Hwf -> a -> Ha. unfold Spec.well_formed in Hwf.
      apply andb_prop in Hwf as [[[[Hq Hs]%andb_prop Hn]%andb_prop Hm]%andb_prop _].
      unfold validate_inputs, raise_when.
      replace (nq <? 1)%Z with false by (symmetry; apply Z.ltb_ge; lia).
      rewrite Hs, Hn, Hm. cbn [Py.bind negb].
      change (String.eqb "CLUSTER" "CLUSTER") with true. cbv iota.
      now rewrite angle_test, Ha.
    + intros Hwf Her ->. rewrite (Hbasic Hwf Her). split.
      * intros Hpart. destruct z as [a |], i as [b |]; try discriminate Hpart;
          reflexivity.
      * intros a b -> -> Hoff. unfold check_phase_flip, raise_when.
        cbn [String.eqb Ascii.eqb Bool.eqb is_set orb andb].
        change (in_unit a && in_unit b && (deviation a b <? 1e-10))
          with (Spec.on_simplex a b).
        now rewrite Hoff.
    + intros Hwf Her ->. rewrite (Hbasic Hwf Her).
      rewrite (phase_flip_gate "THERMAL_RELAXATION" z i) by discriminate.
      cbn [Py.bind]. split.
      * intros Hpart. destruct t1 as [a |], t2 as [b |]; try discriminate Hpart;
          reflexivity.
      * intros a b -> -> Ha Hb Hord. unfold check_thermal, raise_when.
        cbn [String.eqb Ascii.eqb Bool.eqb is_set orb andb].
        now rewrite (thermal_test a b Ha Hb), Hord.
Qed.

End Tables.


(** Witness for C1: the scenario of section 8, z_prob = 0.6 and
    i_prob = 0.3 under PHASE_FLIP. *)
Lemma phase_flip_pair_rule_witness :
  validate_inputs Spec.state_classes Spec.noise_classes
    3 "GHZ" "PHASE_FLIP" "qasm" None None (Some 0.6) (Some 0.3) None None
  = Raise (ValueError msg_zi_simplex).
Proof.
  exact (proj1 (phase_flip_pair_rule Spec.state_classes Spec.noise_classes
                  3 "GHZ" "qasm" None None None None eq_refl) 0.6 0.3).
Defined.

(** Counterexample to C1 as stated: under DEPOLARIZING the same pair, whose
    sum is off by 0.1, is accepted. *)
Lemma phase_flip_pair_unchecked :
  validate_inputs Spec.state_classes Spec.noise_classes
    3 "GHZ" "DEPOLARIZING" "qasm" None None (Some 0.6) (Some 0.3) None None
  = Ok tt
  /\ (1e-10 <? deviation 0.6 0.3) = true.
Proof. split; reflexivity. Qed.

(** Witness for C4. *)
Lemma thermal_pair_rule_witness :
  validate_inputs Spec.state_classes Spec.noise_classes
    3 "GHZ" "THERMAL_RELAXATION" "qasm" None None None None
    (Some 80e-6) (Some 100e-6)
  = Raise (ValueError msg_t_order)
  /\ validate_inputs Spec.state_classes Spec.noise_classes
       3 "GHZ" "THERMAL_RELAXATION" "qasm" None None None None
       (Some 100e-6) (Some 80e-6)
     = Ok tt.
Proof.
  pose proof (thermal_pair_rule Spec.state_classes Spec.noise_classes
                3 "GHZ" "qasm" None None None None eq_refl) as (_ & Hrej & Hacc & _).
  exact (conj Hrej Hacc).
Defined.

(** Counterexample to C4 as stated: under DEPOLARIZING the pair
    (t1, t2) = (80e-6, 100e-6), with t2 above t1, is accepted. *)
Lemma thermal_pair_unchecked :
  validate_inputs Spec.state_classes Spec.noise_classes
    3 "GHZ" "DEPOLARIZING" "qasm" None None None None
    (Some 80e-6) (Some 100e-6)
  = Ok tt
  /\ (100e-6 <=? 80e-6) = false.
Proof. split; reflexivity. Qed.

(** Witness for C8: a well-formed PHASE_FLIP candidate on the simplex is
    accepted; with [i_prob] left out it is rejected for the missing half of
    the pair, and under DEPOLARIZING it is accepted again. *)
Lemma validator_contract_witness :
  validate_inputs Spec.state_classes Spec.noise_classes
    3 "GHZ" "PHASE_FLIP" "density" None (Some 0.01) (Some 0.5) (Some 0.5) None None
  = Ok tt
  /\ validate_inputs Spec.state_classes Spec.noise_classes
       3 "GHZ" "PHASE_FLIP" "density" None (Some 0.01) (Some 0.5) None None None
     = Raise (ValueError msg_zi_both)
  /\ validate_inputs Spec.state_classes Spec.noise_classes
       3 "GHZ" "DEPOLARIZING" "density" None (Some 0.01) (Some 0.5) None None None
     = Ok tt.
Proof.
  split; [| split].
  - exact (proj1 (validator_contract Spec.state_classes Spec.noise_classes
                    3 "GHZ" "PHASE_FLIP" "density" None (Some 0.01)
                    (Some 0.5) (Some 0.5) None None) eq_refl eq_refl).
  - pose proof (validator_contract Spec.state_classes Spec.noise_classes
                  3 "GHZ" "PHASE_FLIP" "density" None (Some 0.01)
                  (Some 0.5) None None None)
      as (_ & _ & _ & _ & _ & _ & _ & _ & _ & _ & _ & Hpair & _).
    exact (proj1 (Hpair eq_refl eq_refl eq_refl) eq_refl).
  - pose proof (validator_contract Spec.state_classes Spec.noise_classes
                  3 "GHZ" "DEPOLARIZING" "density" None (Some 0.01)
                  (Some 0.5) None None None)
      as (_ & _ & _ & _ & _ & Hiff & _).
    exact (proj2 (Hiff eq_refl eq_refl) (conj eq_refl eq_refl)).
Defined.

(** Counterexample to C8 as stated: a candidate that breaks the invariant
    "z_prob and i_prob are both present" is not rejected. *)
Lemma invariant_breach_accepted :
  Spec.invariants_hold None (Some 0.5) None None None = false
  /\ validate_inputs Spec.state_classes Spec.noise_classes
       3 "GHZ" "DEPOLARIZING" "qasm" None None (Some 0.5) None None None
     = Ok tt.
Proof. split; reflexivity. Qed.

(** ** [InputValidator] *)

(** C9.  [validate_choice] returns [True] when [valid_options] is [None]
    or empty, whatever the input and the [case_sensitive] flag; with a
    non-empty list and [case_sensitive] false it returns [True] exactly
    when the lower-cased input is the lower-casing of some option. *)
Theorem validate_choice_spec (user_input : string) (case_sensitive : bool) :
  validate_choice user_input None case_sensitive = true
  /\ validate_choice user_input (Some []) case_sensitive = true
  /\ forall opt opts,
       validate_choice user_input (Some (opt :: opts)) false = true <->
       exists o, In o (opt :: opts) /\ lower user_input = lower o.
Proof.
  repeat split; try reflexivity.
  - unfold validate_choice. cbn [negb]. intros H.
    apply PyFacts.str_in_In, in_map_iff in H as (o & Ho & Hin). eauto.
  - unfold validate_choice. cbn [negb]. intros (o & Hin & Ho).
    apply PyFacts.str_in_In, in_map_iff. eauto.
Qed.

Lemma py_int_numeric : Spec.numeric_conversion py_int.
Proof.
  intros s. unfold py_int.
  destruct (match c_strip s with
            | String "-"%char r => (true, r)
            | String "+"%char r => (false, r)
            | _ => (false, c_strip s)
            end) as [negative body].
  destruct (digit_run body 0 false) as [count |]; [| exact I].
  destruct (int_max_str_digits <? count)%nat; [exact I |].
  now destruct (parse_digits body 0 false).
Qed.

(** C10.  For a conversion that fails with [ValueError] only, as [int] and
    [float] do on strings, [validate_numeric] always returns: the converted
    value when the conversion succeeds, and [None] when it does not; no
    exception escapes. *)
Theorem validate_numeric_total {A : Type} (expected_type : string -> result A) :
  Spec.numeric_conversion expected_type ->
  forall user_input,
    validate_numeric user_input expected_type =
    Ok (match expected_type user_input with
        | Ok v => Some v
        | Raise _ => None
        end).
Proof.
  intros Hconv user_input. unfold validate_numeric.
  specialize (Hconv user_input).
  destruct (expected_type user_input) as [v | [msg | key | |]];
    reflexivity || contradiction.
Qed.

(** Witness for C10: [int] on a parsable and on an unparsable string. *)
Lemma validate_numeric_total_witness :
  validate_numeric " 42 " py_int = Ok (Some 42%Z)
  /\ validate_numeric "4 2" py_int = Ok None.
Proof.
  split.
  - exact (validate_numeric_total py_int py_int_numeric " 42 ").
  - exact (validate_numeric_total py_int py_int_numeric "4 2").
Defined.

End ValidationFacts.

(** ** [AmplitudeDampingNoise.apply] *)

Module AmplitudeDampingFacts.

Import AmplitudeDamping.

Lemma filter_none {A} (keep : A -> bool) (l : list A) :
  (forall x, In x l -> keep x = false) -> List.filter keep l = [].
Proof.
  induction l as [| x l IH]; intros H; [reflexivity |].
  cbn [List.filter]. rewrite (H x (or_introl eq_refl)).
  apply IH. intros y Hy. apply H. now right.
Qed.

(** C6.  When no gate of the list is one of the single-qubit gates [apply]
    looks for, it attaches nothing: the noise model comes back as it was
    (so with as many attachments as before), the skip is logged, once,
    with the family, the gate list and the warning, and the call returns
    normally, whatever the channel constructor would have done. *)
Theorem apply_skips_without_eligible_gates
    (QuantumError : Type) (amplitude_damping_error : float -> result QuantumError)
    (Log : Type)
    (log_noise_application : string -> list string -> gmap string info -> Log -> Log)
    (self : AmplitudeDampingNoise) (noise_model : NoiseModel QuantumError)
    (gate_list : list string) (qubits_for_error : option Z) (log : Log) :
  (forall g, In g gate_list -> ~ In g single_qubit_gates) ->
  apply QuantumError amplitude_damping_error Log log_noise_application
    self noise_model gate_list qubits_for_error log
  = Ok (noise_model,
        log_noise_application "AMPLITUDE_DAMPING" gate_list
          {[ "warning" := InfoStr "No valid 1-qubit gates found, skipping" ]} log).
Proof.
  intros Hnone. unfold apply.
  rewrite filter_none; [reflexivity |].
  intros g Hg. destruct (str_in g single_qubit_gates) eqn:E; [| reflexivity].
  apply PyFacts.str_in_In in E. now apply Hnone in E.
Qed.

(** Witness for C6: a gate list of multi-qubit gates only, a channel
    constructor that would refuse any rate, and the record log of the
    specification. *)
Lemma apply_skips_witness :
  apply unit (fun _ => Raise (ValueError "refused")) _ Spec.emit_record
    {| error_rate := 0.1 |} [] ["cx"; "ccx"; "swap"] None []
  = Ok ([], [Spec.LogRecord "AMPLITUDE_DAMPING" ["cx"; "ccx"; "swap"]
               {[ "warning" := InfoStr "No valid 1-qubit gates found, skipping" ]}]).
Proof.
  apply (apply_skips_without_eligible_gates unit
           (fun _ => Raise (ValueError "refused")) _ Spec.emit_record
           {| error_rate := 0.1 |} [] ["cx"; "ccx"; "swap"] None []).
  intros g Hg Hin. cbn in Hg, Hin.
  repeat match goal with
         | H : _ \/ _ |- _ => destruct H as [H | H]
         end; subst; try discriminate; contradiction.
Defined.

End AmplitudeDampingFacts.

(** ** The prompts of [main.py] *)

Module MainFacts.

Import Main.
Local Open Scope io_scope.

Lemma get_input_accepts key default opts disp kw line typed shown :
  str_in (answer default line) (map lower opts) = true ->
  get_input key default (Some opts) disp kw (Console (Line line :: typed) shown) =
  Ok (answer default line,
      Console typed
        (shown ++ [Prompted key (format_kwargs default (Some opts) disp kw)])).
Proof.
  intros H. unfold get_input. cbn [stdin screen get_input_loop].
  rewrite H. now rewrite orb_true_r.
Qed.

Lemma get_input_refuses key default opt opts disp kw line typed shown :
  str_in (answer default line) (map lower (opt :: opts)) = false ->
  get_input key default (Some (opt :: opts)) disp kw
    (Console (Line line :: typed) shown) =
  get_input key default (Some (opt :: opts)) disp kw
    (Console typed
       (shown ++ [Prompted key (format_kwargs default (Some (opt :: opts)) disp kw)]
              ++ [Printed "invalid_input"
                    (<[ "input" := VStr (answer default line) ]>
                       {[ "options" := strs (opt :: opts) ]})])).
Proof.
  intros H. unfold get_input. cbn [stdin screen].
  cbn [get_input_loop no_options orb]. rewrite H.
  now rewrite <- app_assoc.
Qed.

(** Whatever is typed, a prompt with options returns one of them (in lower
    case) or, after Ctrl+C, the default. *)
Lemma get_input_offers key default opt opts disp kw c choice c' :
  get_input key default (Some (opt :: opts)) disp kw c = Ok (choice, c') ->
  In choice (map lower (opt :: opts)) \/ choice = lower default.
Proof.
  unfold get_input. destruct c as [typed shown]. cbn [stdin screen].
  revert shown. induction typed as [| [line |] typed IH]; intros shown H.
  - discriminate H.
  - cbn [get_input_loop no_options orb] in H.
    destruct (str_in _ (map lower (opt :: opts))) eqn:E.
    + injection H as <- _. left. now apply PyFacts.str_in_In.
    + now apply IH in H.
  - cbn [get_input_loop] in H. injection H as <- _. now right.
Qed.

(** ** The compatibility resolver *)

Section Resolver.

Variable SINGLE_QUBIT_NOISE_TYPES : list string.
Variable collect_parameters : io (gmap string value).

Local Abbreviation conflict1 := (single_qubit_conflict SINGLE_QUBIT_NOISE_TYPES).
Local Abbreviation conflict2 := (hypergraph_single_qubit_conflict SINGLE_QUBIT_NOISE_TYPES).
Local Abbreviation conflict3 := (density_noise_conflict SINGLE_QUBIT_NOISE_TYPES).
Local Abbreviation conflict4 := hypergraph_density_conflict.
Local Abbreviation check1 :=
  (check_single_qubit_noise SINGLE_QUBIT_NOISE_TYPES collect_parameters).
Local Abbreviation check2 :=
  (check_hypergraph_single_qubit SINGLE_QUBIT_NOISE_TYPES collect_parameters).
Local Abbreviation plot_step := (set_plot_settings collect_parameters).
Local Abbreviation check3 :=
  (check_density_noise SINGLE_QUBIT_NOISE_TYPES collect_parameters).
Local Abbreviation check4 := (check_hypergraph_density collect_parameters).
Local Abbreviation resolve1 := (resolve_single_qubit_noise collect_parameters).
Local Abbreviation resolve2 := (resolve_hypergraph_single_qubit collect_parameters).
Local Abbreviation resolve3 := (resolve_density_noise collect_parameters).
Local Abbreviation before3 :=
  (before_density_check SINGLE_QUBIT_NOISE_TYPES collect_parameters).
Local Abbreviation resolver :=
  (validate_and_prompt SINGLE_QUBIT_NOISE_TYPES collect_parameters).

(** When each condition holds. *)
Lemma conflict1_true (args : gmap string value) nt nq :
  args !! "noise_type" = Some (VStr nt) -> In nt SINGLE_QUBIT_NOISE_TYPES ->
  args !! "num_qubits" = Some nq -> gt_one nq = Ok true ->
  conflict1 args = Ok true.
Proof.
  intros Hnt Hin%PyFacts.str_in_In Hnq Hgt.
  unfold single_qubit_conflict, getitem. rewrite Hnt. cbn [Py.bind value_in].
  rewrite Hin, Hnq. exact Hgt.
Qed.

Lemma conflict2_true (args : gmap string value) nt nq :
  args !! "visualization_type" = Some (VStr "hypergraph") ->
  args !! "noise_type" = Some (VStr nt) -> In nt SINGLE_QUBIT_NOISE_TYPES ->
  args !! "num_qubits" = Some nq -> gt_one nq = Ok true ->
  conflict2 args = Ok true.
Proof.
  intros Hviz Hnt Hin Hnq Hgt.
  unfold hypergraph_single_qubit_conflict, getitem. rewrite Hviz.
  cbn [Py.bind]. change (value_eq_str (VStr "hypergraph") "hypergraph") with true.
  cbv iota. now apply conflict1_true with nt nq.
Qed.

Lemma conflict3_true (args : gmap string value) nt enabled :
  args !! "sim_mode" = Some (VStr "density") ->
  args !! "noise_type" = Some (VStr nt) -> In nt SINGLE_QUBIT_NOISE_TYPES ->
  args !! "noise_enabled" = Some enabled -> truthy enabled = true ->
  conflict3 args = Ok true.
Proof.
  intros Hsim Hnt Hin%PyFacts.str_in_In Hen Htrue.
  unfold density_noise_conflict, getitem. rewrite Hsim. cbn [Py.bind].
  change (value_eq_str (VStr "density") "density") with true. cbv iota.
  rewrite Hnt. cbn [Py.bind value_in]. rewrite Hin, Hen. cbn [Py.bind].
  now rewrite Htrue.
Qed.

(** A block that returns ends the chain; a block that falls through hands
    its dictionary to the next. *)
Lemma and_then_return (m : io flow) (k : gmap string value -> io flow) c a c' :
  m c = Ok (Return a, c') -> and_then m k c = Ok (Return a, c').
Proof. intros H. unfold and_then, io_bind. now rewrite H. Qed.

Lemma and_then_continue (m : io flow) (k : gmap string value -> io flow) c a c' :
  m c = Ok (Continue a, c') -> and_then m k c = k a c'.
Proof. intros H. unfold and_then, io_bind. now rewrite H. Qed.

Lemma and_then_raise (m : io flow) (k : gmap string value -> io flow) c e :
  m c = Raise e -> and_then m k c = Raise e.
Proof. intros H. unfold and_then, io_bind. now rewrite H. Qed.

(** A block whose condition is false does nothing. *)
Lemma check1_skip args c : conflict1 args = Ok false -> check1 args c = Ok (Continue args, c).
Proof. intros H. unfold check_single_qubit_noise, io_bind, lift. now rewrite H. Qed.

Lemma check2_skip args c : conflict2 args = Ok false -> check2 args c = Ok (Continue args, c).
Proof. intros H. unfold check_hypergraph_single_qubit, io_bind, lift. now rewrite H. Qed.

Lemma check3_skip args c : conflict3 args = Ok false -> check3 args c = Ok (Continue args, c).
Proof. intros H. unfold check_density_noise, io_bind, lift. now rewrite H. Qed.

Lemma check4_skip args c : conflict4 args = Ok false -> check4 args c = Ok (Continue args, c).
Proof. intros H. unfold check_hypergraph_density, io_bind, lift. now rewrite H. Qed.

Lemma plot_step_skip (args : gmap string value) viz c :
  args !! "visualization_type" = Some viz -> value_eq_str viz "plot" = false ->
  plot_step args c = Ok (Continue args, c).
Proof.
  intros Hviz Hne. unfold set_plot_settings, io_bind, lift, getitem.
  now rewrite Hviz, Hne.
Qed.

(** The cancel branch is the restarted collection and nothing else. *)
Lemma cancel_run c :
  cancel collect_parameters c =
  match collect_parameters (Console (stdin c) (screen c ++ [Printed "config_cancelled" ∅])) with
  | Ok (fresh, c') => Ok (Return fresh, c')
  | Raise e => Raise e
  end.
Proof.
  unfold cancel, io_bind, print_message, ret.
  now destruct (collect_parameters _) as [[fresh c'] | e].
Qed.

(** Check 1 with its condition true: warning, prompt, branch. *)
Lemma check1_run (args : gmap string value) nt nq c :
  args !! "noise_type" = Some (VStr nt) -> In nt SINGLE_QUBIT_NOISE_TYPES ->
  args !! "num_qubits" = Some nq -> gt_one nq = Ok true ->
  check1 args c =
  (print_message "single_qubit_noise_warning"
     (<[ "noise_type" := VStr nt ]> {[ "num_qubits" := nq ]}) ;;;
   choice <~ get_input "single_qubit_noise_prompt" "p"
               (Some single_qubit_noise_options) None ∅ ;;
   resolve1 args choice) c.
Proof.
  intros Hnt Hin Hnq Hgt. unfold check_single_qubit_noise.
  unfold io_bind at 1. unfold lift at 1.
  rewrite (conflict1_true args nt nq Hnt Hin Hnq Hgt).
  unfold io_bind, lift, getitem. now rewrite Hnt, Hnq.
Qed.

Lemma check2_run (args : gmap string value) nt nq c :
  args !! "visualization_type" = Some (VStr "hypergraph") ->
  args !! "noise_type" = Some (VStr nt) -> In nt SINGLE_QUBIT_NOISE_TYPES ->
  args !! "num_qubits" = Some nq -> gt_one nq = Ok true ->
  check2 args c =
  (print_message "hypergraph_single_qubit_warning"
     (<[ "noise_type" := VStr nt ]> {[ "num_qubits" := nq ]}) ;;;
   choice <~ get_input "hypergraph_single_qubit_prompt" "p"
               (Some hypergraph_single_qubit_options) None ∅ ;;
   resolve2 args choice) c.
Proof.
  intros Hviz Hnt Hin Hnq Hgt. unfold check_hypergraph_single_qubit.
  unfold io_bind at 1. unfold lift at 1.
  rewrite (conflict2_true args nt nq Hviz Hnt Hin Hnq Hgt).
  unfold io_bind, lift, getitem. now rewrite Hnt, Hnq.
Qed.

Lemma check3_run (args : gmap string value) nt enabled c :
  args !! "sim_mode" = Some (VStr "density") ->
  args !! "noise_type" = Some (VStr nt) -> In nt SINGLE_QUBIT_NOISE_TYPES ->
  args !! "noise_enabled" = Some enabled -> truthy enabled = true ->
  check3 args c =
  (print_message "density_noise_warning" {[ "noise_type" := VStr nt ]} ;;;
   choice <~ get_input "density_noise_prompt" "p"
               (Some density_noise_options) None ∅ ;;
   resolve3 args choice) c.
Proof.
  intros Hsim Hnt Hin Hen Htrue. unfold check_density_noise.
  unfold io_bind at 1. unfold lift at 1.
  rewrite (conflict3_true args nt enabled Hsim Hnt Hin Hen Htrue).
  unfold io_bind, lift, getitem. now rewrite Hnt.
Qed.

(** The switch branch: the family the typed token stands for becomes the
    noise family. *)
Lemma switch_noise_run (args : gmap string value) line typed shown :
  str_in (answer "depolarizing" line) (map lower noise_switch_options) = true ->
  switch_noise args (Console (Line line :: typed) shown) =
  Ok (<[ "noise_type" := VStr (canonical_noise (answer "depolarizing" line)) ]> args,
      Console typed
        (shown ++ [Printed "suggested_multi_qubit_noise_types" ∅]
               ++ [Prompted "noise_type_prompt"
                     (format_kwargs "depolarizing" (Some noise_switch_options) None ∅)]
               ++ [Printed "switched_noise_type"
                     {[ "noise_type" :=
                          VStr (canonical_noise (answer "depolarizing" line)) ]}])).
Proof.
  intros H. unfold switch_noise, io_bind, print_message. cbn [stdin screen].
  rewrite (get_input_accepts _ _ _ _ _ _ _ _ H). unfold ret.
  cbn [stdin screen]. now rewrite <- !app_assoc.
Qed.

(** C2 (amended).  With simulation mode [density], a single-qubit-only
    noise family and noise enabled, check 3 triggers; its prompt takes
    three answers and no others: [p], which disables the noise (sets
    [noise_enabled] to [False], leaves the noise family as it is),
    [switch], which asks for a noise family, and [c], which cancels.  None
    of the three is a plain proceed: [p] always changes the configuration,
    the noise having been enabled, and [switch] installs the family of the
    token typed, which leaves the configuration as it was exactly when
    that is the family already active. *)
Theorem density_noise_check (args : gmap string value) nt enabled :
  args !! "sim_mode" = Some (VStr "density") ->
  args !! "noise_type" = Some (VStr nt) -> In nt SINGLE_QUBIT_NOISE_TYPES ->
  args !! "noise_enabled" = Some enabled -> truthy enabled = true ->
  conflict3 args = Ok true
  /\ (forall c,
        check3 args c =
        (print_message "density_noise_warning" {[ "noise_type" := VStr nt ]} ;;;
         choice <~ get_input "density_noise_prompt" "p"
                     (Some ["p"; "switch"; "c"]) None ∅ ;;
         resolve3 args choice) c)
  /\ (forall c choice c',
        get_input "density_noise_prompt" "p" (Some ["p"; "switch"; "c"]) None ∅ c
        = Ok (choice, c') ->
        choice = "p" \/ choice = "switch" \/ choice = "c")
  /\ (forall c,
        resolve3 args "p" c =
        Ok (Continue (<[ "noise_enabled" := VBool false ]> args),
            Console (stdin c) (screen c ++ [Printed "noise_disabled" ∅])))
  /\ (<[ "noise_enabled" := VBool false ]> args) !! "noise_enabled" = Some (VBool false)
  /\ (<[ "noise_enabled" := VBool false ]> args) !! "noise_type" = Some (VStr nt)
  /\ (forall c, resolve3 args "switch" c =
                (args' <~ switch_noise args ;; ret (Continue args')) c)
  /\ (forall c, resolve3 args "c" c = cancel collect_parameters c)
  /\ <[ "noise_enabled" := VBool false ]> args <> args
  /\ (forall line typed shown,
        In (answer "depolarizing" line) noise_switch_options ->
        exists shown',
          resolve3 args "switch" (Console (Line line :: typed) shown) =
          Ok (Continue
                (<[ "noise_type" :=
                      VStr (canonical_noise (answer "depolarizing" line)) ]> args),
              Console typed shown'))
  /\ (forall token,
        <[ "noise_type" := VStr (canonical_noise token) ]> args = args
        <-> canonical_noise token = nt).
Proof.
  intros Hsim Hnt Hin Hen Htrue.
  split; [now apply conflict3_true with nt enabled |].
  split; [intros c; now apply check3_run with enabled |].
  split; [intros c choice c' H; apply get_input_offers in H; cbn in H; intuition auto |].
  split; [reflexivity |].
  split; [apply lookup_insert_eq |].
  split; [rewrite lookup_insert_ne by discriminate; exact Hnt |].
  split; [reflexivity |].
  split; [reflexivity |].
  split; [| split].
  - intros Hsame.
    assert (Hlook : (<[ "noise_enabled" := VBool false ]> args) !! "noise_enabled"
                    = Some enabled) by (now rewrite Hsame).
    rewrite lookup_insert_eq in Hlook. injection Hlook as <-. discriminate Htrue.
  - intros line typed shown Hl. eexists.
    unfold resolve_density_noise. cbn [String.eqb Ascii.eqb Bool.eqb].
    unfold io_bind.
    rewrite (switch_noise_run args line typed shown)
      by (apply PyFacts.str_in_In; exact Hl).
    reflexivity.
  - intros token. split.
    + intros Hsame.
      assert (Hlook : (<[ "noise_type" := VStr (canonical_noise token) ]> args)
                        !! "noise_type" = Some (VStr nt)) by (now rewrite Hsame).
      rewrite lookup_insert_eq in Hlook. now injection Hlook.
    + intros ->. now apply insert_id.
Qed.

(** C5 (amended).  With visualization [hypergraph], a single-qubit-only
    noise family and more than one qubit, check 2 triggers; its prompt
    takes three answers and no others: [p], which proceeds unchanged,
    [switch], which asks for another noise family and installs the family
    the token stands for, and [v], which changes the visualization to
    [plot].  It has no cancel: the answer [c] is refused as invalid and the
    prompt repeats. *)
Theorem hypergraph_check_offers (args : gmap string value) nt nq :
  args !! "visualization_type" = Some (VStr "hypergraph") ->
  args !! "noise_type" = Some (VStr nt) -> In nt SINGLE_QUBIT_NOISE_TYPES ->
  args !! "num_qubits" = Some nq -> gt_one nq = Ok true ->
  conflict2 args = Ok true
  /\ (forall c,
        check2 args c =
        (print_message "hypergraph_single_qubit_warning"
           (<[ "noise_type" := VStr nt ]> {[ "num_qubits" := nq ]}) ;;;
         choice <~ get_input "hypergraph_single_qubit_prompt" "p"
                     (Some ["p"; "switch"; "v"]) None ∅ ;;
         resolve2 args choice) c)
  /\ (forall c choice c',
        get_input "hypergraph_single_qubit_prompt" "p"
          (Some ["p"; "switch"; "v"]) None ∅ c = Ok (choice, c') ->
        choice = "p" \/ choice = "switch" \/ choice = "v")
  /\ (forall c, resolve2 args "p" c = Ok (Continue args, c))
  /\ (forall c, resolve2 args "switch" c =
                (args' <~ switch_noise args ;; ret (Continue args')) c)
  /\ (forall line typed shown,
        In (answer "depolarizing" line) noise_switch_options ->
        exists shown',
          switch_noise args (Console (Line line :: typed) shown) =
          Ok (<[ "noise_type" := VStr (canonical_noise (answer "depolarizing" line)) ]> args,
              Console typed shown'))
  /\ (forall c, resolve2 args "v" c =
                (print_message "switched_to_plot" ∅ ;;;
                 args' <~ switch_to_plot collect_parameters args ;;
                 ret (Continue args')) c)
  /\ (forall typed shown,
        get_input "hypergraph_single_qubit_prompt" "p"
          (Some ["p"; "switch"; "v"]) None ∅ (Console (Line "c" :: typed) shown) =
        get_input "hypergraph_single_qubit_prompt" "p"
          (Some ["p"; "switch"; "v"]) None ∅
          (Console typed
             (shown ++ [Prompted "hypergraph_single_qubit_prompt"
                          (format_kwargs "p" (Some ["p"; "switch"; "v"]) None ∅)]
                    ++ [Printed "invalid_input"
                          (<[ "input" := VStr "c" ]>
                             {[ "options" := strs ["p"; "switch"; "v"] ]})]))).
Proof.
  intros Hviz Hnt Hin Hnq Hgt. repeat split.
  - now apply conflict2_true with nt nq.
  - intros c. now apply check2_run.
  - intros c choice c' H. apply get_input_offers in H. cbn in H. intuition auto.
  - intros line typed shown Hl. eexists. apply switch_noise_run.
    apply PyFacts.str_in_In. exact Hl.
  - intros typed shown.
    exact (get_input_refuses "hypergraph_single_qubit_prompt" "p" "p"
             ["switch"; "v"] None ∅ "c" typed shown eq_refl).
Qed.

(** C3 (amended).  On a configuration that triggers none of the four
    checks and whose visualization is not [plot], the resolver reads
    nothing, prints nothing and returns the configuration as it is. *)
Theorem conflict_free_unchanged (args : gmap string value) (c : console) :
  conflict1 args = Ok false -> conflict2 args = Ok false ->
  conflict3 args = Ok false -> conflict4 args = Ok false ->
  args !! "visualization_type" <> Some (VStr "plot") ->
  resolver args c = Ok (args, c).
Proof.
  intros H1 H2 H3 H4 Hplot.
  assert (Hstep : plot_step args c = Ok (Continue args, c)).
  { unfold hypergraph_single_qubit_conflict, getitem in H2.
    destruct (args !! "visualization_type") as [viz |] eqn:Hviz; [| discriminate H2].
    apply plot_step_skip with viz; [assumption |].
    destruct viz as [| | | | s | |]; try reflexivity.
    cbn [value_eq_str]. destruct (String.eqb_spec s "plot"); [| reflexivity].
    subst s. contradiction. }
  unfold validate_and_prompt, before_density_check. unfold io_bind at 1.
  rewrite (and_then_continue _ _ c args c).
  - now rewrite check4_skip.
  - rewrite (and_then_continue _ _ c args c); [now apply check3_skip |].
    rewrite (and_then_continue _ _ c args c); [exact Hstep |].
    rewrite (and_then_continue _ _ c args c); [now apply check2_skip |].
    now apply check1_skip.
Qed.

(** C7.  The answer [c] can be given in checks 1 and 3 only (the prompts of
    checks 2 and 4 never return it).  Given there, it ends the resolver at
    once: what the resolver returns is what the restarted
    [collect_parameters] returns, from the console as the cancelled check
    left it; the configuration in progress plays no part in it, no later
    check runs and the check is not asked again. *)
Theorem cancel_restarts :
  (forall (args : gmap string value) nt nq line typed shown,
      args !! "noise_type" = Some (VStr nt) -> In nt SINGLE_QUBIT_NOISE_TYPES ->
      args !! "num_qubits" = Some nq -> gt_one nq = Ok true ->
      answer "p" line = "c" ->
      resolver args (Console (Line line :: typed) shown) =
      collect_parameters
        (Console typed
           (shown ++ [Printed "single_qubit_noise_warning"
                        (<[ "noise_type" := VStr nt ]> {[ "num_qubits" := nq ]})]
                  ++ [Prompted "single_qubit_noise_prompt"
                        (format_kwargs "p" (Some single_qubit_noise_options) None ∅)]
                  ++ [Printed "config_cancelled" ∅])))
  /\ (forall (args0 : gmap string value) c0 (args : gmap string value)
             nt enabled line typed shown,
      before3 args0 c0 = Ok (Continue args, Console (Line line :: typed) shown) ->
      args !! "sim_mode" = Some (VStr "density") ->
      args !! "noise_type" = Some (VStr nt) -> In nt SINGLE_QUBIT_NOISE_TYPES ->
      args !! "noise_enabled" = Some enabled -> truthy enabled = true ->
      answer "p" line = "c" ->
      resolver args0 c0 =
      collect_parameters
        (Console typed
           (shown ++ [Printed "density_noise_warning" {[ "noise_type" := VStr nt ]}]
                  ++ [Prompted "density_noise_prompt"
                        (format_kwargs "p" (Some density_noise_options) None ∅)]
                  ++ [Printed "config_cancelled" ∅])))
  /\ (forall c choice c',
        get_input "hypergraph_single_qubit_prompt" "p"
          (Some hypergraph_single_qubit_options) None ∅ c = Ok (choice, c') ->
        choice <> "c")
  /\ (forall c choice c',
        get_input "hypergraph_density_no_noise_prompt" "p"
          (Some hypergraph_density_no_noise_options) None ∅ c = Ok (choice, c') ->
        choice <> "c").
Proof.
  repeat split.
  - intros args nt nq line typed shown Hnt Hin Hnq Hgt Hc.
    assert (Hrun : check1 args (Console (Line line :: typed) shown) =
                   cancel collect_parameters
                     (Console typed
                        (shown ++ [Printed "single_qubit_noise_warning"
                                     (<[ "noise_type" := VStr nt ]> {[ "num_qubits" := nq ]})]
                               ++ [Prompted "single_qubit_noise_prompt"
                                     (format_kwargs "p" (Some single_qubit_noise_options)
                                        None ∅)]))).
    { rewrite (check1_run args nt nq _ Hnt Hin Hnq Hgt).
      unfold io_bind at 1. unfold print_message at 1. cbn [stdin screen].
      unfold io_bind at 1. rewrite get_input_accepts by (now rewrite Hc).
      rewrite Hc. now rewrite <- app_assoc. }
    rewrite cancel_run in Hrun. cbn [stdin screen] in Hrun.
    rewrite <- !app_assoc in Hrun. cbn [app] in *.
    unfold validate_and_prompt, before_density_check. unfold io_bind at 1.
    destruct (collect_parameters _) as [[fresh c'] | e].
    + now rewrite !(and_then_return _ _ _ fresh c')
        by (repeat (apply and_then_return); exact Hrun).
    + now rewrite !(and_then_raise _ _ _ e)
        by (repeat (apply and_then_raise); exact Hrun).
  - intros args0 c0 args nt enabled line typed shown Hpre Hsim Hnt Hin Hen Htrue Hc.
    assert (Hrun : check3 args (Console (Line line :: typed) shown) =
                   cancel collect_parameters
                     (Console typed
                        (shown ++ [Printed "density_noise_warning"
                                     {[ "noise_type" := VStr nt ]}]
                               ++ [Prompted "density_noise_prompt"
                                     (format_kwargs "p" (Some density_noise_options)
                                        None ∅)]))).
    { rewrite (check3_run args nt enabled _ Hsim Hnt Hin Hen Htrue).
      unfold io_bind at 1. unfold print_message at 1. cbn [stdin screen].
      unfold io_bind at 1. rewrite get_input_accepts by (now rewrite Hc).
      rewrite Hc. now rewrite <- app_assoc. }
    rewrite cancel_run in Hrun. cbn [stdin screen] in Hrun.
    rewrite <- !app_assoc in Hrun. cbn [app] in *.
    pose proof (and_then_continue _ check3 c0 _ _ Hpre) as Hthree.
    rewrite Hrun in Hthree.
    unfold validate_and_prompt. unfold io_bind at 1.
    destruct (collect_parameters _) as [[fresh c'] | e].
    + now rewrite (and_then_return _ _ _ fresh c' Hthree).
    + now rewrite (and_then_raise _ _ _ e Hthree).
  - intros c choice c' H ->. apply get_input_offers in H. cbn in H.
    intuition discriminate.
  - intros c choice c' H ->. apply get_input_offers in H. cbn in H.
    intuition discriminate.
Qed.

End Resolver.

(** *** Closed instances *)

Local Abbreviation single := Spec.single_qubit_noise_types.
Local Abbreviation run_resolver := (validate_and_prompt single Spec.restarted).

(** Witness for C2: the scenario of section 8 (exact mode, PHASE_FLIP,
    noise enabled). *)
Lemma density_noise_check_witness :
  density_noise_conflict single
    (Spec.params 1 "GHZ" "PHASE_FLIP" true "density" "none") = Ok true
  /\ (<[ "noise_enabled" := VBool false ]>
        (Spec.params 1 "GHZ" "PHASE_FLIP" true "density" "none"))
     !! "noise_type" = Some (VStr "PHASE_FLIP").
Proof.
  destruct (density_noise_check single Spec.restarted
              (Spec.params 1 "GHZ" "PHASE_FLIP" true "density" "none")
              "PHASE_FLIP" (VBool true)
              ltac:(vm_compute; reflexivity) ltac:(vm_compute; reflexivity)
              ltac:(simpl; tauto)
              ltac:(vm_compute; reflexivity) ltac:(reflexivity))
    as (Htrig & _ & _ & _ & _ & Hfamily & _).
  exact (conj Htrig Hfamily).
Defined.

(** Counterexample to C2 as stated: check 3 offers three answers, and the
    one spelled [p] does not proceed unchanged.  With three qubits the
    first [p] answers check 1 and changes nothing; the second answers
    check 3 and switches the noise off. *)
Lemma density_noise_no_proceed :
  length density_noise_options = 3
  /\ Spec.params 3 "GHZ" "PHASE_FLIP" true "density" "none" !! "noise_enabled"
     = Some (VBool true)
  /\ returned_item "noise_enabled"
       (run_resolver (Spec.params 3 "GHZ" "PHASE_FLIP" true "density" "none")
          (Console [Line "p"; Line "p"] []))
     = Ok (Some (VBool false)).
Proof. repeat split; vm_compute; reflexivity. Qed.

(** Witness for C3: a sampled run without visualization. *)
Lemma conflict_free_unchanged_witness :
  run_resolver (Spec.params 1 "GHZ" "DEPOLARIZING" true "qasm" "none")
    (Console [Line "switch"] [])
  = Ok (Spec.params 1 "GHZ" "DEPOLARIZING" true "qasm" "none",
        Console [Line "switch"] []).
Proof.
  apply (conflict_free_unchanged single Spec.restarted
           (Spec.params 1 "GHZ" "DEPOLARIZING" true "qasm" "none")
           (Console [Line "switch"] []));
    try (vm_compute; reflexivity).
  vm_compute. discriminate.
Defined.

(** Counterexample to C3 as stated: a configuration that triggers none of
    the four checks but asks for a plot is prompted and modified. *)
Lemma plot_settings_asked :
  single_qubit_conflict single
    (Spec.params 1 "GHZ" "DEPOLARIZING" true "density" "plot") = Ok false
  /\ hypergraph_single_qubit_conflict single
       (Spec.params 1 "GHZ" "DEPOLARIZING" true "density" "plot") = Ok false
  /\ density_noise_conflict single
       (Spec.params 1 "GHZ" "DEPOLARIZING" true "density" "plot") = Ok false
  /\ hypergraph_density_conflict
       (Spec.params 1 "GHZ" "DEPOLARIZING" true "density" "plot") = Ok false
  /\ Spec.params 1 "GHZ" "DEPOLARIZING" true "density" "plot" !! "show_real"
     = Some (VBool false)
  /\ returned_item "show_real"
       (run_resolver (Spec.params 1 "GHZ" "DEPOLARIZING" true "density" "plot")
          (Console [Line "r"] []))
     = Ok (Some (VBool true)).
Proof. repeat split; vm_compute; reflexivity. Qed.

(** Witness for C5: three qubits, AMPLITUDE_DAMPING, hypergraph. *)
Lemma hypergraph_check_offers_witness :
  hypergraph_single_qubit_conflict single
    (Spec.params 3 "GHZ" "AMPLITUDE_DAMPING" true "qasm" "hypergraph") = Ok true
  /\ resolve_hypergraph_single_qubit Spec.restarted
       (Spec.params 3 "GHZ" "AMPLITUDE_DAMPING" true "qasm" "hypergraph") "p"
       (Console [] [])
     = Ok (Continue (Spec.params 3 "GHZ" "AMPLITUDE_DAMPING" true "qasm" "hypergraph"),
           Console [] []).
Proof.
  destruct (hypergraph_check_offers single Spec.restarted
              (Spec.params 3 "GHZ" "AMPLITUDE_DAMPING" true "qasm" "hypergraph")
              "AMPLITUDE_DAMPING" (VInt 3)
              ltac:(vm_compute; reflexivity) ltac:(vm_compute; reflexivity)
              ltac:(simpl; tauto)
              ltac:(vm_compute; reflexivity) ltac:(reflexivity))
    as (Htrig & _ & _ & Hproceed & _).
  exact (conj Htrig (Hproceed (Console [] []))).
Defined.

(** Counterexample to C5 as stated: check 2 has no cancel.  Typed at its
    prompt, [c] is reported as invalid and the prompt is shown again; the
    next answer, [p], is the one that is taken. *)
Lemma hypergraph_check_no_cancel :
  ~ In "c" hypergraph_single_qubit_options
  /\ length hypergraph_single_qubit_options = 3
  /\ check_hypergraph_single_qubit single Spec.restarted
       (Spec.params 3 "GHZ" "AMPLITUDE_DAMPING" true "qasm" "hypergraph")
       (Console [Line "c"; Line "p"] [])
     = Ok (Continue (Spec.params 3 "GHZ" "AMPLITUDE_DAMPING" true "qasm" "hypergraph"),
           Console []
             [ Printed "hypergraph_single_qubit_warning"
                 (<[ "noise_type" := VStr "AMPLITUDE_DAMPING" ]>
                    {[ "num_qubits" := VInt 3 ]});
               Prompted "hypergraph_single_qubit_prompt"
                 (format_kwargs "p" (Some ["p"; "switch"; "v"]) None ∅);
               Printed "invalid_input"
                 (<[ "input" := VStr "c" ]>
                    {[ "options" := strs ["p"; "switch"; "v"] ]});
               Prompted "hypergraph_single_qubit_prompt"
                 (format_kwargs "p" (Some ["p"; "switch"; "v"]) None ∅) ]).
Proof.
  split; [| split; [reflexivity | vm_compute; reflexivity]].
  cbn. intros H. repeat destruct H as [H | H]; discriminate || contradiction.
Qed.

(** Witness for C7: cancelling check 1; the rest of the input is left to
    the restarted collection. *)
Lemma cancel_restarts_witness :
  run_resolver (Spec.params 3 "GHZ" "AMPLITUDE_DAMPING" true "qasm" "none")
    (Console [Line " C "; Line "5"] [])
  = Ok (∅,
        Console [Line "5"]
          [ Printed "single_qubit_noise_warning"
              (<[ "noise_type" := VStr "AMPLITUDE_DAMPING" ]>
                 {[ "num_qubits" := VInt 3 ]});
            Prompted "single_qubit_noise_prompt"
              (format_kwargs "p" (Some single_qubit_noise_options) None ∅);
            Printed "config_cancelled" ∅ ]).
Proof.
  rewrite (proj1 (cancel_restarts single Spec.restarted)
             (Spec.params 3 "GHZ" "AMPLITUDE_DAMPING" true "qasm" "none")
             "AMPLITUDE_DAMPING" (VInt 3) " C " [Line "5"] []
             ltac:(vm_compute; reflexivity) ltac:(simpl; tauto)
             ltac:(vm_compute; reflexivity) ltac:(reflexivity)
             ltac:(vm_compute; reflexivity)).
  reflexivity.
Defined.

End MainFacts.

(** ** The scenarios of section 8, run on the model *)

Module Scenarios.

Import Validation Main.
Local Open Scope float_scope.

Example lower_strip_line : answer "p" "  SwItCh  " = "switch" /\ answer "p" "   " = "p".
Proof. split; reflexivity. Qed.

Example int_of_string :
  py_int " -1_000 " = Ok (-1000)%Z
  /\ py_int "+07" = Ok 7%Z
  /\ py_int "1__0" = Raise (ValueError "invalid literal for int() with base 10: '1__0'")
  /\ py_int "" = Raise (ValueError "invalid literal for int() with base 10: ''").
Proof. repeat split; reflexivity. Qed.

(** [int] skips less than [str.strip] drops: a file separator (character
    28) around a numeral is dropped by [strip] and refused by [int]. *)
Example int_refuses_separator :
  strip (String (ascii_of_nat 28) "12") = "12"
  /\ py_int "12" = Ok 12%Z
  /\ exists msg, py_int (String (ascii_of_nat 28) "12") = Raise (ValueError msg).
Proof. split; [| split; [| eexists]]; reflexivity. Qed.

(** A numeral of 4300 digits is read, one of 4301 is refused for its
    length, and so is a literal that starts with 4301 digits, whatever
    follows them. *)
Example int_refuses_long_numeral :
  let ones := fix ones (k : nat) : string :=
                match k with
                | O => EmptyString
                | S k' => String "1" (ones k')
                end in
  let too_long :=
    ValueError
      "Exceeds the limit (4300 digits) for integer string conversion: value has 4301 digits; use sys.set_int_max_str_digits() to increase the limit" in
  (exists n, py_int (ones 4300%nat) = Ok n)
  /\ py_int (ones 4301%nat) = Raise too_long
  /\ py_int (ones 4301%nat +:+ " x") = Raise too_long.
Proof.
  cbv zeta. split; [| split]; vm_compute; [eexists |..]; reflexivity.
Qed.

(** [str] writes the largest number of 4300 digits and refuses the
    next one. *)
Example str_refuses_long_numeral :
  (exists s, Collect.str_of_int (10 ^ 4300 - 1) = Ok s)
  /\ Collect.str_of_int (10 ^ 4300)
     = Raise (ValueError
         "Exceeds the limit (4300 digits) for integer string conversion; use sys.set_int_max_str_digits() to increase the limit")
  /\ Collect.str_of_int (-12) = Ok "-12".
Proof.
  split; [| split]; vm_compute; [eexists |..]; reflexivity.
Qed.

(** "error_rate = 1.5: a violation naming error_rate". *)
Example error_rate_out_of_range :
  validate_inputs Spec.state_classes Spec.noise_classes
    3 "GHZ" "DEPOLARIZING" "qasm" None (Some 1.5) None None None None
  = Raise (ValueError "Error rate must be between 0 and 1.").
Proof. reflexivity. Qed.

(** An unknown family is named together with the known ones. *)
Example unknown_noise_family :
  validate_inputs Spec.state_classes Spec.noise_classes
    3 "GHZ" "BIT_ROT" "qasm" None None None None None None
  = Raise (ValueError
      "Invalid noise type: BIT_ROT. Choose from ['DEPOLARIZING', 'PHASE_FLIP', 'THERMAL_RELAXATION', 'AMPLITUDE_DAMPING']").
Proof. reflexivity. Qed.

(** A NaN relaxation time passes line 70: each of its three comparisons is
    false. *)
Example nan_relaxation_time :
  validate_inputs Spec.state_classes Spec.noise_classes
    3 "GHZ" "THERMAL_RELAXATION" "qasm" None None None None (Some nan) (Some 80e-6)
  = Ok tt.
Proof. reflexivity. Qed.

(** "3 qubits, GHZ, AMPLITUDE_DAMPING, enabled: check 1 triggers; choosing
    switch with token d yields DEPOLARIZING". *)
Example switch_to_depolarizing :
  single_qubit_conflict Spec.single_qubit_noise_types
    (Spec.params 3 "GHZ" "AMPLITUDE_DAMPING" true "qasm" "none") = Ok true
  /\ returned_item "noise_type"
       (validate_and_prompt Spec.single_qubit_noise_types Spec.restarted
          (Spec.params 3 "GHZ" "AMPLITUDE_DAMPING" true "qasm" "none")
          (Console [Line "switch"; Line "d"] []))
     = Ok (Some (VStr "DEPOLARIZING")).
Proof. split; vm_compute; reflexivity. Qed.

(** Ctrl+C at the prompt of check 3 takes its default, [p]: the noise is
    switched off. *)
Example interrupt_takes_default :
  returned_item "noise_enabled"
    (validate_and_prompt Spec.single_qubit_noise_types Spec.restarted
       (Spec.params 1 "GHZ" "PHASE_FLIP" true "density" "none")
       (Console [Interrupt] []))
  = Ok (Some (VBool false)).
Proof. vm_compute; reflexivity. Qed.

(** Check 4 sees what check 3 did: once the noise is off, a hypergraph of
    an exact run is questioned, and [e] switches the noise back on. *)
Example check_four_after_three :
  returned_item "noise_enabled"
    (validate_and_prompt Spec.single_qubit_noise_types Spec.restarted
       (Spec.params 1 "GHZ" "PHASE_FLIP" true "density" "hypergraph")
       (Console [Line "p"; Line "e"] []))
  = Ok (Some (VBool true)).
Proof. vm_compute; reflexivity. Qed.

(** With an eligible gate in the list the channel is built and attached to
    the eligible gates only. *)
Example apply_attaches :
  AmplitudeDamping.apply float (fun rate => Ok rate) _ Spec.emit_record
    {| AmplitudeDamping.error_rate := 0.1 |} [] ["cx"; "u3"; "id"] None []
  = Ok ([(0.1, ["u3"; "id"])],
        [Spec.LogRecord "AMPLITUDE_DAMPING" ["u3"; "id"]
           {[ "error_rate" := AmplitudeDamping.InfoFloat 0.1 ]}]).
Proof. reflexivity. Qed.

End Scenarios.

(** * Further properties of the code *)

(** ** Strings and numerals *)

Module StringFacts.

Import Main Collect.

Lemma lower_ascii_idem (c : ascii) : lower_ascii (lower_ascii c) = lower_ascii c.
Proof. destruct c as [[] [] [] [] [] [] [] []]; reflexivity. Qed.

Lemma lower_idem (s : string) : lower (lower s) = lower s.
Proof.
  induction s as [| c s IH]; [reflexivity |].
  cbn [lower]. now rewrite lower_ascii_idem, IH.
Qed.

Lemma is_space_lower (c : ascii) : is_space (lower_ascii c) = is_space c.
Proof. destruct c as [[] [] [] [] [] [] [] []]; reflexivity. Qed.

Lemma lstrip_lower (s : string) : lstrip (lower s) = lower (lstrip s).
Proof.
  induction s as [| c s IH]; [reflexivity |].
  cbn [lower lstrip]. rewrite is_space_lower.
  now destruct (is_space c).
Qed.

Lemma rstrip_lower (s : string) : rstrip (lower s) = lower (rstrip s).
Proof.
  induction s as [| c s IH]; [reflexivity |].
  cbn [lower rstrip]. rewrite IH, is_space_lower.
  destruct (rstrip s); cbn [lower]; [now destruct (is_space c) | reflexivity].
Qed.

Lemma strip_lower (s : string) : strip (lower s) = lower (strip s).
Proof. unfold strip. now rewrite lstrip_lower, rstrip_lower. Qed.

Lemma rstrip_cons (c : ascii) (s : string) :
  is_space c = false -> rstrip (String c s) = String c (rstrip s).
Proof. intros Hc. cbn [rstrip]. rewrite Hc. now destruct (rstrip s). Qed.

Lemma rstrip_idem (s : string) : rstrip (rstrip s) = rstrip s.
Proof.
  induction s as [| c s IH]; [reflexivity |].
  cbn [rstrip]. destruct (rstrip s) as [| d r] eqn:E.
  - destruct (is_space c) eqn:Hc; [reflexivity |]. cbn [rstrip]. now rewrite Hc.
  - cbn [rstrip] in *. now rewrite IH.
Qed.

Lemma lstrip_head (s : string) :
  match lstrip s with
  | EmptyString => True
  | String c _ => is_space c = false
  end.
Proof.
  induction s as [| c s IH]; [exact I |].
  cbn [lstrip]. now destruct (is_space c) eqn:Hc.
Qed.

Lemma strip_idem (s : string) : strip (strip s) = strip s.
Proof.
  unfold strip. pose proof (lstrip_head s) as H.
  destruct (lstrip s) as [| c t]; [reflexivity |].
  rewrite (rstrip_cons c t H). cbn [lstrip]. rewrite H.
  now rewrite !(rstrip_cons c _ H), rstrip_idem.
Qed.

(** What [get_input] reads a line as is in lower case and has no blanks
    around it, as far as it comes from the line. *)
Lemma answer_lower (default line : string) :
  lower (answer default line) = answer default line.
Proof.
  unfold answer, str_or.
  destruct (lower (strip line)) as [| c t] eqn:E.
  - apply lower_idem.
  - rewrite <- E. apply lower_idem.
Qed.

(** What [int] skips, [str.strip] drops as well. *)
Lemma is_c_space_space (c : ascii) : is_space c = false -> is_c_space c = false.
Proof. destruct c as [[] [] [] [] [] [] [] []]; intros H; try reflexivity; discriminate H. Qed.

Lemma c_rstrip_cons (c : ascii) (s : string) :
  is_c_space c = false -> c_rstrip (String c s) = String c (c_rstrip s).
Proof. intros Hc. cbn [c_rstrip]. rewrite Hc. now destruct (c_rstrip s). Qed.

(** A string without white space is its own [strip], and [int] finds
    nothing to skip around it. *)
Lemma strip_no_space (s : string) : no_space s = true -> strip s = s.
Proof.
  intros H. unfold strip.
  assert (Hl : lstrip s = s).
  { destruct s as [| c s]; [reflexivity |]. cbn in H |- *.
    now destruct (is_space c). }
  rewrite Hl. clear Hl.
  induction s as [| c s IH]; [reflexivity |].
  cbn [no_space] in H. apply andb_prop in H as [Hc Hs].
  apply negb_true_iff in Hc. rewrite (rstrip_cons c s Hc). now rewrite IH.
Qed.

Lemma c_strip_no_space (s : string) : no_space s = true -> c_strip s = s.
Proof.
  intros H. unfold c_strip.
  assert (Hl : c_lstrip s = s).
  { destruct s as [| c s]; [reflexivity |]. cbn [no_space] in H.
    apply andb_prop in H as [Hc _]. apply negb_true_iff in Hc.
    cbn [c_lstrip]. now rewrite (is_c_space_space c Hc). }
  rewrite Hl. clear Hl.
  induction s as [| c s IH]; [reflexivity |].
  cbn [no_space] in H. apply andb_prop in H as [Hc Hs].
  apply negb_true_iff in Hc.
  rewrite (c_rstrip_cons c s (is_c_space_space c Hc)). now rewrite IH.
Qed.

Import Decimal.

Local Abbreviation digits := DecimalString.NilEmpty.string_of_uint.

Lemma digits_no_space (d : uint) : no_space (digits d) = true.
Proof. induction d; cbn; auto. Qed.

(** Decide the two tests [parse_digits] and [digit_run] make on a literal
    character. *)
Ltac eval_digit :=
  match goal with
  | |- context [Ascii.eqb ?c "_"%char] =>
      let b := eval vm_compute in (Ascii.eqb c "_"%char) in
      change (Ascii.eqb c "_"%char) with b
  end;
  match goal with
  | |- context [digit_of ?c] =>
      let v := eval vm_compute in (digit_of c) in
      change (digit_of c) with v
  end;
  cbv iota.

(** Reading a numeral with a positive number already read. *)
Lemma parse_digits_acc (d : uint) (acc : positive) :
  parse_digits (digits d) (Z.pos acc) true = Some (Z.pos (Pos.of_uint_acc d acc)).
Proof.
  revert acc. induction d; intros acc; cbn [digits Pos.of_uint_acc];
    [reflexivity | ..];
    cbn [parse_digits]; eval_digit;
    match goal with
    | |- parse_digits _ ?z _ = Some (Z.pos (Pos.of_uint_acc _ ?p)) =>
        replace z with (Z.pos p) by lia
    end; apply IHd.
Qed.

(** Reading a numeral from the start: leading zeros leave the count at
    zero. *)
Lemma parse_digits_zero (d : uint) (after_digit : bool) :
  d <> Nil \/ after_digit = true ->
  parse_digits (digits d) 0 after_digit = Some (Z.of_N (Pos.of_uint d)).
Proof.
  revert after_digit. induction d; intros b Hb; cbn [digits Pos.of_uint];
    [destruct Hb as [Hb | ->]; [congruence | reflexivity] | ..];
    cbn [parse_digits]; eval_digit;
    first [ apply IHd; now right
          | match goal with
            | |- parse_digits _ ?z _ = Some (Z.of_N (N.pos (Pos.of_uint_acc _ ?p))) =>
                change z with (Z.pos p)
            end; cbn [Z.of_N]; apply parse_digits_acc ].
Qed.

(** A numeral is one run of digits, as long as the numeral. *)
Lemma digit_run_digits (d : uint) (count : nat) (after_digit : bool) :
  d <> Nil \/ after_digit = true ->
  digit_run (digits d) count after_digit = Some (count + nb_digits d)%nat.
Proof.
  revert count after_digit.
  induction d; intros k b Hb; cbn [digits nb_digits];
    [destruct Hb as [Hb | ->]; [congruence |];
     cbn [digit_run orb]; now rewrite Nat.add_0_r | ..];
    cbn [digit_run]; eval_digit;
    rewrite IHd by (now right); now rewrite Nat.add_succ_r.
Qed.

Lemma to_uint_nonnil (p : positive) : Pos.to_uint p <> Nil.
Proof.
  intros H. pose proof (DecimalPos.Unsigned.of_to p) as E.
  rewrite H in E. discriminate E.
Qed.

(** [int] reads back the numeral of a positive number, with or without a
    minus sign in front, when it is short enough. *)
Lemma py_int_numeral (p : positive) :
  (int_max_str_digits <? nb_digits (Pos.to_uint p))%nat = false ->
  py_int (digits (Pos.to_uint p)) = Ok (Z.pos p)
  /\ py_int (String "-" (digits (Pos.to_uint p))) = Ok (Z.neg p).
Proof.
  intros L. unfold py_int.
  pose proof (to_uint_nonnil p) as Hp.
  pose proof (DecimalZ.of_to (Z.pos p)) as E. cbn in E. unfold Z.of_uint in E.
  assert (Hparse := parse_digits_zero (Pos.to_uint p) false (or_introl Hp)).
  assert (Hrun := digit_run_digits (Pos.to_uint p) 0 false (or_introl Hp)).
  rewrite Nat.add_0_l in Hrun. rewrite E in Hparse.
  split.
  - rewrite (c_strip_no_space _ (digits_no_space _)).
    destruct (Pos.to_uint p); try congruence; cbn [digits] in *;
      rewrite Hrun, L, Hparse; reflexivity.
  - rewrite (c_strip_no_space (String "-" (digits (Pos.to_uint p))))
      by (cbn [no_space]; now rewrite digits_no_space).
    rewrite Hrun, L, Hparse. reflexivity.
Qed.

Lemma numeral_digits (p : positive) :
  DecimalString.NilZero.string_of_uint (Pos.to_uint p) = digits (Pos.to_uint p).
Proof.
  pose proof (to_uint_nonnil p) as Hp.
  destruct (Pos.to_uint p); congruence || reflexivity.
Qed.

(** [int(str(n)) == n], for the [n] that [str] writes. *)
Lemma py_int_str (n : Z) (s : string) :
  Collect.str_of_int n = Ok s -> py_int s = Ok n.
Proof.
  unfold Collect.str_of_int.
  destruct n as [| p | p].
  - intros H. vm_compute in H. injection H as <-. vm_compute. reflexivity.
  - cbn [Z.to_int]. destruct (_ <? _)%nat eqn:L; [discriminate |].
    intros H. injection H as <-.
    cbn [DecimalString.NilZero.string_of_int]. rewrite numeral_digits.
    exact (proj1 (py_int_numeral p L)).
  - cbn [Z.to_int]. destruct (_ <? _)%nat eqn:L; [discriminate |].
    intros H. injection H as <-.
    cbn [DecimalString.NilZero.string_of_int]. rewrite numeral_digits.
    exact (proj2 (py_int_numeral p L)).
Qed.

End StringFacts.

(** ** More on [validate_inputs] and [InputValidator] *)

Module ValidationMore.

Import Validation.
Local Open Scope float_scope.

Section Tables.

Variable STATE_CLASSES : list string.
Variable NOISE_CLASSES : list string.

Local Abbreviation validate := (validate_inputs STATE_CLASSES NOISE_CLASSES).

(** X1.  The rules are tried in the order of the source, and the first one
    that fails is the one reported, whatever else is wrong: the qubit
    count, then the state family, then the noise family, then the
    simulation mode. *)
Theorem first_failure_reported nq st nt sm angle er z i t1 t2 :
  ((nq < 1)%Z ->
   validate nq st nt sm angle er z i t1 t2 = Raise (ValueError msg_qubits))
  /\ ((1 <= nq)%Z -> ~ In st STATE_CLASSES ->
      validate nq st nt sm angle er z i t1 t2 =
      Raise (ValueError (msg_state st STATE_CLASSES)))
  /\ ((1 <= nq)%Z -> In st STATE_CLASSES -> ~ In nt NOISE_CLASSES ->
      validate nq st nt sm angle er z i t1 t2 =
      Raise (ValueError (msg_noise nt NOISE_CLASSES)))
  /\ ((1 <= nq)%Z -> In st STATE_CLASSES -> In nt NOISE_CLASSES ->
      sm <> "qasm" -> sm <> "density" ->
      validate nq st nt sm angle er z i t1 t2 =
      Raise (ValueError (msg_sim_mode sm))).
Proof.
  assert (Hin : forall x l, In x l -> str_in x l = true)
    by (intros x l; apply PyFacts.str_in_In).
  assert (Hout : forall x l, ~ In x l -> str_in x l = false).
  { intros x l H. destruct (str_in x l) eqn:E; [| reflexivity].
    apply PyFacts.str_in_In in E. contradiction. }
  unfold validate_inputs, raise_when. repeat split.
  - intros Hq. apply Z.ltb_lt in Hq. now rewrite Hq.
  - intros Hq Hst. apply Z.ltb_ge in Hq. now rewrite Hq, (Hout _ _ Hst).
  - intros Hq Hst Hnt. apply Z.ltb_ge in Hq.
    now rewrite Hq, (Hin _ _ Hst), (Hout _ _ Hnt).
  - intros Hq Hst Hnt Hs1 Hs2. apply Z.ltb_ge in Hq.
    rewrite Hq, (Hin _ _ Hst), (Hin _ _ Hnt). cbn [Py.bind negb].
    assert (Hsm : str_in sm ["qasm"; "density"] = false).
    { apply Hout. cbn. intros [H | [H | []]]; congruence. }
    now rewrite Hsm.
Qed.

(** X2.  The angle is looked at for the CLUSTER state only.  There, with
    the qubit count, the families and the mode in order, an angle below 0,
    above [2 * pi] or not a number is rejected with the angle message; for
    any other state the angle makes no difference. *)
Theorem angle_rule nq st nt sm angle er z i t1 t2 :
  (st <> "CLUSTER" ->
   validate nq st nt sm angle er z i t1 t2 =
   validate nq st nt sm None er z i t1 t2)
  /\ (st = "CLUSTER" ->
      Spec.well_formed STATE_CLASSES NOISE_CLASSES nq st nt sm None = true ->
      forall a, angle = Some a ->
      (a <? 0) || (two_pi <? a) || is_nan a = true ->
      validate nq st nt sm angle er z i t1 t2 = Raise (ValueError msg_angle)).
Proof.
  split.
  - intros Hst. unfold validate_inputs.
    destruct angle as [a |]; [| reflexivity].
    destruct (String.eqb_spec st "CLUSTER"); [contradiction | reflexivity].
  - intros -> Hwf a -> Ha. unfold Spec.well_formed in Hwf.
    apply andb_prop in Hwf as [[[[Hq Hs]%andb_prop Hn]%andb_prop Hm]%andb_prop _].
    unfold validate_inputs, raise_when.
    replace (nq <? 1)%Z with false by (symmetry; apply Z.ltb_ge; lia).
    rewrite Hs, Hn, Hm. cbn [Py.bind negb].
    change (String.eqb "CLUSTER" "CLUSTER") with true. cbv iota.
    now rewrite ValidationFacts.angle_test, Ha.
Qed.

(** X3.  A NaN among the relaxation times is never what gets a
    configuration rejected: under THERMAL_RELAXATION, with everything else
    in order, a pair with a NaN [t1] is rejected only if [t2 <= 0], and a
    pair with a NaN [t2] only if [t1 <= 0]. *)
Theorem thermal_pair_nan nq st sm angle er z i t1 t2 :
  validate nq st "THERMAL_RELAXATION" sm angle er z i None None = Ok tt ->
  (is_nan t1 = true ->
   validate nq st "THERMAL_RELAXATION" sm angle er z i (Some t1) (Some t2) =
   if t2 <=? 0 then Raise (ValueError msg_t_order) else Ok tt)
  /\ (is_nan t2 = true ->
      validate nq st "THERMAL_RELAXATION" sm angle er z i (Some t1) (Some t2) =
      if t1 <=? 0 then Raise (ValueError msg_t_order) else Ok tt).
Proof.
  intros H.
  pose proof (ValidationFacts.validate_blocks STATE_CLASSES NOISE_CLASSES
                nq st "THERMAL_RELAXATION" sm angle er z i None None) as E0.
  rewrite H in E0.
  assert (Hgo : forall a b,
             validate nq st "THERMAL_RELAXATION" sm angle er z i (Some a) (Some b) =
             if (a <=? 0) || (b <=? 0) || gtb b a
             then Raise (ValueError msg_t_order) else Ok tt).
  { intros a b.
    rewrite (ValidationFacts.validate_blocks STATE_CLASSES NOISE_CLASSES
               nq st "THERMAL_RELAXATION" sm angle er z i (Some a) (Some b)).
    destruct (validate nq st "THERMAL_RELAXATION" sm angle er None None None None)
      as [[] | e]; [| discriminate E0].
    cbn [Py.bind] in *.
    destruct (check_phase_flip "THERMAL_RELAXATION" z i) as [[] | e];
      [| discriminate E0].
    reflexivity. }
  split; intros Hnan; rewrite Hgo; unfold gtb.
  - rewrite (FloatFacts.leb_nan_l t1 0 Hnan), (FloatFacts.ltb_nan_l t1 t2 Hnan).
    now rewrite orb_false_r.
  - rewrite (FloatFacts.leb_nan_l t2 0 Hnan), (FloatFacts.ltb_nan_r t1 t2 Hnan).
    now rewrite !orb_false_r.
Qed.

End Tables.

(** Witness for X1: nothing is right, and the qubit count is what is
    reported. *)
Lemma first_failure_reported_witness :
  validate_inputs Spec.state_classes Spec.noise_classes
    0 "CAT" "HISS" "exact" None (Some 7) (Some 2) None None (Some 1)
  = Raise (ValueError msg_qubits).
Proof.
  apply (first_failure_reported Spec.state_classes Spec.noise_classes
           0 "CAT" "HISS" "exact" None (Some 7) (Some 2) None None (Some 1)).
  lia.
Defined.

(** Witness for X2: a CLUSTER angle of 7 radians. *)
Lemma angle_rule_witness :
  validate_inputs Spec.state_classes Spec.noise_classes
    4 "CLUSTER" "DEPOLARIZING" "qasm" (Some 7) None None None None None
  = Raise (ValueError msg_angle).
Proof.
  exact (proj2 (angle_rule Spec.state_classes Spec.noise_classes
                  4 "CLUSTER" "DEPOLARIZING" "qasm" (Some 7) None None None None None)
           eq_refl eq_refl 7 eq_refl eq_refl).
Defined.

(** Witness for X3: [t1] a NaN, [t2] 80 microseconds. *)
Lemma thermal_pair_nan_witness :
  validate_inputs Spec.state_classes Spec.noise_classes
    3 "GHZ" "THERMAL_RELAXATION" "qasm" None None None None (Some nan) (Some 80e-6)
  = Ok tt.
Proof.
  exact (proj1 (thermal_pair_nan Spec.state_classes Spec.noise_classes
                  3 "GHZ" "qasm" None None None None nan 80e-6 eq_refl) eq_refl).
Defined.

(** X4.  With options given, a case-sensitive [validate_choice] is plain
    membership, and whatever it accepts the case-insensitive one accepts
    too. *)
Theorem validate_choice_case (user_input : string) (valid_options : option (list string)) :
  (forall opt opts,
      validate_choice user_input (Some (opt :: opts)) true = true <->
      In user_input (opt :: opts))
  /\ (validate_choice user_input valid_options true = true ->
      validate_choice user_input valid_options false = true).
Proof.
  split.
  - intros opt opts. unfold validate_choice. cbn [negb]. apply PyFacts.str_in_In.
  - destruct valid_options as [[| opt opts] |]; try reflexivity.
    unfold validate_choice. cbn [negb]. intros H%PyFacts.str_in_In.
    apply PyFacts.str_in_In, in_map. exact H.
Qed.

(** Witness for X4: accepted as typed, hence accepted whatever the case. *)
Lemma validate_choice_case_witness :
  validate_choice "Yes" (Some ["Yes"; "No"]) false = true.
Proof.
  exact (proj2 (validate_choice_case "Yes" (Some ["Yes"; "No"])) eq_refl).
Defined.

(** X5.  [validate_yes_no] ignores case and nothing else: it holds exactly
    when the lower-cased input is one of [y], [yes], [t], [true]; so it
    agrees with the case-insensitive [validate_choice] on these four and
    gives the same answer on an input and on its lower-casing. *)
Theorem validate_yes_no_case (user_input : string) :
  (validate_yes_no user_input = true <->
   lower user_input = "y" \/ lower user_input = "yes"
   \/ lower user_input = "t" \/ lower user_input = "true")
  /\ validate_yes_no user_input =
     validate_choice user_input (Some ["y"; "yes"; "t"; "true"]) false
  /\ validate_yes_no (lower user_input) = validate_yes_no user_input.
Proof.
  repeat split.
  - unfold validate_yes_no. intros H%PyFacts.str_in_In. cbn in H.
    intuition auto.
  - intros H. unfold validate_yes_no. apply PyFacts.str_in_In. cbn.
    intuition auto.
  - unfold validate_yes_no. now rewrite StringFacts.lower_idem.
Qed.

(** X6.  Reading back the numeral of an integer gives the integer: when
    [str(n)] returns [s], which it does for the [n] of at most 4300 digits,
    [validate_numeric(s, int)] is [n]. *)
Theorem validate_numeric_str (n : Z) (s : string) :
  Collect.str_of_int n = Ok s ->
  validate_numeric s py_int = Ok (Some n).
Proof.
  intros H. unfold validate_numeric.
  now rewrite (StringFacts.py_int_str n s H).
Qed.

Lemma validate_numeric_str_witness :
  Collect.str_of_int (-1024) = Ok "-1024"
  /\ validate_numeric "-1024" py_int = Ok (Some (-1024)%Z).
Proof.
  split; [vm_compute; reflexivity |].
  apply (validate_numeric_str (-1024) "-1024"). vm_compute. reflexivity.
Defined.

End ValidationMore.

(** ** More on [AmplitudeDampingNoise.apply] *)

Module AmplitudeDampingMore.

Import AmplitudeDamping.

(** X7.  Whatever the gate list, a call that returns leaves the earlier
    attachments in place and adds at most one; what it attaches goes to
    gates that are in the list and among [id], [u1], [u2], [u3], and to
    nothing else; and [qubits_for_error] plays no part.  A refusal of the
    channel constructor is passed on. *)
Theorem apply_attaches_eligible_only
    (QuantumError : Type) (amplitude_damping_error : float -> result QuantumError)
    (Log : Type)
    (log_noise_application : string -> list string -> gmap string info -> Log -> Log)
    (self : AmplitudeDampingNoise) (noise_model : NoiseModel QuantumError)
    (gate_list : list string) (qubits_for_error : option Z) (log : Log) :
  (forall noise_model' log',
      apply QuantumError amplitude_damping_error Log log_noise_application
        self noise_model gate_list qubits_for_error log = Ok (noise_model', log') ->
      exists added,
        noise_model' = noise_model ++ added
        /\ (length added <= 1)%nat
        /\ forall noise gates g,
             In (noise, gates) added -> In g gates ->
             In g gate_list /\ In g single_qubit_gates)
  /\ (forall e g,
        In g gate_list -> In g single_qubit_gates ->
        amplitude_damping_error (error_rate self) = Raise e ->
        apply QuantumError amplitude_damping_error Log log_noise_application
          self noise_model gate_list qubits_for_error log = Raise e)
  /\ (forall other,
        apply QuantumError amplitude_damping_error Log log_noise_application
          self noise_model gate_list other log =
        apply QuantumError amplitude_damping_error Log log_noise_application
          self noise_model gate_list qubits_for_error log).
Proof.
  repeat split.
  - intros nm' log' H. unfold apply in H.
    destruct (List.filter _ gate_list) as [| g0 gs] eqn:Ef.
    + injection H as <- _. exists []. rewrite app_nil_r.
      split; [reflexivity | split; [cbn; lia | intros noise gates g []]].
    + destruct (amplitude_damping_error (error_rate self)) as [noise | e];
        [| discriminate H].
      cbn [Py.bind] in H. injection H as <- _.
      exists [(noise, g0 :: gs)].
      split; [reflexivity | split; [cbn; lia |]].
      intros noise' gates g [Heq | []] Hg. injection Heq as <- <-.
      rewrite <- Ef in Hg. apply List.filter_In in Hg as [Hin Hk].
      split; [assumption | now apply PyFacts.str_in_In].
  - intros e g Hin Hg He. unfold apply.
    destruct (List.filter _ gate_list) as [| g0 gs] eqn:Ef.
    + assert (Hf : In g (List.filter (fun g => str_in g single_qubit_gates) gate_list))
        by (apply List.filter_In; split; [assumption | now apply PyFacts.str_in_In]).
      rewrite Ef in Hf. destruct Hf.
    + now rewrite He.
Qed.

(** Witness for X7: one attachment, to [u3] and [id], beside the one
    already there. *)
Lemma apply_attaches_eligible_only_witness :
  exists added,
    [(0.2%float, ["u1"]); (0.1%float, ["u3"; "id"])] = [(0.2%float, ["u1"])] ++ added
    /\ (length added <= 1)%nat
    /\ forall noise gates g,
         In (noise, gates) added -> In g gates ->
         In g ["cx"; "u3"; "id"] /\ In g single_qubit_gates.
Proof.
  exact (proj1 (apply_attaches_eligible_only float (fun rate => Ok rate)
                  (list Spec.log_record) Spec.emit_record
                  {| error_rate := 0.1 |} [(0.2%float, ["u1"])]
                  ["cx"; "u3"; "id"] None [])
           _ _ eq_refl).
Defined.

End AmplitudeDampingMore.

(** ** More on the prompts of [main.py] *)

Module PromptFacts.

Import Main Collect.
Local Open Scope io_scope.

(** The events a call of [get_input] uses up: lines it refuses, then the
    event it takes. *)
Lemma get_input_loop_trace key default vo disp kw typed shown choice c' :
  get_input_loop key default vo disp kw typed shown = Ok (choice, c') ->
  exists refused final out,
    typed = refused ++ final :: stdin c'
    /\ screen c' = shown ++ out
    /\ (forall e, In e refused ->
          exists line, e = Line line /\ accepted vo default line = false)
    /\ (final = Interrupt /\ choice = lower default
        \/ exists line,
             final = Line line /\ accepted vo default line = true
             /\ choice = answer default line).
Proof.
  revert shown. induction typed as [| [line |] typed IH]; intros shown H.
  - discriminate H.
  - cbn [get_input_loop] in H.
    change (no_options vo || str_in _ _) with (accepted vo default line) in H.
    destruct (accepted vo default line) eqn:E.
    + injection H as <- <-. exists [], (Line line). eexists. cbn [stdin screen app].
      split; [reflexivity | split; [reflexivity | split]].
      * intros e [].
      * right. exists line. auto.
    + apply IH in H as (refused & final & out & Hin & Hout & Href & Hfin).
      exists (Line line :: refused), final. eexists. rewrite Hout.
      split; [now rewrite Hin at 1 | split; [| split; [| exact Hfin]]].
      * rewrite <- !app_assoc. reflexivity.
      * intros e [<- | He]; [exists line; auto | now apply Href].
  - cbn [get_input_loop] in H. injection H as <- <-.
    exists [], Interrupt. eexists. cbn [stdin screen app].
    split; [reflexivity | split; [| split]].
    + rewrite <- app_assoc. reflexivity.
    + intros e [].
    + left. auto.
Qed.

Lemma get_input_loop_lower key default vo disp kw typed shown choice c' :
  get_input_loop key default vo disp kw typed shown = Ok (choice, c') ->
  lower choice = choice.
Proof.
  revert shown. induction typed as [| [line |] typed IH]; intros shown H.
  - discriminate H.
  - cbn [get_input_loop] in H.
    destruct (no_options vo || str_in _ _).
    + injection H as <- _. apply StringFacts.answer_lower.
    + now apply IH in H.
  - cbn [get_input_loop] in H. injection H as <- _. apply StringFacts.lower_idem.
Qed.

Lemma get_input_loop_valid key default opt opts disp kw typed shown choice c' :
  ~ In Interrupt typed ->
  get_input_loop key default (Some (opt :: opts)) disp kw typed shown = Ok (choice, c') ->
  In choice (map lower (opt :: opts)).
Proof.
  revert shown. induction typed as [| [line |] typed IH]; intros shown Hint H.
  - discriminate H.
  - cbn [get_input_loop no_options orb] in H.
    destruct (str_in _ (map lower (opt :: opts))) eqn:E.
    + injection H as <- _. now apply PyFacts.str_in_In.
    + apply IH in H; [assumption |]. intros Hin. apply Hint. now right.
  - exfalso. apply Hint. now left.
Qed.

(** X8.  With options given, what [get_input] returns is one of them in
    lower case, unless Ctrl+C was pressed, and then it is the default,
    valid or not; in either case it is a lower-case string. *)
Theorem get_input_returns_option key default opt opts disp kw c choice c' :
  get_input key default (Some (opt :: opts)) disp kw c = Ok (choice, c') ->
  (In choice (map lower (opt :: opts))
   \/ (choice = lower default /\ In Interrupt (stdin c)))
  /\ (~ In Interrupt (stdin c) -> In choice (map lower (opt :: opts)))
  /\ lower choice = choice.
Proof.
  unfold get_input. intros H. repeat split.
  - destruct (in_dec (fun a b : event =>
                        ltac:(decide equality; apply string_dec) : {a = b} + {a <> b})
                Interrupt (stdin c)) as [Hi | Hn].
    + destruct (MainFacts.get_input_offers key default opt opts disp kw c choice c' H)
        as [Hin | ->]; [now left | right; now split].
    + left. now apply get_input_loop_valid in H.
  - intros Hn. now apply get_input_loop_valid in H.
  - now apply get_input_loop_lower in H.
Qed.

(** X9.  When [get_input] returns, it has read from the front of the
    input only, up to and including the event it took: every event before
    that one is a line it refused, and the event taken is either Ctrl+C,
    with the default in lower case returned, or the first line that passes
    the test, returned as it is read.  What is shown is added to and
    nothing is removed from it. *)
Theorem get_input_footprint key default valid_options disp kw c choice c' :
  get_input key default valid_options disp kw c = Ok (choice, c') ->
  exists refused final out,
    stdin c = refused ++ final :: stdin c'
    /\ screen c' = screen c ++ out
    /\ (forall e, In e refused ->
          exists line, e = Line line /\ accepted valid_options default line = false)
    /\ (final = Interrupt /\ choice = lower default
        \/ exists line,
             final = Line line /\ accepted valid_options default line = true
             /\ choice = answer default line).
Proof. unfold get_input. apply get_input_loop_trace. Qed.

(** Witness for X8: a refused line, then [c] in capitals. *)
Lemma get_input_returns_option_witness :
  exists c',
    get_input "density_noise_prompt" "p" (Some ["p"; "switch"; "c"]) None ∅
      (Console [Line "x"; Line " C "] []) = Ok ("c", c')
    /\ In "c" (map lower ["p"; "switch"; "c"])
    /\ lower "c" = "c".
Proof.
  eexists. split; [reflexivity |].
  destruct (get_input_returns_option "density_noise_prompt" "p" "p" ["switch"; "c"]
              None ∅ (Console [Line "x"; Line " C "] []) "c" _ eq_refl)
    as (_ & Hvalid & Hlower).
  split; [| exact Hlower].
  apply Hvalid. cbn. intros [H | [H | []]]; discriminate H.
Defined.

(** Witness for X9: the same run; two events are used up, the first a
    refused line, and the third is left. *)
Lemma get_input_footprint_witness :
  exists c' refused final out,
    get_input "density_noise_prompt" "p" (Some ["p"; "switch"; "c"]) None ∅
      (Console [Line "x"; Line " C "; Line "later"] []) = Ok ("c", c')
    /\ stdin c' = [Line "later"]
    /\ [Line "x"; Line " C "; Line "later"] = refused ++ final :: [Line "later"]
    /\ screen c' = [] ++ out
    /\ (forall e, In e refused ->
          exists line,
            e = Line line /\ accepted (Some ["p"; "switch"; "c"]) "p" line = false).
Proof.
  eexists.
  destruct (get_input_footprint "density_noise_prompt" "p"
              (Some ["p"; "switch"; "c"]) None ∅
              (Console [Line "x"; Line " C "; Line "later"] []) "c" _ eq_refl)
    as (refused & final & out & Hused & Hout & Href & _).
  exists refused, final, out.
  split; [reflexivity | split; [reflexivity | split; [exact Hused | split; [exact Hout | exact Href]]]].
Defined.

Section Restart.

Variable collect_parameters : io (gmap string value).

Local Abbreviation numeric := (get_numeric_input collect_parameters).
Local Abbreviation to_plot := (switch_to_plot collect_parameters).

Lemma digits_lower (d : Decimal.uint) :
  lower (DecimalString.NilEmpty.string_of_uint d) = DecimalString.NilEmpty.string_of_uint d.
Proof. induction d; cbn [DecimalString.NilEmpty.string_of_uint lower]; [reflexivity | ..];
  rewrite IHd; reflexivity. Qed.

Lemma str_of_int_lower (n : Z) (s : string) :
  str_of_int n = Ok s -> lower s = s.
Proof.
  unfold str_of_int. destruct (_ <? _)%nat; [discriminate |].
  intros H. injection H as <-.
  destruct n as [| p | p]; [reflexivity | |];
    cbn [Z.to_int DecimalString.NilZero.string_of_int];
    unfold DecimalString.NilZero.string_of_uint;
    destruct (Pos.to_uint p) eqn:E; try reflexivity;
    rewrite <- E;
    try (cbn [lower]; change (lower_ascii "-") with "-"%char);
    now rewrite digits_lower.
Qed.

(** X10.  Asked with the numeral of an integer as default (what [str]
    returns for it, which it does for the integers of at most 4300
    digits), [get_numeric_input] gives that integer back when the user
    just presses Enter (or types blanks only), and also on Ctrl+C. *)
Theorem get_numeric_input_default key (n : Z) (default : string) typed shown :
  str_of_int n = Ok default ->
  (forall line, strip line = "" ->
     exists shown',
       numeric key default int_type (Console (Line line :: typed) shown)
       = Ok (VInt n, Console typed shown'))
  /\ (exists shown',
        numeric key default int_type (Console (Interrupt :: typed) shown)
        = Ok (VInt n, Console typed shown')).
Proof.
  intros Hstr.
  pose proof (str_of_int_lower n default Hstr) as Hlower.
  pose proof (StringFacts.py_int_str n default Hstr) as Hint.
  split.
  - intros line Hblank. eexists.
    unfold get_numeric_input, io_bind, get_input. cbn [stdin screen get_input_loop no_options orb].
    unfold answer. rewrite Hblank. cbn [lower str_or].
    rewrite Hlower. cbn [convert int_type].
    rewrite Hint. reflexivity.
  - eexists.
    unfold get_numeric_input, io_bind, get_input. cbn [stdin screen get_input_loop].
    rewrite Hlower. cbn [convert int_type].
    rewrite Hint. reflexivity.
Qed.

(** X11.  When the answer does not convert, [get_numeric_input] reports it
    and does not ask again: it runs [collect_parameters], and the
    dictionary that comes back is what it returns in place of a number. *)
Theorem get_numeric_input_unparsable key default expected_type line typed shown msg :
  convert expected_type (answer default line) = Raise (ValueError msg) ->
  numeric key default expected_type (Console (Line line :: typed) shown) =
  match collect_parameters
          (Console typed
             (shown ++ [Prompted key (format_kwargs default None None ∅)]
                    ++ [Printed "invalid_input"
                          (<[ "input" := VStr (answer default line) ]>
                             {[ "options" := strs [type_name expected_type] ]})]))
  with
  | Ok (d, c') => Ok (VDict d, c')
  | Raise e => Raise e
  end.
Proof.
  intros Hconv.
  unfold get_numeric_input, io_bind, get_input.
  cbn [stdin screen get_input_loop no_options orb].
  rewrite Hconv. unfold print_message, ret. cbn [stdin screen].
  rewrite <- app_assoc.
  now destruct (collect_parameters _) as [[d c'] | e].
Qed.

End Restart.

(** Witness for X10 (the first part: a line of blanks) and for X11. *)
Lemma get_numeric_input_default_witness :
  str_of_int 1024 = Ok "1024"
  /\ strip "   " = ""
  /\ exists shown',
       get_numeric_input Spec.restarted "shots_prompt" "1024" int_type
         (Console [Line "   "] []) = Ok (VInt 1024, Console [] shown').
Proof.
  assert (Hstr : str_of_int 1024 = Ok "1024") by (vm_compute; reflexivity).
  split; [exact Hstr | split; [reflexivity |]].
  exact (proj1 (get_numeric_input_default Spec.restarted "shots_prompt" 1024 "1024"
                  [] [] Hstr)
           "   " eq_refl).
Defined.

Lemma get_numeric_input_unparsable_witness :
  exists c',
    get_numeric_input Spec.restarted "min_occurrences_prompt" "0" int_type
      (Console [Line "three"] []) = Ok (VDict ∅, c').
Proof.
  eexists.
  rewrite (get_numeric_input_unparsable Spec.restarted "min_occurrences_prompt" "0"
             int_type "three" [] [] _ eq_refl).
  reflexivity.
Defined.

End PromptFacts.

(** ** More on the plot settings, the noise switch and the collection of
    the visualization settings *)

Module SettingsFacts.

Import Main Collect.
Local Open Scope io_scope.

(** A bind that returns: its first part returned, and the rest ran from
    there. *)
Lemma io_bind_ok {A B} (m : io A) (k : A -> io B) c r :
  io_bind m k c = Ok r -> exists a c1, m c = Ok (a, c1) /\ k a c1 = Ok r.
Proof.
  unfold io_bind. destruct (m c) as [[a c1] | e]; [eauto | discriminate].
Qed.

Lemma same_outside_refl keys (a : gmap string value) : same_outside keys a a.
Proof. intros k _. reflexivity. Qed.

Lemma same_outside_trans keys (a b d : gmap string value) :
  same_outside keys a b -> same_outside keys b d -> same_outside keys a d.
Proof. intros Hab Hbd k Hk. now rewrite (Hbd k Hk), (Hab k Hk). Qed.

Lemma same_outside_insert keys key v (a b : gmap string value) :
  In key keys -> same_outside keys a b -> same_outside keys a (<[ key := v ]> b).
Proof.
  intros Hin Hab k Hk. rewrite lookup_insert_ne; [now apply Hab |].
  intros ->. contradiction.
Qed.

Lemma same_outside_weaken keys keys' (a b : gmap string value) :
  (forall k, In k keys -> In k keys') ->
  same_outside keys a b -> same_outside keys' a b.
Proof. intros Hsub Hab k Hk. apply Hab. intros Hin. apply Hk, Hsub, Hin. Qed.

Section Restart.

Variable collect_parameters : io (gmap string value).

Local Abbreviation to_plot := (switch_to_plot collect_parameters).
Local Abbreviation settings := (collect_visualization_settings collect_parameters).

(** X12.  When [switch_to_plot] returns, the visualization is [plot] and
    nothing is touched beside the four plot entries; outside the sampled
    mode it leaves [show_real] and [show_imag] as booleans that are not
    both true.  Without a [sim_mode] entry it fails with [KeyError]. *)
Theorem switch_to_plot_result (args : gmap string value) (c : console) :
  (forall args' c',
      to_plot args c = Ok (args', c') ->
      args' !! "visualization_type" = Some (VStr "plot")
      /\ same_outside
           ["visualization_type"; "min_occurrences"; "show_real"; "show_imag"]
           args args'
      /\ (args !! "sim_mode" <> Some (VStr "qasm") ->
          exists r i,
            args' !! "show_real" = Some (VBool r)
            /\ args' !! "show_imag" = Some (VBool i)
            /\ r && i = false))
  /\ (args !! "sim_mode" = None -> to_plot args c = Raise (KeyError "sim_mode")).
Proof.
  split.
  - intros args' c' H. unfold switch_to_plot in H.
    apply io_bind_ok in H as (sim_mode & c1 & Hsim & H).
    unfold lift, getitem in Hsim.
    rewrite lookup_insert_ne in Hsim by discriminate.
    destruct (args !! "sim_mode") as [sm |] eqn:Esm; [| discriminate Hsim].
    injection Hsim as <- <-.
    destruct (value_eq_str sm "qasm") eqn:Eq.
    + apply io_bind_ok in H as (n & c2 & _ & H). injection H as <- _.
      split; [| split].
      * rewrite lookup_insert_ne by discriminate. apply lookup_insert_eq.
      * repeat (apply same_outside_insert; [cbn; tauto |]).
        apply same_outside_refl.
      * intros Hne. exfalso. apply Hne.
        destruct sm as [| | | | s | |]; try discriminate Eq.
        cbn in Eq. apply String.eqb_eq in Eq. now subst.
    + apply io_bind_ok in H as (real_imag & c2 & _ & H). injection H as <- _.
      split; [| split].
      * rewrite !lookup_insert_ne by discriminate. apply lookup_insert_eq.
      * repeat (apply same_outside_insert; [cbn; tauto |]).
        apply same_outside_refl.
      * intros _. exists (String.eqb real_imag "r"), (String.eqb real_imag "i").
        split; [| split].
        -- rewrite lookup_insert_ne by discriminate. apply lookup_insert_eq.
        -- apply lookup_insert_eq.
        -- destruct (String.eqb_spec real_imag "r") as [-> |]; reflexivity.
  - intros Hnone. unfold switch_to_plot, io_bind, lift, getitem.
    rewrite lookup_insert_ne by discriminate. now rewrite Hnone.
Qed.

Lemma accepted_noise_token (line : string) :
  accepted (Some noise_switch_options) "depolarizing" line
  = str_in (answer "depolarizing" line) noise_switch_options.
Proof. reflexivity. Qed.

(** X13.  A switch that returns has installed the family of the token it
    took and changed nothing else.  The token is that of the first typed
    line that reads as one of the six tokens, a letter or a full name in
    any case; the lines before it were refused; on Ctrl+C the family is
    DEPOLARIZING.  The six tokens stand for DEPOLARIZING, PHASE_FLIP and
    THERMAL_RELAXATION. *)
Theorem switch_noise_family (args : gmap string value) (c : console) args' c' :
  switch_noise args c = Ok (args', c') ->
  (exists refused final,
      stdin c = refused ++ final :: stdin c'
      /\ (forall e, In e refused ->
            exists line,
              e = Line line
              /\ ~ In (answer "depolarizing" line) noise_switch_options)
      /\ (final = Interrupt
          /\ args' = <[ "noise_type" := VStr "DEPOLARIZING" ]> args
          \/ exists line,
               final = Line line
               /\ In (answer "depolarizing" line) noise_switch_options
               /\ args' =
                  <[ "noise_type" :=
                       VStr (canonical_noise (answer "depolarizing" line)) ]> args))
  /\ map canonical_noise noise_switch_options =
     ["DEPOLARIZING"; "PHASE_FLIP"; "THERMAL_RELAXATION";
      "DEPOLARIZING"; "PHASE_FLIP"; "THERMAL_RELAXATION"].
Proof.
  intros H. split; [| reflexivity].
  unfold switch_noise in H.
  apply io_bind_ok in H as ([] & c1 & Hprint & H).
  apply io_bind_ok in H as (choice & c2 & Hget & H).
  apply io_bind_ok in H as ([] & c3 & Hprint' & H). injection H as <- <-.
  unfold print_message in Hprint, Hprint'.
  injection Hprint as <-. injection Hprint' as <-. cbn [stdin screen] in *.
  unfold get_input in Hget. cbn [stdin screen] in Hget.
  apply PromptFacts.get_input_loop_trace in Hget
    as (refused & final & out & Hin & _ & Href & Hfin).
  exists refused, final. split; [exact Hin | split].
  - intros e He. destruct (Href e He) as (line & -> & Hno).
    exists line. split; [reflexivity |].
    intros Hyes. apply (PyFacts.str_in_In _ noise_switch_options) in Hyes.
    rewrite accepted_noise_token in Hno. congruence.
  - destruct Hfin as [[-> ->] | (line & -> & Hyes & ->)].
    + left. split; reflexivity.
    + right. exists line. split; [reflexivity | split; [| reflexivity]].
      rewrite accepted_noise_token in Hyes. now apply PyFacts.str_in_In.
Qed.

(** X14.  [prompt_yes_no] takes [y] and [n] and nothing else: any other
    answer, [yes] and [true] included, is refused and asked for again; on
    Ctrl+C the answer is whether the default is [y]. *)
Theorem prompt_yes_no_answers key default line typed shown :
  (answer default line = "y" ->
   prompt_yes_no key default (Console (Line line :: typed) shown) =
   Ok (true,
       Console typed
         (shown ++ [Prompted key (format_kwargs default (Some ["y"; "n"]) None ∅)])))
  /\ (answer default line = "n" ->
      prompt_yes_no key default (Console (Line line :: typed) shown) =
      Ok (false,
          Console typed
            (shown ++ [Prompted key (format_kwargs default (Some ["y"; "n"]) None ∅)])))
  /\ (answer default line <> "y" -> answer default line <> "n" ->
      prompt_yes_no key default (Console (Line line :: typed) shown) =
      prompt_yes_no key default
        (Console typed
           (shown ++ [Prompted key (format_kwargs default (Some ["y"; "n"]) None ∅)]
                  ++ [Printed "invalid_input"
                        (<[ "input" := VStr (answer default line) ]>
                           {[ "options" := strs ["y"; "n"] ]})])))
  /\ prompt_yes_no key default (Console (Interrupt :: typed) shown) =
     Ok (String.eqb (lower default) "y",
         Console typed
           (shown ++ [Prompted key (format_kwargs default (Some ["y"; "n"]) None ∅)]
                  ++ [Printed "operation_cancelled" ∅])).
Proof.
  unfold prompt_yes_no, io_bind. repeat split.
  - intros Hy. rewrite MainFacts.get_input_accepts by (now rewrite Hy).
    now rewrite Hy.
  - intros Hn. rewrite MainFacts.get_input_accepts by (now rewrite Hn).
    now rewrite Hn.
  - intros Hy Hn. rewrite MainFacts.get_input_refuses; [reflexivity |].
    change (map lower ["y"; "n"]) with ["y"; "n"]. unfold str_in. cbn [existsb].
    destruct (String.eqb_spec (answer default line) "y"); [contradiction |].
    destruct (String.eqb_spec (answer default line) "n"); [contradiction |].
    reflexivity.
  - unfold get_input. cbn [stdin screen get_input_loop]. unfold ret.
    now rewrite <- app_assoc.
Qed.

(** What is stored for a typed path: nothing for a blank line, else the
    line without the blanks around it, in lower case. *)
Lemma path_or_none_answer (line : string) :
  path_or_none (answer "" line) =
  match lower (strip line) with
  | EmptyString => VNone
  | String ch t => VStr (String ch t)
  end.
Proof.
  unfold answer, str_or, path_or_none.
  destruct (lower (strip line)) as [| ch t] eqn:E; [reflexivity |].
  rewrite <- E, StringFacts.strip_lower, StringFacts.strip_idem. now rewrite E.
Qed.

(** X15.  When [collect_visualization_settings] returns, the visualization
    is one of [plot], [hypergraph] and [none], and nothing beside it, the
    save path and the occurrence threshold has changed; when it is [none],
    only the visualization entry was written. *)
Theorem visualization_settings_result (args : gmap string value) (c : console) args' c' :
  settings args c = Ok (args', c') ->
  (exists v, In v ["plot"; "hypergraph"; "none"]
             /\ args' !! "visualization_type" = Some (VStr v))
  /\ same_outside ["visualization_type"; "save_plot"; "min_occurrences"] args args'
  /\ (args' !! "visualization_type" = Some (VStr "none") ->
      args' = <[ "visualization_type" := VStr "none" ]> args).
Proof.
  intros H. unfold collect_visualization_settings in H.
  apply io_bind_ok in H as (viz_choice & c1 & _ & H).
  assert (Hv : In (visualization_of viz_choice) ["plot"; "hypergraph"; "none"]).
  { unfold visualization_of.
    destruct (str_in viz_choice ["p"; "plot"]); [cbn; tauto |].
    destruct (str_in viz_choice ["h"; "hypergraph"]); cbn; tauto. }
  destruct (String.eqb_spec (visualization_of viz_choice) "none") as [En | Hn];
    cbn [negb] in H.
  - injection H as <- _. rewrite En. split; [| split].
    + exists "none". split; [cbn; tauto | apply lookup_insert_eq].
    + apply same_outside_insert; [cbn; tauto | apply same_outside_refl].
    + reflexivity.
  - apply io_bind_ok in H as (save_plot & c2 & _ & H).
    assert (Hres : args' !! "visualization_type" = Some (VStr (visualization_of viz_choice))
                   /\ same_outside ["visualization_type"; "save_plot"; "min_occurrences"]
                        args args').
    { destruct (String.eqb (visualization_of viz_choice) "plot").
      - apply io_bind_ok in H as (sim_mode & c3 & _ & H).
        destruct (value_eq_str sim_mode "qasm").
        + apply io_bind_ok in H as (n & c4 & _ & H). injection H as <- _. split.
          * rewrite !lookup_insert_ne by discriminate. apply lookup_insert_eq.
          * repeat (apply same_outside_insert; [cbn; tauto |]).
            apply same_outside_refl.
        + injection H as <- _. split.
          * rewrite lookup_insert_ne by discriminate. apply lookup_insert_eq.
          * repeat (apply same_outside_insert; [cbn; tauto |]).
            apply same_outside_refl.
      - injection H as <- _. split.
        + rewrite lookup_insert_ne by discriminate. apply lookup_insert_eq.
        + repeat (apply same_outside_insert; [cbn; tauto |]).
          apply same_outside_refl. }
    destruct Hres as [Hviz Hsame]. split; [| split].
    + eauto.
    + exact Hsame.
    + intros Hnone. rewrite Hviz in Hnone. injection Hnone as Hnone. contradiction.
Qed.

(** X16.  The path typed at the save prompt is stored without the blanks
    around it and in lower case, and a blank line stores [None]: for a
    hypergraph, the two answers give exactly the two entries. *)
Theorem save_plot_lowercased (args : gmap string value) line1 line2 typed shown :
  answer "n" line1 = "h" ->
  exists shown',
    settings args (Console (Line line1 :: Line line2 :: typed) shown) =
    Ok (<[ "save_plot" := match lower (strip line2) with
                          | EmptyString => VNone
                          | String ch t => VStr (String ch t)
                          end ]>
          (<[ "visualization_type" := VStr "hypergraph" ]> args),
        Console typed shown').
Proof.
  intros Hh. eexists. unfold collect_visualization_settings.
  unfold io_bind at 1.
  rewrite MainFacts.get_input_accepts by (now rewrite Hh).
  rewrite Hh. change (visualization_of "h") with "hypergraph".
  change (negb (String.eqb "hypergraph" "none")) with true. cbv iota.
  unfold io_bind at 1. unfold get_input. cbn [stdin screen get_input_loop no_options orb].
  change (String.eqb "hypergraph" "plot") with false. cbv iota.
  unfold ret. now rewrite path_or_none_answer.
Qed.

End Restart.

(** Witnesses for X12 to X16. *)
Lemma switch_to_plot_result_witness :
  exists c',
    returned_item "visualization_type"
      (switch_to_plot Spec.restarted
         (Spec.params 1 "GHZ" "DEPOLARIZING" true "density" "none")
         (Console [Line "i"] []))
    = Ok (Some (VStr "plot"))
    /\ switch_to_plot Spec.restarted ∅ c' = Raise (KeyError "sim_mode").
Proof.
  exists (Console [] []). split; [vm_compute; reflexivity |].
  exact (proj2 (switch_to_plot_result Spec.restarted ∅ (Console [] [])) eq_refl).
Defined.

Lemma switch_noise_family_witness :
  exists refused final,
    [Line "x"; Line "Thermal_Relaxation"; Line "later"] = refused ++ final :: [Line "later"]
    /\ (forall e, In e refused ->
          exists line,
            e = Line line /\ ~ In (answer "depolarizing" line) noise_switch_options)
    /\ (final = Interrupt
        /\ <[ "noise_type" := VStr "THERMAL_RELAXATION" ]> (∅ : gmap string value) =
           <[ "noise_type" := VStr "DEPOLARIZING" ]> ∅
        \/ exists line,
             final = Line line
             /\ In (answer "depolarizing" line) noise_switch_options
             /\ <[ "noise_type" := VStr "THERMAL_RELAXATION" ]> (∅ : gmap string value) =
                <[ "noise_type" :=
                     VStr (canonical_noise (answer "depolarizing" line)) ]> ∅).
Proof.
  exact (proj1 (switch_noise_family ∅
                  (Console [Line "x"; Line "Thermal_Relaxation"; Line "later"] [])
                  (<[ "noise_type" := VStr "THERMAL_RELAXATION" ]> ∅)
                  (Console [Line "later"]
                     ([Printed "suggested_multi_qubit_noise_types" ∅]
                      ++ [Prompted "noise_type_prompt"
                            (format_kwargs "depolarizing" (Some noise_switch_options) None ∅)]
                      ++ [Printed "invalid_input"
                            (<[ "input" := VStr "x" ]>
                               {[ "options" := options_value (Some noise_switch_options) ]})]
                      ++ [Prompted "noise_type_prompt"
                            (format_kwargs "depolarizing" (Some noise_switch_options) None ∅)]
                      ++ [Printed "switched_noise_type"
                            {[ "noise_type" := VStr "THERMAL_RELAXATION" ]}]))
                  eq_refl)).
Defined.

Lemma prompt_yes_no_answers_witness :
  prompt_yes_no "proceed_prompt" "n" (Console [Line "yes"; Line "Y"] []) =
  prompt_yes_no "proceed_prompt" "n"
    (Console [Line "Y"]
       ([] ++ [Prompted "proceed_prompt" (format_kwargs "n" (Some ["y"; "n"]) None ∅)]
           ++ [Printed "invalid_input"
                 (<[ "input" := VStr "yes" ]> {[ "options" := strs ["y"; "n"] ]})])).
Proof.
  destruct (prompt_yes_no_answers "proceed_prompt" "n" "yes" [Line "Y"] [])
    as (_ & _ & Hrefused & _).
  apply Hrefused; discriminate.
Defined.

Lemma visualization_settings_result_witness :
  exists v, In v ["plot"; "hypergraph"; "none"]
            /\ (<[ "visualization_type" := VStr "none" ]> (∅ : gmap string value))
               !! "visualization_type" = Some (VStr v).
Proof.
  exact (proj1 (visualization_settings_result Spec.restarted ∅
                  (Console [Line ""] [])
                  (<[ "visualization_type" := VStr "none" ]> ∅) _ eq_refl)).
Defined.

Lemma save_plot_lowercased_witness :
  exists shown',
    collect_visualization_settings Spec.restarted ∅
      (Console [Line "H"; Line "  Plots/Fig.PNG "] []) =
    Ok (<[ "save_plot" := VStr "plots/fig.png" ]>
          (<[ "visualization_type" := VStr "hypergraph" ]> ∅),
        Console [] shown').
Proof.
  exact (save_plot_lowercased Spec.restarted ∅ "H" "  Plots/Fig.PNG " [] [] eq_refl).
Defined.

End SettingsFacts.

(** ** More on the compatibility resolver *)

Module ResolverFacts.

Import Main Collect.
Local Open Scope io_scope.

Section Resolver.

Variable SINGLE_QUBIT_NOISE_TYPES : list string.
Variable collect_parameters : io (gmap string value).

Local Abbreviation conflict1 := (single_qubit_conflict SINGLE_QUBIT_NOISE_TYPES).
Local Abbreviation conflict3 := (density_noise_conflict SINGLE_QUBIT_NOISE_TYPES).
Local Abbreviation conflict4 := hypergraph_density_conflict.
Local Abbreviation check1 :=
  (check_single_qubit_noise SINGLE_QUBIT_NOISE_TYPES collect_parameters).
Local Abbreviation check2 :=
  (check_hypergraph_single_qubit SINGLE_QUBIT_NOISE_TYPES collect_parameters).
Local Abbreviation plot_step := (set_plot_settings collect_parameters).
Local Abbreviation check3 :=
  (check_density_noise SINGLE_QUBIT_NOISE_TYPES collect_parameters).
Local Abbreviation check4 := (check_hypergraph_density collect_parameters).
Local Abbreviation to_plot := (switch_to_plot collect_parameters).
Local Abbreviation resolver :=
  (validate_and_prompt SINGLE_QUBIT_NOISE_TYPES collect_parameters).

(** What a block leaves behind: a dictionary that differs from the one it
    was given in the resolver's entries only, or, when it returns, the
    dictionary of a restarted collection. *)
Local Abbreviation post args f c' :=
  (match f with
   | Continue a => same_outside resolver_keys args a
   | Return a => exists c0, collect_parameters c0 = Ok (a, c')
   end).

Lemma cancel_post (args : gmap string value) c f c' :
  cancel collect_parameters c = Ok (f, c') -> post args f c'.
Proof.
  rewrite MainFacts.cancel_run. intros H.
  destruct (collect_parameters _) as [[fresh c1] | e] eqn:E; [| discriminate H].
  injection H as <- <-. eauto.
Qed.

Lemma switch_post (args : gmap string value) c f c' :
  (a <~ switch_noise args ;; ret (Continue a)) c = Ok (f, c') -> post args f c'.
Proof.
  intros H. apply SettingsFacts.io_bind_ok in H as (a & c1 & Hsw & H).
  injection H as <- _. unfold switch_noise in Hsw.
  apply SettingsFacts.io_bind_ok in Hsw as ([] & c2 & _ & Hsw).
  apply SettingsFacts.io_bind_ok in Hsw as (choice & c3 & _ & Hsw).
  apply SettingsFacts.io_bind_ok in Hsw as ([] & c4 & _ & Hsw).
  injection Hsw as <- _.
  apply SettingsFacts.same_outside_insert; [cbn; tauto |].
  apply SettingsFacts.same_outside_refl.
Qed.

Lemma to_plot_post (args : gmap string value) c f c' :
  (a <~ to_plot args ;; ret (Continue a)) c = Ok (f, c') -> post args f c'.
Proof.
  intros H. apply SettingsFacts.io_bind_ok in H as (a & c1 & Hp & H).
  injection H as <- _. unfold switch_to_plot in Hp.
  apply SettingsFacts.io_bind_ok in Hp as (sim_mode & c2 & _ & Hp).
  destruct (value_eq_str sim_mode "qasm").
  - apply SettingsFacts.io_bind_ok in Hp as (n & c3 & _ & Hp). injection Hp as <- _.
    repeat (apply SettingsFacts.same_outside_insert; [cbn; tauto |]).
    apply SettingsFacts.same_outside_refl.
  - apply SettingsFacts.io_bind_ok in Hp as (ri & c3 & _ & Hp). injection Hp as <- _.
    repeat (apply SettingsFacts.same_outside_insert; [cbn; tauto |]).
    apply SettingsFacts.same_outside_refl.
Qed.

Lemma check1_post args c f c' : check1 args c = Ok (f, c') -> post args f c'.
Proof.
  unfold check_single_qubit_noise. intros H.
  apply SettingsFacts.io_bind_ok in H as ([|] & c1 & _ & H).
  - apply SettingsFacts.io_bind_ok in H as (nt & c2 & _ & H).
    apply SettingsFacts.io_bind_ok in H as (nq & c3 & _ & H).
    apply SettingsFacts.io_bind_ok in H as ([] & c4 & _ & H).
    apply SettingsFacts.io_bind_ok in H as (choice & c5 & _ & H).
    unfold resolve_single_qubit_noise in H.
    destruct (String.eqb choice "switch"); [now apply switch_post in H |].
    destruct (String.eqb choice "c"); [now apply (cancel_post args) in H |].
    injection H as <- _. apply SettingsFacts.same_outside_refl.
  - injection H as <- _. apply SettingsFacts.same_outside_refl.
Qed.

Lemma check2_post args c f c' : check2 args c = Ok (f, c') -> post args f c'.
Proof.
  unfold check_hypergraph_single_qubit. intros H.
  apply SettingsFacts.io_bind_ok in H as ([|] & c1 & _ & H).
  - apply SettingsFacts.io_bind_ok in H as (nt & c2 & _ & H).
    apply SettingsFacts.io_bind_ok in H as (nq & c3 & _ & H).
    apply SettingsFacts.io_bind_ok in H as ([] & c4 & _ & H).
    apply SettingsFacts.io_bind_ok in H as (choice & c5 & _ & H).
    unfold resolve_hypergraph_single_qubit in H.
    destruct (String.eqb choice "switch"); [now apply switch_post in H |].
    destruct (String.eqb choice "v").
    + apply SettingsFacts.io_bind_ok in H as ([] & c6 & _ & H).
      now apply to_plot_post in H.
    + injection H as <- _. apply SettingsFacts.same_outside_refl.
  - injection H as <- _. apply SettingsFacts.same_outside_refl.
Qed.

Lemma plot_step_post args c f c' : plot_step args c = Ok (f, c') -> post args f c'.
Proof.
  unfold set_plot_settings. intros H.
  apply SettingsFacts.io_bind_ok in H as (viz & c1 & _ & H).
  destruct (value_eq_str viz "plot"); [now apply to_plot_post in H |].
  injection H as <- _. apply SettingsFacts.same_outside_refl.
Qed.

Lemma check3_post args c f c' : check3 args c = Ok (f, c') -> post args f c'.
Proof.
  unfold check_density_noise. intros H.
  apply SettingsFacts.io_bind_ok in H as ([|] & c1 & _ & H).
  - apply SettingsFacts.io_bind_ok in H as (nt & c2 & _ & H).
    apply SettingsFacts.io_bind_ok in H as ([] & c4 & _ & H).
    apply SettingsFacts.io_bind_ok in H as (choice & c5 & _ & H).
    unfold resolve_density_noise in H.
    destruct (String.eqb choice "switch"); [now apply switch_post in H |].
    destruct (String.eqb choice "p").
    + apply SettingsFacts.io_bind_ok in H as ([] & c6 & _ & H). injection H as <- _.
      apply SettingsFacts.same_outside_insert; [cbn; tauto |].
      apply SettingsFacts.same_outside_refl.
    + destruct (String.eqb choice "c"); [now apply (cancel_post args) in H |].
      injection H as <- _. apply SettingsFacts.same_outside_refl.
  - injection H as <- _. apply SettingsFacts.same_outside_refl.
Qed.

Lemma check4_post args c f c' : check4 args c = Ok (f, c') -> post args f c'.
Proof.
  unfold check_hypergraph_density. intros H.
  apply SettingsFacts.io_bind_ok in H as ([|] & c1 & _ & H).
  - apply SettingsFacts.io_bind_ok in H as (st & c2 & _ & H).
    apply SettingsFacts.io_bind_ok in H as ([] & c4 & _ & H).
    apply SettingsFacts.io_bind_ok in H as (choice & c5 & _ & H).
    unfold resolve_hypergraph_density in H.
    destruct (String.eqb choice "e").
    + apply SettingsFacts.io_bind_ok in H as ([] & c6 & _ & H). injection H as <- _.
      apply SettingsFacts.same_outside_insert; [cbn; tauto |].
      apply SettingsFacts.same_outside_refl.
    + destruct (String.eqb choice "v").
      * apply SettingsFacts.io_bind_ok in H as ([] & c6 & _ & H).
        now apply to_plot_post in H.
      * injection H as <- _. apply SettingsFacts.same_outside_refl.
  - injection H as <- _. apply SettingsFacts.same_outside_refl.
Qed.

Lemma and_then_post (m : io flow) (k : gmap string value -> io flow) args c f c' :
  (forall f1 c1, m c = Ok (f1, c1) -> post args f1 c1) ->
  (forall a c1 f2 c2, k a c1 = Ok (f2, c2) -> post a f2 c2) ->
  and_then m k c = Ok (f, c') -> post args f c'.
Proof.
  intros Hm Hk H. unfold and_then in H.
  apply SettingsFacts.io_bind_ok in H as (f1 & c1 & Hf1 & H).
  specialize (Hm f1 c1 Hf1). destruct f1 as [a | a].
  - specialize (Hk a c1 f c' H). destruct f as [b | b]; [| exact Hk].
    now apply SettingsFacts.same_outside_trans with a.
  - injection H as <- <-. exact Hm.
Qed.

(** X17.  What the resolver returns is either the dictionary it was given,
    changed at most in the entries [noise_type], [noise_enabled],
    [visualization_type], [min_occurrences], [show_real] and [show_imag],
    or, after a cancel, a dictionary returned by the restarted
    [collect_parameters].  It never touches the qubit count, the state
    family, the simulation mode, the shots or the numeric parameters. *)
Theorem resolver_frame (args : gmap string value) (c : console) args' c' :
  resolver args c = Ok (args', c') ->
  same_outside resolver_keys args args'
  \/ exists c0, collect_parameters c0 = Ok (args', c').
Proof.
  intros H. unfold validate_and_prompt in H.
  apply SettingsFacts.io_bind_ok in H as (f & c1 & Hf & H).
  assert (Hpost : post args f c1).
  { revert Hf. apply and_then_post; [| intros a c2 f2 c3; apply check4_post].
    intros f1 c2. apply and_then_post; [| intros a c3 f2 c4; apply check3_post].
    intros f3 c3. unfold before_density_check.
    apply and_then_post; [| intros a c4 f2 c5; apply plot_step_post].
    intros f4 c4. apply and_then_post; [| intros a c5 f2 c6; apply check2_post].
    intros f5 c5. apply check1_post. }
  destruct f as [a | a]; injection H as <- <-; [now left | now right].
Qed.

(** Outside the sampled mode, [switch_to_plot] takes one answer out of
    [r], [i], [a] and writes the three entries. *)
Lemma to_plot_flags (args : gmap string value) sm line typed shown :
  args !! "sim_mode" = Some sm -> value_eq_str sm "qasm" = false ->
  In (answer "a" line) ["r"; "i"; "a"] ->
  to_plot args (Console (Line line :: typed) shown) =
  Ok (<[ "show_imag" := VBool (String.eqb (answer "a" line) "i") ]>
        (<[ "show_real" := VBool (String.eqb (answer "a" line) "r") ]>
           (<[ "visualization_type" := VStr "plot" ]> args)),
      Console typed
        (shown ++ [Prompted "real_imag_prompt"
                     (format_kwargs "a" (Some ["r"; "i"; "a"]) None ∅)])).
Proof.
  intros Hsm Hq Hin. unfold switch_to_plot, io_bind, lift, getitem.
  rewrite lookup_insert_ne by discriminate. rewrite Hsm, Hq.
  rewrite MainFacts.get_input_accepts
    by (apply PyFacts.str_in_In; exact Hin).
  reflexivity.
Qed.

(** X18.  Choosing [v] in check 2 asks for the plot settings twice: once
    in the check itself and once more in the block that follows it, which
    sees the visualization [plot].  Both answers are read, and the second
    one decides [show_real] and [show_imag]. *)
Theorem plot_settings_asked_twice (args : gmap string value)
    nt nq sm answer_v first second typed shown :
  args !! "visualization_type" = Some (VStr "hypergraph") ->
  args !! "noise_type" = Some (VStr nt) -> In nt SINGLE_QUBIT_NOISE_TYPES ->
  args !! "num_qubits" = Some nq -> gt_one nq = Ok true ->
  args !! "sim_mode" = Some sm -> value_eq_str sm "qasm" = false ->
  answer "p" answer_v = "v" ->
  In (answer "a" first) ["r"; "i"; "a"] ->
  In (answer "a" second) ["r"; "i"; "a"] ->
  exists args' shown',
    and_then (check2 args) plot_step
      (Console (Line answer_v :: Line first :: Line second :: typed) shown)
    = Ok (Continue args', Console typed shown')
    /\ args' !! "visualization_type" = Some (VStr "plot")
    /\ args' !! "show_real" = Some (VBool (String.eqb (answer "a" second) "r"))
    /\ args' !! "show_imag" = Some (VBool (String.eqb (answer "a" second) "i")).
Proof.
  intros Hviz Hnt Hin Hnq Hgt Hsm Hq Hv H1 H2.
  assert (Hfirst : exists shown1,
             check2 args
               (Console (Line answer_v :: Line first :: Line second :: typed) shown)
             = Ok (Continue
                     (<[ "show_imag" := VBool (String.eqb (answer "a" first) "i") ]>
                        (<[ "show_real" := VBool (String.eqb (answer "a" first) "r") ]>
                           (<[ "visualization_type" := VStr "plot" ]> args))),
                   Console (Line second :: typed) shown1)).
  { eexists.
    rewrite (MainFacts.check2_run _ _ args nt nq _ Hviz Hnt Hin Hnq Hgt).
    unfold io_bind at 1. unfold print_message at 1. cbn [stdin screen].
    unfold io_bind at 1. rewrite MainFacts.get_input_accepts by (now rewrite Hv).
    rewrite Hv. unfold resolve_hypergraph_single_qubit.
    change (String.eqb "v" "switch") with false.
    change (String.eqb "v" "v") with true. cbv iota.
    unfold io_bind at 1. unfold print_message at 1. cbn [stdin screen].
    unfold io_bind at 1. rewrite (to_plot_flags args sm first _ _ Hsm Hq H1).
    unfold ret. reflexivity. }
  destruct Hfirst as [shown1 Hfirst].
  eexists _, _. split; [| split; [| split]].
  - rewrite (MainFacts.and_then_continue _ _ _ _ _ Hfirst).
    unfold set_plot_settings. unfold io_bind at 1. unfold lift, getitem.
    rewrite !lookup_insert_ne by discriminate. rewrite lookup_insert_eq.
    change (value_eq_str (VStr "plot") "plot") with true. cbv iota.
    unfold io_bind at 1.
    rewrite (to_plot_flags _ sm second _ _); [reflexivity | | exact Hq | exact H2].
    rewrite !lookup_insert_ne by discriminate. exact Hsm.
  - rewrite !lookup_insert_ne by discriminate. apply lookup_insert_eq.
  - rewrite lookup_insert_ne by discriminate. apply lookup_insert_eq.
  - apply lookup_insert_eq.
Qed.

(** X19.  Check 4 sees what check 3 did.  For a hypergraph of an exact
    run, answering [p] in check 3 switches the noise off, which is the
    very condition of check 4; answering [e] there switches it on again,
    and the resolver goes on with a configuration on which the condition
    of check 3 holds as it did at the start. *)
Theorem disable_then_enable (args : gmap string value)
    nt enabled st answer_p answer_e typed shown :
  args !! "visualization_type" = Some (VStr "hypergraph") ->
  args !! "sim_mode" = Some (VStr "density") ->
  args !! "noise_type" = Some (VStr nt) -> In nt SINGLE_QUBIT_NOISE_TYPES ->
  args !! "noise_enabled" = Some enabled -> truthy enabled = true ->
  args !! "state_type" = Some st ->
  answer "p" answer_p = "p" -> answer "p" answer_e = "e" ->
  conflict4 (<[ "noise_enabled" := VBool false ]> args) = Ok true
  /\ conflict3 (<[ "noise_enabled" := VBool true ]>
                  (<[ "noise_enabled" := VBool false ]> args)) = Ok true
  /\ exists shown',
       and_then (check3 args) check4
         (Console (Line answer_p :: Line answer_e :: typed) shown)
       = Ok (Continue (<[ "noise_enabled" := VBool true ]>
                         (<[ "noise_enabled" := VBool false ]> args)),
             Console typed shown').
Proof.
  intros Hviz Hsim Hnt Hin Hen Htrue Hst Hp He.
  assert (H4 : conflict4 (<[ "noise_enabled" := VBool false ]> args) = Ok true).
  { unfold hypergraph_density_conflict, getitem.
    rewrite !lookup_insert_ne by discriminate. rewrite Hviz. cbn [Py.bind].
    change (value_eq_str (VStr "hypergraph") "hypergraph") with true. cbv iota.
    rewrite Hsim. cbn [Py.bind].
    change (value_eq_str (VStr "density") "density") with true. cbv iota.
    now rewrite lookup_insert_eq. }
  split; [exact H4 | split].
  - apply MainFacts.conflict3_true with nt (VBool true);
      rewrite ?lookup_insert_eq, ?lookup_insert_ne by discriminate;
      auto.
  - assert (Hthree : exists shown1,
               check3 args (Console (Line answer_p :: Line answer_e :: typed) shown)
               = Ok (Continue (<[ "noise_enabled" := VBool false ]> args),
                     Console (Line answer_e :: typed) shown1)).
    { eexists.
      rewrite (MainFacts.check3_run _ _ args nt enabled _ Hsim Hnt Hin Hen Htrue).
      unfold io_bind at 1. unfold print_message at 1. cbn [stdin screen].
      unfold io_bind at 1. rewrite MainFacts.get_input_accepts by (now rewrite Hp).
      rewrite Hp. unfold resolve_density_noise.
      change (String.eqb "p" "switch") with false.
      change (String.eqb "p" "p") with true. cbv iota.
      unfold io_bind, print_message, ret. cbn [stdin screen]. reflexivity. }
    destruct Hthree as [shown1 Hthree]. eexists.
    rewrite (MainFacts.and_then_continue _ _ _ _ _ Hthree).
    unfold check_hypergraph_density. unfold io_bind at 1. unfold lift at 1.
    rewrite H4. unfold io_bind at 1. unfold lift, getitem.
    rewrite lookup_insert_ne by discriminate. rewrite Hst.
    unfold io_bind at 1. unfold print_message at 1. cbn [stdin screen].
    unfold io_bind at 1. rewrite MainFacts.get_input_accepts by (now rewrite He).
    rewrite He. unfold resolve_hypergraph_density.
    change (String.eqb "e" "e") with true. cbv iota.
    unfold io_bind, print_message, ret. cbn [stdin screen]. reflexivity.
Qed.


(** X21.  A switch in check 1 does not look at what it switches to: when
    the family of the typed token is itself a single-qubit one, the check
    installs it and goes on, with its own condition still true. *)
Theorem switch_can_keep_conflict (args : gmap string value)
    nt nq answer_switch token typed shown :
  args !! "noise_type" = Some (VStr nt) -> In nt SINGLE_QUBIT_NOISE_TYPES ->
  args !! "num_qubits" = Some nq -> gt_one nq = Ok true ->
  answer "p" answer_switch = "switch" ->
  In (answer "depolarizing" token) noise_switch_options ->
  In (canonical_noise (answer "depolarizing" token)) SINGLE_QUBIT_NOISE_TYPES ->
  conflict1 (<[ "noise_type" := VStr (canonical_noise (answer "depolarizing" token)) ]>
               args) = Ok true
  /\ exists shown',
       check1 args (Console (Line answer_switch :: Line token :: typed) shown)
       = Ok (Continue (<[ "noise_type" :=
                            VStr (canonical_noise (answer "depolarizing" token)) ]> args),
             Console typed shown').
Proof.
  intros Hnt Hin Hnq Hgt Hsw Htok Hsingle. split.
  - apply MainFacts.conflict1_true
      with (canonical_noise (answer "depolarizing" token)) nq;
      rewrite ?lookup_insert_eq, ?lookup_insert_ne by discriminate; auto.
  - eexists.
    rewrite (MainFacts.check1_run _ _ args nt nq _ Hnt Hin Hnq Hgt).
    unfold io_bind at 1. unfold print_message at 1. cbn [stdin screen].
    unfold io_bind at 1. rewrite MainFacts.get_input_accepts by (now rewrite Hsw).
    rewrite Hsw. unfold resolve_single_qubit_noise.
    change (String.eqb "switch" "switch") with true. cbv iota.
    unfold io_bind at 1.
    rewrite MainFacts.switch_noise_run by (apply PyFacts.str_in_In; exact Htok).
    unfold ret. reflexivity.
Qed.

End Resolver.

(** *** Closed instances *)

Local Abbreviation single := Spec.single_qubit_noise_types.

(** Witness for X17: an exact PHASE_FLIP run on one qubit; [p] at check 3
    switches the noise off and nothing else changes. *)
Lemma resolver_frame_witness :
  exists c',
    validate_and_prompt single Spec.restarted
      (Spec.params 1 "GHZ" "PHASE_FLIP" true "density" "none")
      (Console [Line "p"] [])
    = Ok (<[ "noise_enabled" := VBool false ]>
            (Spec.params 1 "GHZ" "PHASE_FLIP" true "density" "none"), c')
    /\ (same_outside resolver_keys
          (Spec.params 1 "GHZ" "PHASE_FLIP" true "density" "none")
          (<[ "noise_enabled" := VBool false ]>
             (Spec.params 1 "GHZ" "PHASE_FLIP" true "density" "none"))
        \/ exists c0,
             Spec.restarted c0 =
             Ok (<[ "noise_enabled" := VBool false ]>
                   (Spec.params 1 "GHZ" "PHASE_FLIP" true "density" "none"), c')).
Proof.
  assert (Hrun : exists c',
             validate_and_prompt single Spec.restarted
               (Spec.params 1 "GHZ" "PHASE_FLIP" true "density" "none")
               (Console [Line "p"] [])
             = Ok (<[ "noise_enabled" := VBool false ]>
                     (Spec.params 1 "GHZ" "PHASE_FLIP" true "density" "none"), c')).
  { eexists. unfold validate_and_prompt, before_density_check. unfold io_bind at 1.
    rewrite (MainFacts.and_then_continue _ _ _
               (<[ "noise_enabled" := VBool false ]>
                  (Spec.params 1 "GHZ" "PHASE_FLIP" true "density" "none"))
               (Console []
                  ([] ++ [Printed "density_noise_warning"
                            {[ "noise_type" := VStr "PHASE_FLIP" ]}]
                      ++ [Prompted "density_noise_prompt"
                            (format_kwargs "p" (Some density_noise_options) None ∅)]
                      ++ [Printed "noise_disabled" ∅]))).
    - rewrite MainFacts.check4_skip by (vm_compute; reflexivity). reflexivity.
    - rewrite (MainFacts.and_then_continue _ _ _
                 (Spec.params 1 "GHZ" "PHASE_FLIP" true "density" "none")
                 (Console [Line "p"] [])).
      + rewrite (MainFacts.check3_run single Spec.restarted _ "PHASE_FLIP" (VBool true));
          [| vm_compute; reflexivity | vm_compute; reflexivity | cbn; tauto
           | vm_compute; reflexivity | reflexivity].
        reflexivity.
      + rewrite (MainFacts.and_then_continue _ _ _
                   (Spec.params 1 "GHZ" "PHASE_FLIP" true "density" "none")
                   (Console [Line "p"] [])).
        * apply MainFacts.plot_step_skip with (VStr "none");
            [vm_compute; reflexivity | reflexivity].
        * rewrite (MainFacts.and_then_continue _ _ _
                     (Spec.params 1 "GHZ" "PHASE_FLIP" true "density" "none")
                     (Console [Line "p"] [])).
          -- apply MainFacts.check2_skip. vm_compute; reflexivity.
          -- apply MainFacts.check1_skip. vm_compute; reflexivity. }
  destruct Hrun as [c' Hrun]. exists c'. split; [exact Hrun |].
  exact (resolver_frame single Spec.restarted _ _ _ _ Hrun).
Defined.

(** Witness for X18: [v], then [r], then [i]: the imaginary part wins. *)
Lemma plot_settings_asked_twice_witness :
  exists args' shown',
    and_then
      (check_hypergraph_single_qubit single Spec.restarted
         (Spec.params 3 "GHZ" "AMPLITUDE_DAMPING" true "density" "hypergraph"))
      (set_plot_settings Spec.restarted)
      (Console [Line "v"; Line "r"; Line "i"] [])
    = Ok (Continue args', Console [] shown')
    /\ args' !! "visualization_type" = Some (VStr "plot")
    /\ args' !! "show_real" = Some (VBool false)
    /\ args' !! "show_imag" = Some (VBool true).
Proof.
  exact (plot_settings_asked_twice single Spec.restarted
           (Spec.params 3 "GHZ" "AMPLITUDE_DAMPING" true "density" "hypergraph")
           "AMPLITUDE_DAMPING" (VInt 3) (VStr "density") "v" "r" "i" [] []
           ltac:(vm_compute; reflexivity) ltac:(vm_compute; reflexivity)
           ltac:(cbn; tauto) ltac:(vm_compute; reflexivity) ltac:(reflexivity)
           ltac:(vm_compute; reflexivity) ltac:(reflexivity) ltac:(reflexivity)
           ltac:(cbn; tauto) ltac:(cbn; tauto)).
Defined.

(** Witness for X19: the hypergraph of an exact PHASE_FLIP run. *)
Lemma disable_then_enable_witness :
  hypergraph_density_conflict
    (<[ "noise_enabled" := VBool false ]>
       (Spec.params 1 "GHZ" "PHASE_FLIP" true "density" "hypergraph")) = Ok true
  /\ density_noise_conflict single
       (<[ "noise_enabled" := VBool true ]>
          (<[ "noise_enabled" := VBool false ]>
             (Spec.params 1 "GHZ" "PHASE_FLIP" true "density" "hypergraph"))) = Ok true.
Proof.
  destruct (disable_then_enable single Spec.restarted
              (Spec.params 1 "GHZ" "PHASE_FLIP" true "density" "hypergraph")
              "PHASE_FLIP" (VBool true) (VStr "GHZ") "" "E" [] []
              ltac:(vm_compute; reflexivity) ltac:(vm_compute; reflexivity)
              ltac:(vm_compute; reflexivity) ltac:(cbn; tauto)
              ltac:(vm_compute; reflexivity) ltac:(reflexivity)
              ltac:(vm_compute; reflexivity) ltac:(reflexivity) ltac:(reflexivity))
    as (H4 & H3 & _).
  exact (conj H4 H3).
Defined.


(** Witness for X21: switching from AMPLITUDE_DAMPING to PHASE_FLIP, which
    the specification counts among the single-qubit families. *)
Lemma switch_can_keep_conflict_witness :
  single_qubit_conflict single
    (<[ "noise_type" := VStr "PHASE_FLIP" ]>
       (Spec.params 3 "GHZ" "AMPLITUDE_DAMPING" true "qasm" "none")) = Ok true.
Proof.
  exact (proj1 (switch_can_keep_conflict single Spec.restarted
                  (Spec.params 3 "GHZ" "AMPLITUDE_DAMPING" true "qasm" "none")
                  "AMPLITUDE_DAMPING" (VInt 3) "switch" "p" [] []
                  ltac:(vm_compute; reflexivity) ltac:(cbn; tauto)
                  ltac:(vm_compute; reflexivity) ltac:(reflexivity)
                  ltac:(reflexivity) ltac:(cbn; tauto) ltac:(cbn; tauto))).
Defined.

End ResolverFacts.
